(** * QuizAppBackend: submission, scoring, visibility and ownership rules

    A shallow embedding of the Express/Mongoose route handlers of the quiz
    backend (routes/quizzes, routes/questions, routes/auth, routes/users and
    routes/analytics) together with the properties the specification states
    about them.

    Conventions of the embedding:
    - a Mongo collection keyed by [_id] is a [gmap] from the hexadecimal
      string of the ObjectId to the document; the attempt collection, which
      is only appended to and scanned, is a list in insertion order;
    - a JavaScript [Number] that holds a count is a [Z]; a [Number] that is
      the result of a division (percentages and averages) is an IEEE 754
      binary64 value, Rocq's primitive [float], so that rounding behaves as
      it does in the interpreter;
    - a handler is a function from the store and the request to a response
      and the new store; an exception raised inside the handler's [try]
      block ends in the [catch] branch, which answers 500;
    - the key of an entry of a collection is the [_id] of its document, and
      [save()] writes a document back under the key it was read from;
    - [auth] has already resolved the token to [req.user]. *)

From Stdlib Require Import ZArith QArith Floats Uint63 Ascii String List Lia Bool.
From stdpp Require Import base option list gmap strings pretty sorting.

Local Open Scope Z_scope.

(** ** JavaScript numbers *)

Module Num.

Definition num := float.

(** Conversion of an integer (a length or a counter) to a [Number]. *)
Definition of_Z (z : Z) : num :=
  if z <? 0 then PrimFloat.opp (PrimFloat.of_uint63 (Uint63.of_Z (- z)))
  else PrimFloat.of_uint63 (Uint63.of_Z z).

Definition add (a b : num) : num := PrimFloat.add a b.
Definition mul (a b : num) : num := PrimFloat.mul a b.
Definition div (a b : num) : num := PrimFloat.div a b.

(** [a >= b] and [a < b]; both are [false] when an operand is NaN. *)
Definition ge (a b : num) : bool := PrimFloat.leb b a.
Definition lt (a b : num) : bool := PrimFloat.ltb a b.

Definition isNaN (a : num) : bool := PrimFloat.is_nan a.

(** [Math.round]: the nearest integer, ties towards +infinity, that is
    floor(x + 1/2) computed exactly.  NaN, the infinities, the zeros and
    values with a non-negative exponent (already integers) are returned
    as they are. *)
Definition Math_round (x : num) : num :=
  match Prim2SF x with
  | S754_finite s m e =>
      if 0 <=? e then x
      else
        let n := if s then Z.neg m else Z.pos m in
        let r := (2 * n + 2 ^ (- e)) / 2 ^ (1 - e) in
        if (r =? 0) && s then PrimFloat.neg_zero else of_Z r
  | _ => x
  end.



(** The exact rational value of a finite number. *)
Definition to_Q (x : num) : option Q :=
  match Prim2SF x with
  | S754_zero _ => Some (0 # 1)%Q
  | S754_finite s m e =>
      let n := if s then Z.neg m else Z.pos m in
      Some (if 0 <=? e then (n * 2 ^ e # 1)%Q
            else (n # Z.to_pos (2 ^ (- e)))%Q)
  | _ => None
  end.

(** The integer a number denotes, when it denotes one. *)
Definition to_Z (x : num) : option Z :=
  match to_Q x with
  | Some q => if (Qden (Qred q) =? 1)%positive then Some (Qnum (Qred q)) else None
  | None => None
  end.

End Num.

(** ** JavaScript strings (ASCII fragment) *)

Module Str.

Definition lower_char (c : ascii) : ascii :=
  let n := nat_of_ascii c in
  if ((65 <=? n) && (n <=? 90))%nat then ascii_of_nat (n + 32) else c.

Fixpoint toLowerCase (s : string) : string :=
  match s with
  | EmptyString => EmptyString
  | String c r => String (lower_char c) (toLowerCase r)
  end.

Definition is_space (c : ascii) : bool :=
  let n := nat_of_ascii c in
  ((n =? 32) || ((9 <=? n) && (n <=? 13)))%nat.

Fixpoint trimStart (s : string) : string :=
  match s with
  | EmptyString => EmptyString
  | String c r => if is_space c then trimStart r else s
  end.

Definition reverse (s : string) : string :=
  string_of_list_ascii (rev (list_ascii_of_string s)).

Definition trim (s : string) : string :=
  reverse (trimStart (reverse (trimStart s))).

(** [a || b] on strings: the empty string is falsy. *)
Definition or_else (a b : string) : string :=
  match a with EmptyString => b | _ => a end.

End Str.

(** ** Exceptions and the handler's [try]/[catch] *)

Inductive exn : Type :=
  | TypeError (message : string)
  | ValidationError (message : string).

Definition exn_message (e : exn) : string :=
  match e with TypeError m | ValidationError m => m end.

Definition Exc (A : Type) : Type := exn + A.

Definition ret {A} (a : A) : Exc A := inr a.
Definition throw {A} (e : exn) : Exc A := inl e.
Definition bind {A B} (m : Exc A) (k : A -> Exc B) : Exc B :=
  match m with
  | inl e => inl e
  | inr a => k a
  end.

Declare Scope exc_scope.
Delimit Scope exc_scope with exc.
Notation "x <- m ;; k" := (bind m (fun x => k))
  (at level 100, m at next level, right associativity) : exc_scope.

(** Reading a property or calling a method on [undefined] raises. *)
Definition deref {A} (what : string) (o : option A) : Exc A :=
  match o with
  | Some a => ret a
  | None => throw (TypeError ("Cannot read properties of undefined (reading '" +:+ what +:+ "')"))
  end.

(** ** Responses *)

Inductive Response (A : Type) : Type :=
  | Success (status : Z) (message : option string) (payload : A)
  | Failure (status : Z) (message : string) (error : option string).
Arguments Success {A} status message payload.
Arguments Failure {A} status message error.

Definition server_error {A} (e : exn) : Response A :=
  Failure 500 "Server error" (Some (exn_message e)).

(** ** Documents (models/)

    The fields of the Mongoose schemas.  A path of type [String] or [Boolean]
    that is not required may be absent ([None]); [questionType] and [role]
    are kept as strings. *)

Definition ObjectId := string.

Record OptionDoc := {
  opt_id : ObjectId;
  text : option string;
  isCorrect : option bool
}.

Record Question := {
  question_id : ObjectId;
  question_title : string;
  questionText : string;
  questionType : string;
  options : list OptionDoc;
  correctAnswer : option string;
  explanation : option string;
  difficulty : string;
  question_subject : string;
  tags : list string;
  question_createdBy : ObjectId;
  question_isActive : bool;
  timesUsed : Z;
  question_averageScore : Num.num
}.

Record Quiz := {
  quiz_id : ObjectId;
  quiz_title : string;
  description : option string;
  quiz_subject : string;
  questions : list ObjectId;
  quiz_createdBy : ObjectId;
  timeLimit : Z;
  maxAttempts : Z;
  passingScore : Num.num;
  isPublished : bool;
  allowedStudents : list ObjectId;
  totalAttempts : Z;
  quiz_averageScore : Num.num
}.

Record ProcessedAnswer := {
  pa_question : ObjectId;
  pa_selectedAnswer : option string;
  pa_isCorrect : option bool;
  pa_timeSpent : Z
}.

Record QuizAttempt := {
  attempt_quiz : ObjectId;
  student : ObjectId;
  answers : list ProcessedAnswer;
  score : Z;
  percentage : Num.num;
  timeSpent : Z;
  startedAt : Z;
  submittedAt : Z;
  attemptNumber : Z;
  passed : bool
}.

Record User := {
  user_id : ObjectId;
  name : string;
  email : string;
  password : string;
  role : string;
  user_isActive : bool;
  totalQuizzesTaken : Z;
  user_averageScore : Num.num
}.

Record Store := {
  Quiz_docs : gmap string Quiz;
  Question_docs : gmap string Question;
  QuizAttempt_docs : list QuizAttempt;
  User_docs : gmap string User
}.

(** A value is truthy when it is [true]; [undefined] and [false] are not. *)
Definition truthy (b : option bool) : bool :=
  match b with Some true => true | _ => false end.

(** ** middleware/auth.js *)

(** [authorize(...roles)]: [roles.includes(req.user.role)]. *)
Definition authorize (roles : list string) (user : User) : bool :=
  existsb (String.eqb (role user)) roles.

Definition insufficient {A} : Response A :=
  Failure 403 "Access denied. Insufficient permissions." None.

(** ** Plain objects and their JSON rendering

    [toObject()] turns a document into a plain object, object spread and
    explicit keys build a new one, and [res.json] drops every property whose
    value is [undefined] (inside an array [undefined] becomes [null]). *)

#[local] Set Warnings "-register-all".

Inductive jsval : Type :=
  | JUndef
  | JNull
  | JBool (b : bool)
  | JNum (n : Num.num)
  | JInt (z : Z)
  | JStr (s : string)
  | JArr (l : list jsval)
  | JObj (fields : list (string * jsval)).

Definition jsobj := list (string * jsval).

Definition opt_str (o : option string) : jsval :=
  match o with Some s => JStr s | None => JUndef end.

Definition opt_bool (o : option bool) : jsval :=
  match o with Some b => JBool b | None => JUndef end.

Fixpoint obj_get (k : string) (o : jsobj) : option jsval :=
  match o with
  | [] => None
  | (k', v) :: rest => if String.eqb k' k then Some v else obj_get k rest
  end.

(** Assignment of a key in an object literal: an existing key keeps its
    position and takes the new value, a new key goes last. *)
Fixpoint obj_set (k : string) (v : jsval) (o : jsobj) : jsobj :=
  match o with
  | [] => [(k, v)]
  | (k', v') :: rest =>
      if String.eqb k' k then (k, v) :: rest else (k', v') :: obj_set k v rest
  end.

(** A path that was never set is not a property of the document's plain
    object. *)
Definition defined_fields (o : jsobj) : jsobj :=
  List.filter (fun kv => match kv.2 with JUndef => false | _ => true end) o.


Definition keys (o : jsobj) : list string := map fst o.

Definition option_toObject (opt : OptionDoc) : jsval :=
  JObj (defined_fields
          [("text", opt_str (text opt));
           ("isCorrect", opt_bool (isCorrect opt));
           ("_id", JStr (opt_id opt))]).

Definition question_toObject (q : Question) : jsobj :=
  defined_fields
    [("_id", JStr (question_id q));
     ("title", JStr (question_title q));
     ("questionText", JStr (questionText q));
     ("questionType", JStr (questionType q));
     ("options", JArr (map option_toObject (options q)));
     ("correctAnswer", opt_str (correctAnswer q));
     ("explanation", opt_str (explanation q));
     ("difficulty", JStr (difficulty q));
     ("subject", JStr (question_subject q));
     ("tags", JArr (map JStr (tags q)));
     ("createdBy", JStr (question_createdBy q));
     ("isActive", JBool (question_isActive q));
     ("timesUsed", JInt (timesUsed q));
     ("averageScore", JNum (question_averageScore q))].

(** ** routes/quizzes.js

    The router mounted at [/quizzes]; in the sources it is the second router
    of [routes/analytics.js]. *)

Module Quizzes.

Local Open Scope exc_scope.

(** [populate('questions')]: the referenced documents that exist, in the
    order of the references. *)
Definition populate_questions (s : Store) (ids : list ObjectId) : list Question :=
  omap (fun id => Question_docs s !! id) ids.

Definition populate_users (s : Store) (ids : list ObjectId) : list User :=
  omap (fun id => User_docs s !! id) ids.

(** *** GET /quizzes/:id *)

(** The object a student receives for one option and for one question. *)
Definition student_option (opt : OptionDoc) : jsval :=
  JObj [("text", opt_str (text opt)); ("_id", JStr (opt_id opt))].

Definition student_question (q : Question) : jsval :=
  JObj (obj_set "explanation" JUndef
         (obj_set "correctAnswer" JUndef
           (obj_set "options" (JArr (map student_option (options q)))
             (question_toObject q)))).

Fixpoint insert_by_number (a : QuizAttempt) (l : list QuizAttempt) : list QuizAttempt :=
  match l with
  | [] => [a]
  | b :: rest =>
      if attemptNumber b <? attemptNumber a then a :: l
      else b :: insert_by_number a rest
  end.

(** [.sort({ attemptNumber: -1 })] *)
Definition sort_attemptNumber_desc (l : list QuizAttempt) : list QuizAttempt :=
  fold_right insert_by_number [] l.

Record QuizPayload := {
  res_quiz : Quiz;
  res_questions : list jsval;
  res_userAttempts : list QuizAttempt
}.

Definition get_quiz (s : Store) (user : User) (id : ObjectId)
  : Response QuizPayload * Store :=
  match Quiz_docs s !! id with
  | None => (Failure 404 "Quiz not found" None, s)
  | Some quiz =>
      let createdBy := User_docs s !! quiz_createdBy quiz in
      let quiz_questions := populate_questions s (questions quiz) in
      let quiz_allowedStudents := populate_users s (allowedStudents quiz) in
      let attempts_of_user :=
        sort_attemptNumber_desc
          (List.filter
             (fun a => String.eqb (attempt_quiz a) (quiz_id quiz)
                       && String.eqb (student a) (user_id user))
             (QuizAttempt_docs s)) in
      if String.eqb (role user) "student" then
        if negb (isPublished quiz) then
          (Failure 403 "Quiz is not published" None, s)
        else if (0 <? Z.of_nat (length quiz_allowedStudents))
                && negb (existsb (fun st => String.eqb (user_id st) (user_id user))
                                 quiz_allowedStudents) then
          (Failure 403 "Access denied" None, s)
        else
          (Success 200 None
             {| res_quiz := quiz;
                res_questions := map student_question quiz_questions;
                res_userAttempts := attempts_of_user |}, s)
      else
        let answer_all :=
          (Success 200 None
             {| res_quiz := quiz;
                res_questions := map (fun q => JObj (question_toObject q)) quiz_questions;
                res_userAttempts := [] |}, s) in
        if String.eqb (role user) "teacher" then
          match deref "_id" createdBy with
          | inl e => (server_error e, s)
          | inr owner =>
              if negb (String.eqb (user_id owner) (user_id user)) then
                (Failure 403 "Access denied" None, s)
              else answer_all
          end
        else answer_all
  end.

(** *** POST /quizzes/:id/submit *)

Record Answer := {
  questionId : string;
  selectedAnswer : option string;
  answer_timeSpent : option Z
}.

Record SubmitBody := {
  body_answers : list Answer;
  body_timeSpent : Z
}.

Record AttemptResult := {
  res_score : Z;
  res_percentage : Num.num;
  res_passed : bool;
  res_timeSpent : Z;
  res_attemptNumber : Z
}.

(** [quiz.questions.find(q => q._id.toString() === answer.questionId)] *)
Definition find_question (qs : list Question) (questionId : string) : option Question :=
  find (fun q => String.eqb (question_id q) questionId) qs.

(** [question.options.find(opt => opt.isCorrect)] *)
Definition find_correct (opts : list OptionDoc) : option OptionDoc :=
  find (fun opt => truthy (isCorrect opt)) opts.

(** [s === answer.selectedAnswer] for a string [s]: an absent selection is
    not equal to any string. *)
Definition strict_eq (s : string) (sel : option string) : bool :=
  match sel with Some t => String.eqb s t | None => false end.

(** The value of [isCorrect] for one answer, by question type. *)
Definition grade (question : Question) (answer : Answer) : Exc (option bool) :=
  if String.eqb (questionType question) "multiple-choice" then
    match find_correct (options question) with
    | None => ret None
    | Some correctOption => ret (Some (strict_eq (opt_id correctOption) (selectedAnswer answer)))
    end
  else if String.eqb (questionType question) "true-false" then
    match find_correct (options question) with
    | None => ret None
    | Some correctOption =>
        t <- deref "toLowerCase" (text correctOption) ;;
        sel <- deref "toLowerCase" (selectedAnswer answer) ;;
        ret (Some (String.eqb (Str.toLowerCase t) (Str.toLowerCase sel)))
    end
  else if String.eqb (questionType question) "short-answer" then
    c <- deref "toLowerCase" (correctAnswer question) ;;
    sel <- deref "toLowerCase" (selectedAnswer answer) ;;
    ret (Some (String.eqb (Str.trim (Str.toLowerCase c)) (Str.trim (Str.toLowerCase sel))))
  else ret (Some false).

(** The body of the [answers.map] callback. *)
Definition process_answer (qs : list Question) (answer : Answer) : Exc ProcessedAnswer :=
  question <- deref "questionType" (find_question qs (questionId answer)) ;;
  isCorrect <- grade question answer ;;
  ret {| pa_question := question_id question;
         pa_selectedAnswer := selectedAnswer answer;
         pa_isCorrect := isCorrect;
         pa_timeSpent := default 0 (answer_timeSpent answer) |}.

(** [answers.map(...)] with the counter [correctAnswers] that the callback
    increments. *)
Fixpoint process_answers (qs : list Question) (answers : list Answer) (correctAnswers : Z)
  : Exc (list ProcessedAnswer * Z) :=
  match answers with
  | [] => ret ([], correctAnswers)
  | answer :: rest =>
      pa <- process_answer qs answer ;;
      r <- process_answers qs rest
             (if truthy (pa_isCorrect pa) then correctAnswers + 1 else correctAnswers) ;;
      ret (pa :: r.1, r.2)
  end.

(** [attempts.reduce((sum, att) => sum + att.percentage, 0) / attempts.length] *)
Definition average_percentage (attempts : list QuizAttempt) : Num.num :=
  Num.div (fold_left (fun sum att => Num.add sum (percentage att)) attempts (Num.of_Z 0))
          (Num.of_Z (Z.of_nat (length attempts))).

(** [Math.round((correctAnswers / quiz.questions.length) * 100)] *)
Definition percentage_of (correctAnswers total : Z) : Num.num :=
  Num.Math_round
    (Num.mul (Num.div (Num.of_Z correctAnswers) (Num.of_Z total)) (Num.of_Z 100)).

Definition attempts_of_quiz (quizId : ObjectId) (l : list QuizAttempt) : list QuizAttempt :=
  List.filter (fun a => String.eqb (attempt_quiz a) quizId) l.

Definition attempts_of_student (userId : ObjectId) (l : list QuizAttempt) : list QuizAttempt :=
  List.filter (fun a => String.eqb (student a) userId) l.

Definition attempts_of (quizId userId : ObjectId) (l : list QuizAttempt) : list QuizAttempt :=
  List.filter (fun a => String.eqb (attempt_quiz a) quizId && String.eqb (student a) userId) l.

(** [attempt.save()] validates the document against the schema first.
    [percentage] is declared a required [Number], and the cast to [Number]
    refuses NaN (the value of 0 / 0 for a quiz without questions), in which
    case [save] raises and nothing is written. *)
Definition validate_attempt (a : QuizAttempt) : Exc unit :=
  if Num.isNaN (percentage a) then
    throw (ValidationError "QuizAttempt validation failed: percentage")
  else ret tt.

Definition save_attempt (a : QuizAttempt) (s : Store) : Store :=
  {| Quiz_docs := Quiz_docs s;
     Question_docs := Question_docs s;
     QuizAttempt_docs := QuizAttempt_docs s ++ [a];
     User_docs := User_docs s |}.

Definition save_quiz (id : ObjectId) (q : Quiz) (s : Store) : Store :=
  {| Quiz_docs := <[id := q]> (Quiz_docs s);
     Question_docs := Question_docs s;
     QuizAttempt_docs := QuizAttempt_docs s;
     User_docs := User_docs s |}.

Definition save_user (id : ObjectId) (u : User) (s : Store) : Store :=
  {| Quiz_docs := Quiz_docs s;
     Question_docs := Question_docs s;
     QuizAttempt_docs := QuizAttempt_docs s;
     User_docs := <[id := u]> (User_docs s) |}.

Definition with_quiz_stats (q : Quiz) (total : Z) (avg : Num.num) : Quiz :=
  {| quiz_id := quiz_id q; quiz_title := quiz_title q; description := description q;
     quiz_subject := quiz_subject q; questions := questions q;
     quiz_createdBy := quiz_createdBy q; timeLimit := timeLimit q;
     maxAttempts := maxAttempts q; passingScore := passingScore q;
     isPublished := isPublished q; allowedStudents := allowedStudents q;
     totalAttempts := total; quiz_averageScore := avg |}.

Definition with_user_stats (u : User) (taken : Z) (avg : Num.num) : User :=
  {| user_id := user_id u; name := name u; email := email u; password := password u;
     role := role u; user_isActive := user_isActive u;
     totalQuizzesTaken := taken; user_averageScore := avg |}.

Definition submit (now : Z) (s : Store) (user : User) (quizId : ObjectId) (body : SubmitBody)
  : Response AttemptResult * Store :=
  if negb (authorize ["student"] user) then (insufficient, s) else
  match Quiz_docs s !! quizId with
  | None => (Failure 404 "Quiz not found or not published" None, s)
  | Some quiz =>
      if negb (isPublished quiz) then
        (Failure 404 "Quiz not found or not published" None, s)
      else
        let quiz_questions := populate_questions s (questions quiz) in
        let previousAttempts :=
          Z.of_nat (length (attempts_of quizId (user_id user) (QuizAttempt_docs s))) in
        if maxAttempts quiz <=? previousAttempts then
          (Failure 400 "Maximum attempts exceeded" None, s)
        else
          match process_answers quiz_questions (body_answers body) 0 with
          | inl e => (server_error e, s)
          | inr (processedAnswers, correctAnswers) =>
              let score := correctAnswers in
              let percentage :=
                percentage_of correctAnswers (Z.of_nat (length quiz_questions)) in
              let passed := Num.ge percentage (passingScore quiz) in
              let attempt :=
                {| attempt_quiz := quizId;
                   student := user_id user;
                   answers := processedAnswers;
                   score := score;
                   percentage := percentage;
                   timeSpent := body_timeSpent body;
                   startedAt := now - body_timeSpent body * 1000;
                   submittedAt := now;
                   attemptNumber := previousAttempts + 1;
                   passed := passed |} in
              match validate_attempt attempt with
              | inl e => (server_error e, s)
              | inr _ =>
                  let s1 := save_attempt attempt s in
                  (* Update quiz statistics *)
                  let allAttempts := attempts_of_quiz quizId (QuizAttempt_docs s1) in
                  let avgScore := average_percentage allAttempts in
                  let s2 :=
                    save_quiz quizId
                      (with_quiz_stats quiz (totalAttempts quiz + 1) (Num.Math_round avgScore))
                      s1 in
                  (* Update user statistics *)
                  match deref "totalQuizzesTaken" (User_docs s2 !! user_id user) with
                  | inl e => (server_error e, s2)
                  | inr u =>
                      let userAttempts :=
                        attempts_of_student (user_id user) (QuizAttempt_docs s2) in
                      let userAvgScore := average_percentage userAttempts in
                      let s3 :=
                        save_user (user_id user)
                          (with_user_stats u (totalQuizzesTaken u + 1)
                             (Num.Math_round userAvgScore))
                          s2 in
                      (Success 200 (Some "Quiz submitted successfully")
                         {| res_score := score;
                            res_percentage := percentage;
                            res_passed := passed;
                            res_timeSpent := body_timeSpent body;
                            res_attemptNumber := attemptNumber attempt |}, s3)
                  end
              end
          end
  end.

End Quizzes.

(** ** routes/questions.js

    The router mounted at [/questions]. *)

Module Questions.

(** The fields of a request body that [Object.assign(question, req.body)]
    copies onto the document; an absent field leaves the path as it is. *)
Record QuestionBody := {
  body_title : option string;
  body_questionText : option string;
  body_questionType : option string;
  body_options : option (list OptionDoc);
  body_correctAnswer : option string;
  body_explanation : option string;
  body_difficulty : option string;
  body_subject : option string;
  body_tags : option (list string);
  body_createdBy : option ObjectId
}.

Definition assign (q : Question) (b : QuestionBody) : Question :=
  {| question_id := question_id q;
     question_title := default (question_title q) (body_title b);
     questionText := default (questionText q) (body_questionText b);
     questionType := default (questionType q) (body_questionType b);
     options := default (options q) (body_options b);
     correctAnswer := match body_correctAnswer b with Some c => Some c | None => correctAnswer q end;
     explanation := match body_explanation b with Some c => Some c | None => explanation q end;
     difficulty := default (difficulty q) (body_difficulty b);
     question_subject := default (question_subject q) (body_subject b);
     tags := default (tags q) (body_tags b);
     question_createdBy := default (question_createdBy q) (body_createdBy b);
     question_isActive := question_isActive q;
     timesUsed := timesUsed q;
     question_averageScore := question_averageScore q |}.

Definition save_question (id : ObjectId) (q : Question) (s : Store) : Store :=
  {| Quiz_docs := Quiz_docs s;
     Question_docs := <[id := q]> (Question_docs s);
     QuizAttempt_docs := QuizAttempt_docs s;
     User_docs := User_docs s |}.

Definition delete_question_doc (id : ObjectId) (s : Store) : Store :=
  {| Quiz_docs := Quiz_docs s;
     Question_docs := delete id (Question_docs s);
     QuizAttempt_docs := QuizAttempt_docs s;
     User_docs := User_docs s |}.

Definition access_denied {A} : Response A := Failure 403 "Access denied" None.
Definition not_found {A} : Response A := Failure 404 "Question not found" None.

(** GET /questions/:id; [createdBy] is populated, so the owner is read
    through the user document. *)
Definition get_question (s : Store) (user : User) (id : ObjectId)
  : Response Question * Store :=
  if negb (authorize ["admin"; "teacher"] user) then (insufficient, s) else
  match Question_docs s !! id with
  | None => (not_found, s)
  | Some question =>
      if String.eqb (role user) "teacher" then
        match deref "_id" (User_docs s !! question_createdBy question) with
        | inl e => (server_error e, s)
        | inr owner =>
            if negb (String.eqb (user_id owner) (user_id user)) then (access_denied, s)
            else (Success 200 None question, s)
        end
      else (Success 200 None question, s)
  end.

(** PUT /questions/:id *)
Definition update_question (s : Store) (user : User) (id : ObjectId) (body : QuestionBody)
  : Response Question * Store :=
  if negb (authorize ["admin"; "teacher"] user) then (insufficient, s) else
  match Question_docs s !! id with
  | None => (not_found, s)
  | Some question =>
      if String.eqb (role user) "teacher"
         && negb (String.eqb (question_createdBy question) (user_id user)) then
        (access_denied, s)
      else
        let question' := assign question body in
        (Success 200 (Some "Question updated successfully") question',
         save_question id question' s)
  end.

(** DELETE /questions/:id *)
Definition delete_question (s : Store) (user : User) (id : ObjectId)
  : Response unit * Store :=
  if negb (authorize ["admin"; "teacher"] user) then (insufficient, s) else
  match Question_docs s !! id with
  | None => (not_found, s)
  | Some question =>
      if String.eqb (role user) "teacher"
         && negb (String.eqb (question_createdBy question) (user_id user)) then
        (access_denied, s)
      else
        (Success 200 (Some "Question deleted successfully") tt,
         delete_question_doc id s)
  end.

End Questions.

(** ** routes/auth.js and routes/users.js *)

Section Accounts.

(** Collaborators of the account routes: the validator's [isEmail] and
    [normalizeEmail], the [pre('save')] password hash and the token
    issuer. *)
Variable isEmail : string -> bool.
Variable normalizeEmail : string -> string.
Variable bcrypt_hash : string -> string.
Variable jwt_sign : ObjectId -> string.

Record AccountBody := {
  body_name : string;
  body_email : string;
  body_password : string;
  body_role : option string
}.

Definition length_between (lo hi : nat) (s : string) : bool :=
  ((lo <=? String.length s) && (String.length s <=? hi))%nat.

Definition is_role (r : string) : bool :=
  existsb (String.eqb r) ["admin"; "teacher"; "student"].

(** [User.findOne({ email })] *)
Definition findOne_email (s : Store) (e : string) : option User :=
  find (fun u => String.eqb (email u) e) (map snd (map_to_list (User_docs s))).

Definition new_user (id : ObjectId) (n e p r : string) : User :=
  {| user_id := id; name := Str.trim n; email := Str.trim (Str.toLowerCase e);
     password := bcrypt_hash p; role := r; user_isActive := true;
     totalQuizzesTaken := 0; user_averageScore := Num.of_Z 0 |}.

Definition insert_user (u : User) (s : Store) : Store :=
  {| Quiz_docs := Quiz_docs s;
     Question_docs := Question_docs s;
     QuizAttempt_docs := QuizAttempt_docs s;
     User_docs := <[user_id u := u]> (User_docs s) |}.

(** POST /auth/register.  The handler destructures [name], [email] and
    [password] from the body and then executes [role = 'admin']; the new
    document gets [role || 'student'].  [id] is the ObjectId generated for
    the new document. *)
Definition validate_register (b : AccountBody) : bool :=
  length_between 2 50 (Str.trim (body_name b))
  && isEmail (body_email b)
  && (6 <=? String.length (body_password b))%nat
  && match body_role b with Some r => is_role r | None => true end.

Definition register (s : Store) (id : ObjectId) (b : AccountBody)
  : Response (User * string) * Store :=
  if negb (validate_register b) then (Failure 400 "Validation errors" None, s) else
  let name := Str.trim (body_name b) in
  let email := normalizeEmail (body_email b) in
  let password := body_password b in
  let role := "admin" in
  match findOne_email s email with
  | Some _ => (Failure 400 "User already exists with this email" None, s)
  | None =>
      let user := new_user id name email password (Str.or_else role "student") in
      let token := jwt_sign (user_id user) in
      (Success 201 (Some "User registered successfully") (user, token), insert_user user s)
  end.

(** POST /users (admin only): the role is the one the body carries. *)
Definition validate_create (b : AccountBody) : bool :=
  length_between 2 50 (Str.trim (body_name b))
  && isEmail (body_email b)
  && (6 <=? String.length (body_password b))%nat
  && match body_role b with Some r => is_role r | None => false end.

Definition create_user (s : Store) (actor : User) (id : ObjectId) (b : AccountBody)
  : Response User * Store :=
  if negb (authorize ["admin"] actor) then (insufficient, s) else
  if negb (validate_create b) then (Failure 400 "Validation errors" None, s) else
  let name := Str.trim (body_name b) in
  let email := normalizeEmail (body_email b) in
  let password := body_password b in
  match body_role b with
  | None => (Failure 400 "Validation errors" None, s)
  | Some role =>
      match findOne_email s email with
      | Some _ => (Failure 400 "User already exists with this email" None, s)
      | None =>
          let user := new_user id name email password role in
          (Success 201 (Some "User created successfully") user, insert_user user s)
      end
  end.

End Accounts.

(** ** routes/analytics.js

    The score distribution of GET /analytics/quiz-analytics/:id. *)

Module Analytics.

Record ScoreDistribution := {
  range_0_20 : nat;
  range_21_40 : nat;
  range_41_60 : nat;
  range_61_80 : nat;
  range_81_100 : nat
}.

(** The five filter predicates of [scoreDistribution]. *)
Definition in_0_20 (p : Num.num) : bool := Num.ge p 0%float && Num.lt p 21%float.
Definition in_21_40 (p : Num.num) : bool := Num.ge p 21%float && Num.lt p 41%float.
Definition in_41_60 (p : Num.num) : bool := Num.ge p 41%float && Num.lt p 61%float.
Definition in_61_80 (p : Num.num) : bool := Num.ge p 61%float && Num.lt p 81%float.
Definition in_81_100 (p : Num.num) : bool := Num.ge p 81%float.

Definition count (f : Num.num -> bool) (attempts : list QuizAttempt) : nat :=
  length (List.filter (fun att => f (percentage att)) attempts).

Definition scoreDistribution (attempts : list QuizAttempt) : ScoreDistribution :=
  {| range_0_20 := count in_0_20 attempts;
     range_21_40 := count in_21_40 attempts;
     range_41_60 := count in_41_60 attempts;
     range_61_80 := count in_61_80 attempts;
     range_81_100 := count in_81_100 attempts |}.






End Analytics.

(** ** Notions of the specification *)

Module Spec.

(** [round(a / b)] over the rationals, for [b > 0]: the nearest integer,
    a half going up. *)
Definition round_ratio (a b : Z) : Z := (2 * a + b) / (2 * b).

(** Whether the handler's percentage for [c] correct answers out of [n]
    questions is the integer [round(100 * c / n)]. *)
Definition percentage_is_rounded_ratio (c n : nat) : bool :=
  match Num.to_Z (Quizzes.percentage_of (Z.of_nat c) (Z.of_nat n)) with
  | Some z => z =? round_ratio (100 * Z.of_nat c) (Z.of_nat n)
  | None => false
  end.




(** What a student may see of an option: its text, when it has one, and
    its id. *)
Definition shown_option (opt : OptionDoc) : jsval :=
  JObj (match text opt with Some t => [("text", JStr t)] | None => [] end
        ++ [("_id", JStr (opt_id opt))]).


End Spec.

(** ** Sample data

    A student, two teachers, and quizzes made of multiple-choice questions
    whose first option is the correct one. *)

Module Sample.

Import Quizzes.

Definition mk_user (id r : string) : User :=
  {| user_id := id; name := id; email := id +:+ "@example.org"; password := "";
     role := r; user_isActive := true; totalQuizzesTaken := 0;
     user_averageScore := Num.of_Z 0 |}.

Definition alice := mk_user "alice" "student".
Definition teacherA := mk_user "teacherA" "teacher".
Definition teacherB := mk_user "teacherB" "teacher".

Definition qid (i : nat) : ObjectId := "q" +:+ pretty i.

Definition mk_question (ty : string) (key : option string) (i : nat) : Question :=
  {| question_id := qid i;
     question_title := "Question " +:+ pretty i;
     questionText := "What is the answer?";
     questionType := ty;
     options := [ {| opt_id := qid i +:+ "-right"; text := Some "True"; isCorrect := Some true |};
                  {| opt_id := qid i +:+ "-wrong"; text := Some "False"; isCorrect := Some false |} ];
     correctAnswer := key;
     explanation := Some "Because.";
     difficulty := "medium";
     question_subject := "math";
     tags := [];
     question_createdBy := "teacherA";
     question_isActive := true;
     timesUsed := 0;
     question_averageScore := Num.of_Z 0 |}.

Definition choice (i : nat) : Question := mk_question "multiple-choice" None i.

Definition mk_quiz (id : ObjectId) (n : nat) (limit : Z) (pass : Num.num) : Quiz :=
  {| quiz_id := id; quiz_title := "Quiz " +:+ id; description := None;
     quiz_subject := "math"; questions := map qid (seq 0 n);
     quiz_createdBy := "teacherA"; timeLimit := 30; maxAttempts := limit;
     passingScore := pass; isPublished := true; allowedStudents := [];
     totalAttempts := 0; quiz_averageScore := Num.of_Z 0 |}.

Definition users : gmap string User :=
  <["alice" := alice]> (<["teacherA" := teacherA]> (<["teacherB" := teacherB]> ∅)).

Definition question_docs (l : list Question) : gmap string Question :=
  list_to_map (map (fun q => (question_id q, q)) l).

(** A store with one quiz of [n] multiple-choice questions. *)
Definition store_of (quiz : Quiz) (qs : list Question) : Store :=
  {| Quiz_docs := <[quiz_id quiz := quiz]> ∅;
     Question_docs := question_docs qs;
     QuizAttempt_docs := [];
     User_docs := users |}.

Definition right_answer (i : nat) : Answer :=
  {| questionId := qid i; selectedAnswer := Some (qid i +:+ "-right");
     answer_timeSpent := Some 5 |}.

Definition wrong_answer (i : nat) : Answer :=
  {| questionId := qid i; selectedAnswer := Some (qid i +:+ "-wrong");
     answer_timeSpent := Some 5 |}.

(** The first [k] of [n] questions answered correctly, the others wrongly. *)
Definition answers_right (k n : nat) : SubmitBody :=
  {| body_answers := map right_answer (seq 0 k) ++ map wrong_answer (seq k (n - k));
     body_timeSpent := 600 |}.

(** passingScore 60, four multiple-choice questions, three attempts. *)
Definition quiz4 := mk_quiz "quiz4" 4 3 60%float.
Definition store4 := store_of quiz4 (map choice (seq 0 4)).

(** Forty questions, passing score 58. *)
Definition quiz40 := mk_quiz "quiz40" 40 3 58%float.
Definition store40 := store_of quiz40 (map choice (seq 0 40)).

(** A quiz without questions. *)
Definition quiz0 := mk_quiz "quiz0" 0 3 60%float.
Definition store0 := store_of quiz0 [].

(** One question, one attempt allowed. *)
Definition quiz1 := mk_quiz "quiz1" 1 1 60%float.
Definition store1 := store_of quiz1 (map choice (seq 0 1)).

(** A quiz of one multiple-choice question and one short-answer question
    that was created without [correctAnswer]. *)
Definition quiz2 := mk_quiz "quiz2" 2 3 60%float.
Definition store_short :=
  store_of quiz2 [choice 0; mk_question "short-answer" None 1].

Definition answers_short : SubmitBody :=
  {| body_answers :=
       [right_answer 0;
        {| questionId := qid 1; selectedAnswer := Some "paris"; answer_timeSpent := None |}];
     body_timeSpent := 600 |}.

(** The same question answered twice. *)
Definition answers_twice : SubmitBody :=
  {| body_answers := [right_answer 0; right_answer 0]; body_timeSpent := 600 |}.

(** An answer to a question that is not part of the quiz. *)
Definition answers_unknown : SubmitBody :=
  {| body_answers := [right_answer 0; right_answer 7]; body_timeSpent := 600 |}.

Definition now : Z := 1700000000000.

(** Stand-ins for the collaborators of the account routes. *)
Definition isEmail (e : string) : bool :=
  match index 0 "@" e with Some _ => true | None => false end.
Definition normalizeEmail (e : string) : string := Str.toLowerCase e.
Definition bcrypt_hash (p : string) : string := "hash:" +:+ p.
Definition jwt_sign (id : ObjectId) : string := "token:" +:+ id.

Definition bob_body : AccountBody :=
  {| body_name := "Bob"; body_email := "bob@example.org";
     body_password := "secret1"; body_role := Some "student" |}.

Definition attempt_with (p : Num.num) : QuizAttempt :=
  {| attempt_quiz := "quiz4"; student := "alice"; answers := []; score := 0;
     percentage := p; timeSpent := 600; startedAt := now - 600000;
     submittedAt := now; attemptNumber := 1; passed := Num.ge p 60%float |}.

End Sample.

(** * The other routes *)

(** ** routes/quizzes.js: creating, updating, deleting and listing quizzes *)

Module QuizRoutes.

(** The paths of the quiz schema a request body may carry. *)
Record QuizBody := {
  quiz_body_title : option string;
  quiz_body_description : option string;
  quiz_body_subject : option string;
  quiz_body_questions : option (list ObjectId);
  quiz_body_createdBy : option ObjectId;
  quiz_body_timeLimit : option Z;
  quiz_body_maxAttempts : option Z;
  quiz_body_passingScore : option Num.num;
  quiz_body_isPublished : option bool;
  quiz_body_allowedStudents : option (list ObjectId);
  quiz_body_totalAttempts : option Z;
  quiz_body_averageScore : option Num.num
}.

Definition optional {A} (check : A -> bool) (o : option A) : bool :=
  match o with Some a => check a | None => true end.

Definition int_between (lo hi : Z) (z : Z) : bool := (lo <=? z) && (z <=? hi).

(** [isInt({ min, max })] on a number that may have a fraction. *)
Definition num_int_between (lo hi : Z) (x : Num.num) : bool :=
  match Num.to_Z x with Some z => int_between lo hi z | None => false end.

(** The validation chain of POST /quizzes. *)
Definition validate_quiz (b : QuizBody) : bool :=
  match quiz_body_title b with
  | Some t => length_between 5 200 (Str.trim t)
  | None => false
  end
  && match quiz_body_subject b with
     | Some sub => (2 <=? String.length sub)%nat
     | None => false
     end
  && match quiz_body_questions b with
     | Some (_ :: _) => true
     | _ => false
     end
  && optional (int_between 5 300) (quiz_body_timeLimit b)
  && optional (int_between 1 10) (quiz_body_maxAttempts b)
  && optional (num_int_between 0 100) (quiz_body_passingScore b).

(** [Question.find({ _id: { $in: questions } })] *)
Definition find_questions (s : Store) (ids : list ObjectId) : list Question :=
  map snd (List.filter (fun kv => existsb (String.eqb kv.1) ids)
                       (map_to_list (Question_docs s))).

(** [new Quiz({ ...req.body, createdBy: req.user._id })] with the defaults
    of the schema. *)
Definition new_quiz (id : ObjectId) (b : QuizBody) (owner : ObjectId) : Quiz :=
  {| quiz_id := id;
     quiz_title := Str.trim (default "" (quiz_body_title b));
     description := quiz_body_description b;
     quiz_subject := default "" (quiz_body_subject b);
     questions := default [] (quiz_body_questions b);
     quiz_createdBy := owner;
     timeLimit := default 30 (quiz_body_timeLimit b);
     maxAttempts := default 3 (quiz_body_maxAttempts b);
     passingScore := default 60%float (quiz_body_passingScore b);
     isPublished := default false (quiz_body_isPublished b);
     allowedStudents := default [] (quiz_body_allowedStudents b);
     totalAttempts := default 0 (quiz_body_totalAttempts b);
     quiz_averageScore := default 0%float (quiz_body_averageScore b) |}.

Definition quiz_not_found {A} : Response A := Failure 404 "Quiz not found" None.
Definition quiz_denied {A} : Response A := Failure 403 "Access denied" None.

(** POST /quizzes; [id] is the ObjectId generated for the new document. *)
Definition create_quiz (s : Store) (user : User) (id : ObjectId) (b : QuizBody)
  : Response Quiz * Store :=
  if negb (authorize ["admin"; "teacher"] user) then (insufficient, s) else
  if negb (validate_quiz b) then (Failure 400 "Validation errors" None, s) else
  let questions := default [] (quiz_body_questions b) in
  let questionDocs := find_questions s questions in
  if negb (length questionDocs =? length questions)%nat then
    (Failure 400 "Some questions not found" None, s)
  else
    let quiz := new_quiz id b (user_id user) in
    (Success 201 (Some "Quiz created successfully") quiz,
     Quizzes.save_quiz id quiz s).

(** [Object.assign(quiz, req.body)] *)
Definition assign_quiz (q : Quiz) (b : QuizBody) : Quiz :=
  {| quiz_id := quiz_id q;
     quiz_title := match quiz_body_title b with Some t => Str.trim t | None => quiz_title q end;
     description :=
       match quiz_body_description b with Some d => Some d | None => description q end;
     quiz_subject := default (quiz_subject q) (quiz_body_subject b);
     questions := default (questions q) (quiz_body_questions b);
     quiz_createdBy := default (quiz_createdBy q) (quiz_body_createdBy b);
     timeLimit := default (timeLimit q) (quiz_body_timeLimit b);
     maxAttempts := default (maxAttempts q) (quiz_body_maxAttempts b);
     passingScore := default (passingScore q) (quiz_body_passingScore b);
     isPublished := default (isPublished q) (quiz_body_isPublished b);
     allowedStudents := default (allowedStudents q) (quiz_body_allowedStudents b);
     totalAttempts := default (totalAttempts q) (quiz_body_totalAttempts b);
     quiz_averageScore := default (quiz_averageScore q) (quiz_body_averageScore b) |}.

(** [quiz.save()] validates the required paths: a required string must not
    be empty. *)
Definition validate_quiz_doc (q : Quiz) : Exc unit :=
  if String.eqb (quiz_title q) "" then
    throw (ValidationError "Quiz validation failed: title")
  else if String.eqb (quiz_subject q) "" then
    throw (ValidationError "Quiz validation failed: subject")
  else ret tt.

(** PUT /quizzes/:id *)
Definition update_quiz (s : Store) (user : User) (id : ObjectId) (b : QuizBody)
  : Response Quiz * Store :=
  if negb (authorize ["admin"; "teacher"] user) then (insufficient, s) else
  match Quiz_docs s !! id with
  | None => (quiz_not_found, s)
  | Some quiz =>
      if String.eqb (role user) "teacher"
         && negb (String.eqb (quiz_createdBy quiz) (user_id user)) then
        (quiz_denied, s)
      else
        let quiz' := assign_quiz quiz b in
        match validate_quiz_doc quiz' with
        | inl e => (server_error e, s)
        | inr _ =>
            (Success 200 (Some "Quiz updated successfully") quiz',
             Quizzes.save_quiz id quiz' s)
        end
  end.

(** [QuizAttempt.deleteMany({ quiz: quiz._id })] followed by
    [Quiz.findByIdAndDelete(req.params.id)]. *)
Definition delete_quiz_docs (id : ObjectId) (quiz : Quiz) (s : Store) : Store :=
  {| Quiz_docs := delete id (Quiz_docs s);
     Question_docs := Question_docs s;
     QuizAttempt_docs :=
       List.filter (fun a => negb (String.eqb (attempt_quiz a) (quiz_id quiz)))
                   (QuizAttempt_docs s);
     User_docs := User_docs s |}.

(** DELETE /quizzes/:id *)
Definition delete_quiz (s : Store) (user : User) (id : ObjectId)
  : Response unit * Store :=
  if negb (authorize ["admin"; "teacher"] user) then (insufficient, s) else
  match Quiz_docs s !! id with
  | None => (quiz_not_found, s)
  | Some quiz =>
      if String.eqb (role user) "teacher"
         && negb (String.eqb (quiz_createdBy quiz) (user_id user)) then
        (quiz_denied, s)
      else
        (Success 200 (Some "Quiz deleted successfully") tt, delete_quiz_docs id quiz s)
  end.

(** The filter GET /quizzes builds from the requester and the query string
    ([subject] and [isPublished] as they arrive, as strings). *)
Record QuizQuery := {
  query_isPublished : option bool;
  query_open_to : option ObjectId;
  query_createdBy : option ObjectId;
  query_subject : option string
}.

Definition list_query (user : User) (subject isPublished : option string) : QuizQuery :=
  let student := String.eqb (role user) "student" in
  let teacher := String.eqb (role user) "teacher" in
  {| query_isPublished :=
       match isPublished with
       | Some v => Some (String.eqb v "true")
       | None => if student then Some true else None
       end;
     query_open_to := if student then Some (user_id user) else None;
     query_createdBy :=
       if student then None else if teacher then Some (user_id user) else None;
     query_subject :=
       match subject with
       | Some EmptyString | None => None
       | Some sub => Some sub
       end |}.

(** A quiz satisfies the filter: [$or] of "the allow-list holds the student"
    and "the allow-list is empty", and equality on the other paths. *)
Definition matches (q : QuizQuery) (quiz : Quiz) : bool :=
  optional (Bool.eqb (isPublished quiz)) (query_isPublished q)
  && optional (fun uid => existsb (String.eqb uid) (allowedStudents quiz)
                          || (length (allowedStudents quiz) =? 0)%nat)
              (query_open_to q)
  && optional (String.eqb (quiz_createdBy quiz)) (query_createdBy q)
  && optional (String.eqb (quiz_subject quiz)) (query_subject q).

(** [Quiz.countDocuments(query)], the [total] of the response. *)
Definition list_total (s : Store) (user : User) (subject isPublished : option string) : nat :=
  length (List.filter (fun kv => matches (list_query user subject isPublished) kv.2)
                      (map_to_list (Quiz_docs s))).

End QuizRoutes.

(** ** routes/questions.js: creating a question *)

Module QuestionRoutes.

Import Questions.

Definition is_question_type (t : string) : bool :=
  existsb (String.eqb t) ["multiple-choice"; "true-false"; "short-answer"].

Definition is_difficulty (d : string) : bool :=
  existsb (String.eqb d) ["easy"; "medium"; "hard"].

(** The validation chain of POST /questions. *)
Definition validate_question (b : QuestionBody) : bool :=
  match body_title b with
  | Some t => length_between 5 200 (Str.trim t)
  | None => false
  end
  && match body_questionText b with
     | Some t => (10 <=? String.length t)%nat
     | None => false
     end
  && match body_questionType b with
     | Some t => is_question_type t
     | None => false
     end
  && match body_subject b with
     | Some sub => (2 <=? String.length sub)%nat
     | None => false
     end
  && QuizRoutes.optional is_difficulty (body_difficulty b).

(** [new Question({ ...req.body, createdBy: req.user._id })] with the
    defaults of the schema. *)
Definition new_question (id : ObjectId) (b : QuestionBody) (owner : ObjectId) : Question :=
  {| question_id := id;
     question_title := Str.trim (default "" (body_title b));
     questionText := default "" (body_questionText b);
     questionType := default "multiple-choice" (body_questionType b);
     options := default [] (body_options b);
     correctAnswer := body_correctAnswer b;
     explanation := body_explanation b;
     difficulty := default "medium" (body_difficulty b);
     question_subject := default "" (body_subject b);
     tags := default [] (body_tags b);
     question_createdBy := owner;
     question_isActive := true;
     timesUsed := 0;
     question_averageScore := 0%float |}.

(** The check of the options of a multiple-choice question: the message of
    the 400 answer, if any. *)
Definition check_options (b : QuestionBody) : option string :=
  if match body_questionType b with
     | Some t => String.eqb t "multiple-choice"
     | None => false
     end
  then
    match body_options b with
    | Some opts =>
        if (length opts <? 2)%nat then
          Some "Multiple choice questions must have at least 2 options"
        else if (length (List.filter (fun o => truthy (isCorrect o)) opts) =? 0)%nat then
          Some "At least one option must be marked as correct"
        else None
    | None => Some "Multiple choice questions must have at least 2 options"
    end
  else None.

(** POST /questions; [id] is the ObjectId generated for the new document. *)
Definition create_question (s : Store) (user : User) (id : ObjectId) (b : QuestionBody)
  : Response Question * Store :=
  if negb (authorize ["admin"; "teacher"] user) then (insufficient, s) else
  if negb (validate_question b) then (Failure 400 "Validation errors" None, s) else
  match check_options b with
  | Some message => (Failure 400 message None, s)
  | None =>
      let question := new_question id b (user_id user) in
      (Success 201 (Some "Question created successfully") question,
       save_question id question s)
  end.

(** A body that carries [createdBy] and nothing else. *)
Definition only_createdBy (owner : ObjectId) : QuestionBody :=
  {| body_title := None; body_questionText := None; body_questionType := None;
     body_options := None; body_correctAnswer := None; body_explanation := None;
     body_difficulty := None; body_subject := None; body_tags := None;
     body_createdBy := Some owner |}.

End QuestionRoutes.

(** ** routes/users.js: listing parameters, reading and deleting users *)

Module UserRoutes.

Definition is_digit (c : ascii) : bool :=
  let n := nat_of_ascii c in ((48 <=? n) && (n <=? 57))%nat.

Definition digit_value (c : ascii) : Z := Z.of_nat (nat_of_ascii c) - 48.

(** The value of the longest prefix of decimal digits, if there is one. *)
Fixpoint digits (s : string) (acc : option Z) : option Z :=
  match s with
  | String c r =>
      if is_digit c then digits r (Some (10 * default 0 acc + digit_value c)) else acc
  | EmptyString => acc
  end.

(** [parseInt(s, 10)]: leading white space, an optional sign, then digits;
    [None] stands for NaN.  The value is kept exact (the interpreter rounds
    it to a double above 2^53). *)
Definition parseInt (s : string) : option Z :=
  match Str.trimStart s with
  | String "-" r => Z.opp <$> digits r None
  | String "+" r => digits r None
  | t => digits t None
  end.

(** [Math.max(1, parseInt(req.query.page ?? "1", 10) || 1)] *)
Definition page_of (page : option string) : Z :=
  Z.max 1 (match parseInt (default "1" page) with
           | Some n => if n =? 0 then 1 else n
           | None => 1
           end).

(** [Math.min(100, Math.max(1, Number.isNaN(limitNum) ? 10 : limitNum))] *)
Definition limit_of (limit : option string) : Z :=
  Z.min 100 (Z.max 1 (default 10 (parseInt (default "10" limit)))).

(** The value of [query.role]: a role, the empty array (for a String path
    an array is queried as [$in], so it matches no document), or
    [{ $in: visibleRoles }]. *)
Inductive RoleFilter : Type :=
  | RoleIs (r : string)
  | RoleNone
  | RoleAmong (rs : list string).

Definition visibleRoles (user : User) : list string :=
  if String.eqb (role user) "teacher" then ["student"; "teacher"]
  else ["student"; "teacher"; "admin"].

Definition role_filter (user : User) (role_param : option string) : RoleFilter :=
  match (fun r => Str.toLowerCase (Str.trim r)) <$> role_param with
  | Some (String c r) =>
      if existsb (String.eqb (String c r)) (visibleRoles user) then RoleIs (String c r)
      else RoleNone
  | _ => RoleAmong (visibleRoles user)
  end.

Definition role_matches (f : RoleFilter) (u : User) : bool :=
  match f with
  | RoleIs r => String.eqb (role u) r
  | RoleNone => false
  | RoleAmong rs => existsb (String.eqb (role u)) rs
  end.

(** The documents without [password] (and the reset fields), as
    [select("-password ...")] returns them. *)
Record PublicUser := {
  public_id : ObjectId;
  public_name : string;
  public_email : string;
  public_role : string;
  public_isActive : bool;
  public_totalQuizzesTaken : Z;
  public_averageScore : Num.num
}.

Definition select_public (u : User) : PublicUser :=
  {| public_id := user_id u; public_name := name u; public_email := email u;
     public_role := role u; public_isActive := user_isActive u;
     public_totalQuizzesTaken := totalQuizzesTaken u;
     public_averageScore := user_averageScore u |}.

Definition user_not_found {A} : Response A := Failure 404 "User not found" None.

(** GET /users/:id *)
Definition get_user (s : Store) (user : User) (id : ObjectId)
  : Response PublicUser * Store :=
  match User_docs s !! id with
  | None => (user_not_found, s)
  | Some u =>
      if String.eqb (role user) "student"
         && negb (String.eqb (user_id user) (user_id u)) then
        (Failure 403 "Access denied" None, s)
      else (Success 200 None (select_public u), s)
  end.

Definition delete_user_doc (id : ObjectId) (s : Store) : Store :=
  {| Quiz_docs := Quiz_docs s;
     Question_docs := Question_docs s;
     QuizAttempt_docs := QuizAttempt_docs s;
     User_docs := delete id (User_docs s) |}.

(** DELETE /users/:id *)
Definition delete_user (s : Store) (user : User) (id : ObjectId)
  : Response unit * Store :=
  if negb (authorize ["admin"] user) then (insufficient, s) else
  match User_docs s !! id with
  | None => (user_not_found, s)
  | Some _ => (Success 200 (Some "User deleted successfully") tt, delete_user_doc id s)
  end.

End UserRoutes.

(** ** middleware/auth.js: authentication *)

Module Middleware.

Record Credentials := {
  cookie_token : option string;
  header_authorization : option string
}.

Inductive Outcome : Type :=
  | Authenticated (user : User)
  | Rejected (status : Z) (message : string).

(** The token the middleware reads: the cookie when it holds a non-empty
    token, otherwise what follows ["Bearer "] in the Authorization header. *)
Definition read_token (req : Credentials) : option string :=
  match cookie_token req with
  | Some (String c r) => Some (String c r)
  | _ =>
      match header_authorization req with
      | Some h =>
          if String.prefix "Bearer " h then
            Some (String.substring 7 (String.length h - 7) h)
          else None
      | None => None
      end
  end.

Section Auth.

(** [jwt.verify(token, secret)]: the [userId] of the payload, [None] when
    verification raises. *)
Variable jwt_verify : string -> option ObjectId.

Definition auth (s : Store) (req : Credentials) : Outcome :=
  match read_token req with
  | Some (String c r) =>
      match jwt_verify (String c r) with
      | None => Rejected 401 "Invalid token."
      | Some userId =>
          match User_docs s !! userId with
          | Some user =>
              if user_isActive user then Authenticated user
              else Rejected 401 "Invalid token or user not found."
          | None => Rejected 401 "Invalid token or user not found."
          end
      end
  | _ => Rejected 401 "Access denied. No token provided."
  end.

End Auth.

End Middleware.

(** ** routes/auth.js: login and password reset

    The user documents of the store carry no [lastLogin],
    [resetPasswordToken] and [resetPasswordExpires]; these three paths are
    kept beside the store, by user id. *)

Module AuthRoutes.

Record AuthState := {
  auth_store : Store;
  lastLogin : gmap string Z;
  resetPasswordToken : gmap string string;
  resetPasswordExpires : gmap string Z
}.

(** [User.findOne(filter)]: a stored user that satisfies the filter, with
    the id it is stored under. *)
Definition findOne (filter : ObjectId -> User -> bool) (s : Store) : option (ObjectId * User) :=
  find (fun kv => filter kv.1 kv.2) (map_to_list (User_docs s)).

Definition with_password (u : User) (hash : string) : User :=
  {| user_id := user_id u; name := name u; email := email u; password := hash;
     role := role u; user_isActive := user_isActive u;
     totalQuizzesTaken := totalQuizzesTaken u; user_averageScore := user_averageScore u |}.

Section Routes.

Variable isEmail : string -> bool.
Variable normalizeEmail : string -> string.
Variable bcrypt_hash : string -> string.
(** [bcrypt.compare(candidate, digest)] *)
Variable bcrypt_compare : string -> string -> bool.
Variable jwt_sign : ObjectId -> string.
(** [crypto.createHash('sha256').update(x).digest('hex')] *)
Variable sha256 : string -> string.
(** [sendEmail({ email, subject, message })], which may raise. *)
Variable sendEmail : string -> string -> string -> Exc unit.

Definition invalid_credentials {A} : Response A :=
  Failure 401 "Invalid credentials" None.

Definition validation_errors {A} : Response A :=
  Failure 400 "Validation errors" None.

(** POST /auth/login; an absent [password] is [None]. *)
Definition login (now : Z) (st : AuthState) (address : string) (secret : option string)
  : Response (User * string) * AuthState :=
  match secret with
  | Some secret =>
      if negb (isEmail address) then (validation_errors, st) else
      let address := normalizeEmail address in
      match findOne (fun _ u => String.eqb (email u) address) (auth_store st) with
      | Some (id, user) =>
          if negb (user_isActive user) then (invalid_credentials, st)
          else if negb (bcrypt_compare secret (password user)) then
            (invalid_credentials, st)
          else
            (Success 200 (Some "Login successful") (user, jwt_sign (user_id user)),
             {| auth_store := auth_store st;
                lastLogin := <[id := now]> (lastLogin st);
                resetPasswordToken := resetPasswordToken st;
                resetPasswordExpires := resetPasswordExpires st |})
      | None => (invalid_credentials, st)
      end
  | None => (validation_errors, st)
  end.

(** POST /auth/forgot-password; [otp] is the value of
    [Math.floor(100000 + Math.random() * 900000)]. *)
Definition forgot_password (now : Z) (otp : Z) (st : AuthState) (address : string)
  : Response unit * AuthState :=
  if negb (isEmail address) then (validation_errors, st) else
  let address := normalizeEmail address in
  match findOne (fun _ u => String.eqb (email u) address) (auth_store st) with
  | None => (Failure 404 "User not found" None, st)
  | Some (id, user) =>
      let resetToken := pretty otp in
      let st' :=
        {| auth_store := auth_store st;
           lastLogin := lastLogin st;
           resetPasswordToken := <[id := sha256 resetToken]> (resetPasswordToken st);
           resetPasswordExpires := <[id := now + 10 * 60 * 1000]> (resetPasswordExpires st) |} in
      let message :=
        "Your password reset OTP is: " +:+ resetToken
        +:+ ". This OTP will expire in 10 minutes." in
      match sendEmail (email user) "Password Reset OTP" message with
      | inl e => (Failure 500 "Error sending email" (Some (exn_message e)), st')
      | inr _ => (Success 200 (Some "Password reset OTP sent to email") tt, st')
      end
  end.

(** The filter of the [findOne] of POST /auth/reset-password. *)
Definition reset_filter (now : Z) (st : AuthState) (address hashedToken : string)
    (id : ObjectId) (u : User) : bool :=
  String.eqb (email u) address
  && match resetPasswordToken st !! id with
     | Some t => String.eqb t hashedToken
     | None => false
     end
  && match resetPasswordExpires st !! id with
     | Some e => now <? e
     | None => false
     end.

(** [user.password = newPassword] followed by [save()]: the pre-save hook
    hashes the password when the assignment modified the path, which it
    does not when the new value is the stored one. *)
Definition set_password (user : User) (newPassword : string) : User :=
  if String.eqb newPassword (password user) then user
  else with_password user (bcrypt_hash newPassword).

(** POST /auth/reset-password *)
Definition reset_password (now : Z) (st : AuthState) (otp newPassword address : string)
  : Response unit * AuthState :=
  if negb ((String.length otp =? 6)%nat && (6 <=? String.length newPassword)%nat) then
    (validation_errors, st)
  else
    let hashedToken := sha256 otp in
    match findOne (reset_filter now st address hashedToken) (auth_store st) with
    | None => (Failure 400 "Invalid or expired OTP" None, st)
    | Some (id, user) =>
        (Success 200 (Some "Password reset successfully") tt,
         {| auth_store :=
              Quizzes.save_user id (set_password user newPassword) (auth_store st);
            lastLogin := lastLogin st;
            resetPasswordToken := delete id (resetPasswordToken st);
            resetPasswordExpires := delete id (resetPasswordExpires st) |})
    end.

End Routes.

End AuthRoutes.

(** ** routes/analytics.js: quiz analytics and student performance

    Ids are ObjectIds, written as 24 hexadecimal digits: as keys of a plain
    object they keep their insertion order and meet no inherited
    property. *)

Module AnalyticsRoutes.

Import Quizzes.

Local Open Scope exc_scope.

(** Reading a property of [null], the value of a populated path whose
    document is gone. *)
Definition deref_null {A} (what : string) (o : option A) : Exc A :=
  match o with
  | Some a => ret a
  | None => throw (TypeError ("Cannot read properties of null (reading '" +:+ what +:+ "')"))
  end.

Fixpoint mapM {A B} (f : A -> Exc B) (l : list A) : Exc (list B) :=
  match l with
  | [] => ret []
  | a :: rest =>
      b <- f a ;;
      bs <- mapM f rest ;;
      ret (b :: bs)
  end.

(** [l.slice(-n)] *)
Definition slice_last {A} (n : nat) (l : list A) : list A :=
  skipn (length l - n) l.

(** *** GET /analytics/quiz-analytics/:id *)

Record QuestionAnalytics := {
  qa_id : ObjectId;
  qa_title : string;
  qa_difficulty : string;
  qa_totalAttempts : Z;
  qa_correctAnswers : Z;
  qa_correctPercentage : Num.num;
  qa_averageTimeSpent : Num.num
}.

Record RecentAttempt := {
  recent_student : string;
  recent_score : Num.num;
  recent_passed : bool;
  recent_submittedAt : Z
}.

Record QuizAnalytics := {
  analytics_title : string;
  analytics_totalAttempts : Z;
  analytics_averageScore : Num.num;
  analytics_passRate : Num.num;
  analytics_questions : list QuestionAnalytics;
  analytics_scoreDistribution : Analytics.ScoreDistribution;
  analytics_recentAttempts : list RecentAttempt
}.

(** [attempt.answers.find(ans => ans.question.toString() === question._id.toString())] *)
Definition answer_to (question : Question) (attempt : QuizAttempt) : option ProcessedAnswer :=
  find (fun ans => String.eqb (pa_question ans) (question_id question)) (answers attempt).

(** [attempts.map(...).filter(Boolean)] *)
Definition questionAttempts (attempts : list QuizAttempt) (question : Question)
  : list ProcessedAnswer :=
  omap (answer_to question) attempts.

Definition question_analytics (attempts : list QuizAttempt) (question : Question)
  : QuestionAnalytics :=
  let answered := questionAttempts attempts question in
  let correctCount :=
    Z.of_nat (length (List.filter (fun ans => truthy (pa_isCorrect ans)) answered)) in
  let totalCount := Z.of_nat (length answered) in
  {| qa_id := question_id question;
     qa_title := question_title question;
     qa_difficulty := difficulty question;
     qa_totalAttempts := totalCount;
     qa_correctAnswers := correctCount;
     qa_correctPercentage :=
       if 0 <? totalCount then percentage_of correctCount totalCount else Num.of_Z 0;
     qa_averageTimeSpent :=
       if 0 <? totalCount then
         Num.Math_round
           (Num.div
              (fold_left (fun sum ans => Num.add sum (Num.of_Z (pa_timeSpent ans)))
                         answered (Num.of_Z 0))
              (Num.of_Z totalCount))
       else Num.of_Z 0 |}.

(** One entry of [recentAttempts]; [att.student] is populated. *)
Definition recent_attempt (s : Store) (att : QuizAttempt) : Exc RecentAttempt :=
  st <- deref_null "name" (User_docs s !! student att) ;;
  ret {| recent_student := name st;
         recent_score := percentage att;
         recent_passed := passed att;
         recent_submittedAt := submittedAt att |}.

Definition quiz_analytics (s : Store) (user : User) (id : ObjectId)
  : Response QuizAnalytics * Store :=
  if negb (authorize ["admin"; "teacher"] user) then (insufficient, s) else
  match Quiz_docs s !! id with
  | None => (Failure 404 "Quiz not found" None, s)
  | Some quiz =>
      let quiz_questions := populate_questions s (questions quiz) in
      if String.eqb (role user) "teacher"
         && negb (String.eqb (quiz_createdBy quiz) (user_id user)) then
        (Failure 403 "Access denied" None, s)
      else
        let attempts := attempts_of_quiz id (QuizAttempt_docs s) in
        let questionAnalytics := map (question_analytics attempts) quiz_questions in
        let total := Z.of_nat (length attempts) in
        let passRate :=
          if 0 <? total then
            percentage_of (Z.of_nat (length (List.filter passed attempts))) total
          else Num.of_Z 0 in
        match mapM (recent_attempt s) (slice_last 10 attempts) with
        | inl e => (server_error e, s)
        | inr recentAttempts =>
            (Success 200 None
               {| analytics_title := quiz_title quiz;
                  analytics_totalAttempts := total;
                  analytics_averageScore := quiz_averageScore quiz;
                  analytics_passRate := passRate;
                  analytics_questions := questionAnalytics;
                  analytics_scoreDistribution := Analytics.scoreDistribution attempts;
                  analytics_recentAttempts := recentAttempts |}, s)
        end
  end.

(** *** GET /analytics/student-performance

    The handler builds a query, runs it (sorted by [submittedAt], at most 50
    documents, [student] and [quiz] populated) and groups what it found. *)

Inductive QuizCondition : Type :=
  | AnyQuiz
  | QuizIs (id : ObjectId)
  | QuizIn (ids : list ObjectId).

Record PerformanceQuery := {
  query_student : option ObjectId;
  query_quiz : QuizCondition
}.

(** A query-string parameter that is present and not empty. *)
Definition given (o : option string) : option string :=
  match o with
  | Some (String c r) => Some (String c r)
  | _ => None
  end.

(** [Quiz.find({ createdBy }).select('_id')], mapped to the ids. *)
Definition quizzes_createdBy (s : Store) (owner : ObjectId) : list ObjectId :=
  map fst (List.filter (fun kv => String.eqb (quiz_createdBy kv.2) owner)
                       (map_to_list (Quiz_docs s))).

Definition performance_query (s : Store) (user : User) (studentId quizId : option string)
  : PerformanceQuery :=
  let quiz := match given quizId with Some q => QuizIs q | None => AnyQuiz end in
  {| query_student := given studentId;
     query_quiz :=
       if String.eqb (role user) "teacher" then
         match quiz with
         | AnyQuiz => QuizIn (quizzes_createdBy s (user_id user))
         | q => q
         end
       else quiz |}.

Definition query_matches (q : PerformanceQuery) (a : QuizAttempt) : bool :=
  match query_student q with
  | Some st => String.eqb (student a) st
  | None => true
  end
  && match query_quiz q with
     | AnyQuiz => true
     | QuizIs id => String.eqb (attempt_quiz a) id
     | QuizIn ids => existsb (String.eqb (attempt_quiz a)) ids
     end.

(** The populated paths: [populate('student', 'name email')] and
    [populate('quiz', 'title subject passingScore')]. *)
Record StudentRef := {
  ref_id : ObjectId;
  ref_name : string;
  ref_email : string
}.

Record QuizRef := {
  ref_quiz : ObjectId;
  ref_title : string;
  ref_subject : string;
  ref_passingScore : Num.num
}.

Record PopulatedAttempt := {
  pop_student : option StudentRef;
  pop_quiz : option QuizRef;
  pop_percentage : Num.num;
  pop_passed : bool;
  pop_submittedAt : Z
}.

Definition populate_attempt (s : Store) (a : QuizAttempt) : PopulatedAttempt :=
  {| pop_student :=
       (fun u => {| ref_id := user_id u; ref_name := name u; ref_email := email u |})
       <$> User_docs s !! student a;
     pop_quiz :=
       (fun q => {| ref_quiz := quiz_id q; ref_title := quiz_title q;
                    ref_subject := quiz_subject q;
                    ref_passingScore := passingScore q |})
       <$> Quiz_docs s !! attempt_quiz a;
     pop_percentage := percentage a;
     pop_passed := passed a;
     pop_submittedAt := submittedAt a |}.

Record PerformanceEntry := {
  entry_quiz : option QuizRef;
  entry_score : Num.num;
  entry_passed : bool;
  entry_submittedAt : Z
}.

Record Performance := {
  perf_student : StudentRef;
  perf_attempts : list PerformanceEntry;
  perf_totalAttempts : Z;
  perf_averageScore : Num.num;
  perf_passRate : Num.num
}.

Definition entry_of (attempt : PopulatedAttempt) : PerformanceEntry :=
  {| entry_quiz := pop_quiz attempt;
     entry_score := pop_percentage attempt;
     entry_passed := pop_passed attempt;
     entry_submittedAt := pop_submittedAt attempt |}.

(** [acc[studentId]] is created when it is missing, then the entry is
    pushed; [acc] is an object, kept as its properties in insertion order. *)
Definition first_entry (st : StudentRef) (e : PerformanceEntry) : Performance :=
  {| perf_student := st; perf_attempts := [e]; perf_totalAttempts := 0;
     perf_averageScore := Num.of_Z 0; perf_passRate := Num.of_Z 0 |}.

Definition add_entry (e : PerformanceEntry) (d : Performance) : Performance :=
  {| perf_student := perf_student d;
     perf_attempts := perf_attempts d ++ [e];
     perf_totalAttempts := perf_totalAttempts d;
     perf_averageScore := perf_averageScore d;
     perf_passRate := perf_passRate d |}.

Fixpoint push (studentId : string) (st : StudentRef) (e : PerformanceEntry)
    (acc : list (string * Performance)) : list (string * Performance) :=
  match acc with
  | [] => [(studentId, first_entry st e)]
  | (k, d) :: rest =>
      if String.eqb k studentId then (k, add_entry e d) :: rest
      else (k, d) :: push studentId st e rest
  end.

(** The callback of [attempts.reduce]. *)
Definition collect (acc : list (string * Performance)) (attempt : PopulatedAttempt)
  : Exc (list (string * Performance)) :=
  st <- deref_null "_id" (pop_student attempt) ;;
  ret (push (ref_id st) st (entry_of attempt) acc).

Fixpoint reduce (attempts : list PopulatedAttempt) (acc : list (string * Performance))
  : Exc (list (string * Performance)) :=
  match attempts with
  | [] => ret acc
  | attempt :: rest =>
      acc' <- collect acc attempt ;;
      reduce rest acc'
  end.

(** The callback of [Object.values(performanceData).forEach]. *)
Definition final_metrics (data : Performance) : Performance :=
  let n := Num.of_Z (Z.of_nat (length (perf_attempts data))) in
  {| perf_student := perf_student data;
     perf_attempts := perf_attempts data;
     perf_totalAttempts := Z.of_nat (length (perf_attempts data));
     perf_averageScore :=
       Num.div (fold_left (fun sum att => Num.add sum (entry_score att))
                          (perf_attempts data) (Num.of_Z 0)) n;
     perf_passRate :=
       Num.mul
         (Num.div (Num.of_Z (Z.of_nat (length (List.filter entry_passed (perf_attempts data)))))
                  n)
         (Num.of_Z 100) |}.

(** The attempts of the student with id [k]. *)
Definition of_student (k : string) (a : PopulatedAttempt) : bool :=
  match pop_student a with
  | Some st => String.eqb (ref_id st) k
  | None => false
  end.

(** [acc] groups the attempts processed so far: one property for each
    student met, holding that student's entries in the order met. *)
Definition grouped (processed : list PopulatedAttempt) (acc : list (string * Performance))
  : Prop :=
  List.NoDup (map fst acc)
  /\ Forall (fun kd =>
               ref_id (perf_student kd.2) = kd.1
               /\ perf_attempts kd.2 = map entry_of (List.filter (of_student kd.1) processed)
               /\ perf_attempts kd.2 <> [])
            acc
  /\ (forall a st, In a processed -> pop_student a = Some st -> In (ref_id st) (map fst acc)).

(** What the handler answers for the attempts its query found. *)
Definition performanceData (attempts : list PopulatedAttempt) : Response (list Performance) :=
  match reduce attempts [] with
  | inl e => server_error e
  | inr acc => Success 200 None (map (fun kd => final_metrics kd.2) acc)
  end.

End AnalyticsRoutes.

(** ** More sample data *)

Module Sample2.

Import QuizRoutes.

Definition admin := Sample.mk_user "root" "admin".

(** The sample store with an administrator. *)
Definition store4 : Store :=
  {| Quiz_docs := Quiz_docs Sample.store4;
     Question_docs := Question_docs Sample.store4;
     QuizAttempt_docs := QuizAttempt_docs Sample.store4;
     User_docs := <["root" := admin]> (User_docs Sample.store4) |}.

Definition quiz_body : QuizBody :=
  {| quiz_body_title := Some "  Fractions  "; quiz_body_description := None;
     quiz_body_subject := Some "math"; quiz_body_questions := Some ["q0"; "q2"];
     quiz_body_createdBy := Some "teacherB"; quiz_body_timeLimit := None;
     quiz_body_maxAttempts := Some 2; quiz_body_passingScore := None;
     quiz_body_isPublished := None; quiz_body_allowedStudents := None;
     quiz_body_totalAttempts := None; quiz_body_averageScore := None |}.


(** An unpublished quiz without allow-list. *)
Definition draft : Quiz :=
  {| quiz_id := "draft"; quiz_title := "Draft"; description := None;
     quiz_subject := "math"; questions := ["q0"]; quiz_createdBy := "teacherA";
     timeLimit := 30; maxAttempts := 3; passingScore := 60%float; isPublished := false;
     allowedStudents := []; totalAttempts := 0; quiz_averageScore := 0%float |}.

Definition store_draft : Store := Quizzes.save_quiz "draft" draft Sample.store4.

(** Stand-ins for the collaborators of authentication. *)
Definition jwt_verify (token : string) : option ObjectId :=
  if String.prefix "token:" token then
    Some (String.substring 6 (String.length token - 6) token)
  else None.
Definition bcrypt_compare (candidate digest : string) : bool :=
  String.eqb digest (Sample.bcrypt_hash candidate).
Definition sha256 (x : string) : string := "sha256:" +:+ x.
Definition sendEmail (to subject message : string) : Exc unit := ret tt.

(** The state around a store in which nobody has logged in or asked for a
    reset. *)
Definition auth_state (s : Store) : AuthRoutes.AuthState :=
  {| AuthRoutes.auth_store := s; AuthRoutes.lastLogin := ∅;
     AuthRoutes.resetPasswordToken := ∅; AuthRoutes.resetPasswordExpires := ∅ |}.

(** The sample store after Bob registered. *)
Definition store_bob : Store :=
  (register Sample.isEmail Sample.normalizeEmail Sample.bcrypt_hash Sample.jwt_sign
     Sample.store4 "bob" Sample.bob_body).2.

Definition bob : User :=
  new_user Sample.bcrypt_hash "bob" "Bob" "bob@example.org" "secret1" "admin".

(** The sample store after Alice submitted the quiz. *)
Definition store_attempted : Store :=
  (Quizzes.submit Sample.now store4 Sample.alice "quiz4" (Sample.answers_right 3 4)).2.

(** The attempt that the submission stored. *)
Definition alice_attempt : QuizAttempt :=
  default (Sample.attempt_with 75%float) (head (QuizAttempt_docs store_attempted)).

End Sample2.

(** * Properties *)

Import Quizzes.

(** ** Ordering of non-negative numbers

    The comparisons of [Number]s are read through their IEEE 754
    decomposition: for finite positive values, sign, exponent and mantissa
    are compared lexicographically. *)

Section NumOrder.





End NumOrder.

(** ** The score histogram *)

Section Histogram.

Import Analytics.







End Histogram.



(** ** Submission *)

Section Submission.

Lemma process_answers_counts qs answers :
  forall c pas c',
    process_answers qs answers c = inr (pas, c') ->
    c' = c + Z.of_nat (length (List.filter (fun pa => truthy (pa_isCorrect pa)) pas))
    /\ length pas = length answers.
Proof.
  induction answers as [| a rest IH]; intros c pas c' H; cbn in H.
  - injection H as <- <-. cbn. split; [lia | reflexivity].
  - destruct (process_answer qs a) as [e | pa]; cbn in H; [discriminate |].
    destruct (process_answers qs rest _) as [e | [pas' c'']] eqn:Hrest; cbn in H;
      [discriminate |].
    injection H as <- <-.
    apply IH in Hrest as [-> Hlen]. cbn.
    destruct (truthy (pa_isCorrect pa)); cbn; split; try lia.
Qed.

(** An exception raised by the callback for one answer leaves
    [answers.map]. *)
Lemma process_answers_throws qs answers :
  (exists a, In a answers /\ exists e, process_answer qs a = inl e) ->
  forall c, exists e, process_answers qs answers c = inl e.
Proof.
  intros (a & Hin & e0 & Hthrow).
  induction answers as [| b rest IH]; [destruct Hin |].
  intros c. cbn.
  destruct (process_answer qs b) as [e | pa] eqn:Hb; cbn; [eauto |].
  destruct Hin as [-> | Hin]; [congruence |].
  destruct (IH Hin (if truthy (pa_isCorrect pa) then c + 1 else c)) as [e ->].
  cbn. eauto.
Qed.

(** The callback raises on an answer whose question is not found. *)
Lemma process_answer_unknown qs a :
  find_question qs (questionId a) = None ->
  exists e, process_answer qs a = inl e.
Proof. intros H. unfold process_answer. rewrite H. cbn. eauto. Qed.

(** The callback raises on a short-answer question without
    [correctAnswer]. *)
Lemma process_answer_short_without_key qs a question :
  find_question qs (questionId a) = Some question ->
  questionType question = "short-answer" ->
  correctAnswer question = None ->
  exists e, process_answer qs a = inl e.
Proof.
  intros Hfind Hty Hkey. unfold process_answer.
  rewrite Hfind. cbn [deref bind ret]. unfold grade.
  rewrite Hty, Hkey. cbn. eauto.
Qed.

(** A submission that passes the first two checks and whose grading raises
    is answered 500, and the store is left as it was. *)
Lemma submit_grading_throws now s user quizId body quiz :
  role user = "student" ->
  Quiz_docs s !! quizId = Some quiz ->
  isPublished quiz = true ->
  Z.of_nat (length (attempts_of quizId (user_id user) (QuizAttempt_docs s)))
    < maxAttempts quiz ->
  (exists a, In a (body_answers body)
             /\ exists e, process_answer (populate_questions s (questions quiz)) a = inl e) ->
  exists detail,
    submit now s user quizId body = (Failure 500 "Server error" (Some detail), s).
Proof.
  intros Hrole Hquiz Hpub Hmax Hthrow. unfold submit, authorize.
  rewrite Hrole, Hquiz, Hpub. cbn.
  destruct (Z.leb_spec (maxAttempts quiz)
              (Z.of_nat (length (attempts_of quizId (user_id user) (QuizAttempt_docs s)))));
    [lia |].
  destruct (process_answers_throws _ _ Hthrow 0) as [e ->].
  exists (exn_message e). reflexivity.
Qed.

(** What a successful submission went through. *)
Lemma submit_success now s user quizId body st msg r s' :
  submit now s user quizId body = (Success st msg r, s') ->
  exists quiz pas c u,
    let previous := Z.of_nat (length (attempts_of quizId (user_id user) (QuizAttempt_docs s))) in
    let qs := populate_questions s (questions quiz) in
    let pct := percentage_of c (Z.of_nat (length qs)) in
    let attempt :=
      {| attempt_quiz := quizId; student := user_id user; answers := pas; score := c;
         percentage := pct; timeSpent := body_timeSpent body;
         startedAt := now - body_timeSpent body * 1000; submittedAt := now;
         attemptNumber := previous + 1; passed := Num.ge pct (passingScore quiz) |} in
    let s1 := save_attempt attempt s in
    let s2 :=
      save_quiz quizId
        (with_quiz_stats quiz (totalAttempts quiz + 1)
           (Num.Math_round (average_percentage (attempts_of_quiz quizId (QuizAttempt_docs s1)))))
        s1 in
    authorize ["student"] user = true
    /\ Quiz_docs s !! quizId = Some quiz
    /\ isPublished quiz = true
    /\ previous < maxAttempts quiz
    /\ process_answers qs (body_answers body) 0 = inr (pas, c)
    /\ Num.isNaN pct = false
    /\ User_docs s !! user_id user = Some u
    /\ r = {| res_score := c; res_percentage := pct;
              res_passed := Num.ge pct (passingScore quiz);
              res_timeSpent := body_timeSpent body;
              res_attemptNumber := previous + 1 |}
    /\ s' = save_user (user_id user)
              (with_user_stats u (totalQuizzesTaken u + 1)
                 (Num.Math_round
                    (average_percentage (attempts_of_student (user_id user) (QuizAttempt_docs s2)))))
              s2.
Proof.
  unfold submit. intros H.
  destruct (authorize _ user) eqn:Hauth; cbn in H; [| discriminate].
  destruct (Quiz_docs s !! quizId) as [quiz |] eqn:Hquiz; [| discriminate].
  destruct (isPublished quiz) eqn:Hpub; cbn in H; [| discriminate].
  destruct (maxAttempts quiz <=? _) eqn:Hmax; [discriminate |].
  destruct (process_answers _ _ 0) as [e | [pas c]] eqn:Hproc; [discriminate |].
  unfold validate_attempt in H. cbn [percentage] in H.
  destruct (Num.isNaN _) eqn:Hnan; [discriminate |]. cbn [ret] in H.
  cbn [save_quiz save_attempt User_docs] in H.
  destruct (User_docs s !! user_id user) as [u |] eqn:Hu; cbn in H; [| discriminate].
  injection H as _ _ <- <-.
  exists quiz, pas, c, u. cbn zeta.
  repeat split; try reflexivity; try assumption. lia.
Qed.

End Submission.

(** The result of a successful submission: the score is the number of
    answers graded correct, the percentage is [Math.round((score / number of
    quiz questions) * 100)] in double arithmetic, the pass flag compares it
    with the passing score, and the attempt appended to the collection
    carries the same three values. *)
Lemma submit_result_fields now s user quizId body st msg r s' :
  submit now s user quizId body = (Success st msg r, s') ->
  exists quiz attempt,
    Quiz_docs s !! quizId = Some quiz
    /\ QuizAttempt_docs s' = QuizAttempt_docs s ++ [attempt]
    /\ res_score r
       = Z.of_nat (length (List.filter (fun pa => truthy (pa_isCorrect pa)) (answers attempt)))
    /\ length (answers attempt) = length (body_answers body)
    /\ res_percentage r
       = percentage_of (res_score r)
         (Z.of_nat (length (populate_questions s (questions quiz))))
    /\ res_passed r = Num.ge (res_percentage r) (passingScore quiz)
    /\ score attempt = res_score r
    /\ percentage attempt = res_percentage r
    /\ passed attempt = res_passed r.
Proof.
  intros H. apply submit_success in H as (quiz & pas & c & u & H). cbn zeta in H.
  destruct H as (_ & Hquiz & _ & _ & Hproc & _ & _ & -> & ->).
  apply process_answers_counts in Hproc as [Hc Hlen].
  eexists quiz, _.
  split; [exact Hquiz |]. split; [reflexivity |].
  cbn [res_score res_percentage res_passed answers score percentage passed].
  split; [rewrite Hc; apply Z.add_0_l |]. split; [exact Hlen |].
  repeat (split; [reflexivity |]). reflexivity.
Qed.

(** On quizzes of fewer than forty questions the percentage is the rounded
    value of 100 * correct / total, for every number of correct answers up
    to the number of questions. *)
Lemma percentage_rounded_below_40 (c n : nat) :
  (0 < n < 40)%nat -> (c <= n)%nat ->
  Spec.percentage_is_rounded_ratio c n = true.
Proof.
  intros Hn Hc.
  assert (Hall : forallb (fun n => forallb (fun c => Spec.percentage_is_rounded_ratio c n)
                                           (seq 0 (S n)))
                         (seq 1 39) = true) by (vm_compute; reflexivity).
  rewrite forallb_forall in Hall.
  specialize (Hall n). rewrite forallb_forall in Hall.
  apply Hall; apply in_seq; lia.
Qed.

(** Every answer of a submission that was graded to the end names a
    question of the quiz. *)
Lemma process_answers_found qs answers :
  forall c pas c',
    process_answers qs answers c = inr (pas, c') ->
    forall a, In a answers -> In (questionId a) (map question_id qs).
Proof.
  induction answers as [| b rest IH]; intros c pas c' H a Ha; [destruct Ha |].
  cbn in H.
  destruct (process_answer qs b) as [e | pa] eqn:Hb; cbn in H; [discriminate |].
  destruct (process_answers qs rest _) as [e | [pas' c'']] eqn:Hrest; cbn in H;
    [discriminate |].
  destruct Ha as [<- | Ha]; [| eapply IH; eassumption].
  unfold process_answer, find_question in Hb.
  destruct (find _ qs) as [q |] eqn:Hfind; [| discriminate].
  apply find_some in Hfind as [Hin Heq].
  apply String.eqb_eq in Heq. rewrite <- Heq. now apply in_map.
Qed.

(** Without a repeated [questionId] the score cannot exceed the number of
    questions of the quiz. *)
Lemma submit_score_without_repeats now s user quizId body st msg r s' :
  submit now s user quizId body = (Success st msg r, s') ->
  List.NoDup (map questionId (body_answers body)) ->
  exists quiz,
    Quiz_docs s !! quizId = Some quiz
    /\ 0 <= res_score r
         <= Z.of_nat (length (populate_questions s (questions quiz))).
Proof.
  intros H Hnodup. apply submit_success in H as (quiz & pas & c & u & H). cbn zeta in H.
  destruct H as (_ & Hquiz & _ & _ & Hproc & _ & _ & -> & _).
  exists quiz. split; [exact Hquiz |]. cbn [res_score].
  pose proof (process_answers_found _ _ _ _ _ Hproc) as Hfound.
  apply process_answers_counts in Hproc as [-> Hlen].
  pose proof (List.filter_length_le (fun pa => truthy (pa_isCorrect pa)) pas) as Hle.
  assert (Hincl : List.incl (map questionId (body_answers body))
                            (map question_id (populate_questions s (questions quiz)))).
  { intros x Hx. apply in_map_iff in Hx as (a & <- & Ha). now apply Hfound. }
  apply (List.NoDup_incl_length Hnodup) in Hincl.
  rewrite !length_map in Hincl. lia.
Qed.

(** The scenario of the specification: passing score 60, four
    multiple-choice questions, three answered correctly. *)
Example submit_3_of_4 :
  exists s',
    submit Sample.now Sample.store4 Sample.alice "quiz4" (Sample.answers_right 3 4)
    = (Success 200 (Some "Quiz submitted successfully")
         {| res_score := 3; res_percentage := 75%float; res_passed := true;
            res_timeSpent := 600; res_attemptNumber := 1 |}, s').
Proof. eexists. vm_compute. reflexivity. Qed.

(** A quiz without questions cannot be submitted: 0 / 0 is not a number
    and the attempt does not pass validation. *)
Example submit_without_questions :
  submit Sample.now Sample.store0 Sample.alice "quiz0"
    {| body_answers := []; body_timeSpent := 0 |}
  = (Failure 500 "Server error" (Some "QuizAttempt validation failed: percentage"),
     Sample.store0).
Proof. vm_compute. reflexivity. Qed.

(** C1. On a published quiz of forty multiple-choice questions with passing
    score 58, a student who answers 23 correctly and is within the attempt
    limit gets score 23 and percentage 57, and fails; the rounded value of
    100 * 23 / 40 = 57.5 is 58, which would pass.  The quotient 23 / 40 is
    rounded to a double below 0.575 before it is multiplied by 100. *)
Theorem submit_23_of_40 :
  exists s',
    submit Sample.now Sample.store40 Sample.alice "quiz40" (Sample.answers_right 23 40)
    = (Success 200 (Some "Quiz submitted successfully")
         {| res_score := 23; res_percentage := 57%float; res_passed := false;
            res_timeSpent := 600; res_attemptNumber := 1 |}, s')
    /\ Spec.round_ratio (100 * 23) 40 = 58
    /\ Num.ge (Num.of_Z (Spec.round_ratio (100 * 23) 40)) (passingScore Sample.quiz40) = true.
Proof. eexists. split; [| split]; vm_compute; reflexivity. Qed.

(** C2. When the student's earlier attempts on a published quiz number at
    least [maxAttempts], the submission is answered 400 "Maximum attempts
    exceeded" and the store (attempts, quiz and user aggregates) is left as
    it was. *)
Theorem submit_attempt_limit now s user quizId body quiz :
  role user = "student" ->
  Quiz_docs s !! quizId = Some quiz ->
  isPublished quiz = true ->
  maxAttempts quiz
    <= Z.of_nat (length (attempts_of quizId (user_id user) (QuizAttempt_docs s))) ->
  submit now s user quizId body = (Failure 400 "Maximum attempts exceeded" None, s).
Proof.
  intros Hrole Hquiz Hpub Hmax. unfold submit, authorize.
  rewrite Hrole, Hquiz, Hpub. cbn.
  destruct (Z.leb_spec (maxAttempts quiz)
              (Z.of_nat (length (attempts_of quizId (user_id user) (QuizAttempt_docs s)))));
    [reflexivity | lia].
Qed.

(** The second attempt on a quiz that allows one: the first submission
    succeeds, the second is refused and [totalAttempts] stays at 1. *)
Lemma submit_attempt_limit_witness :
  let s1 := (submit Sample.now Sample.store1 Sample.alice "quiz1" (Sample.answers_right 1 1)).2 in
  submit Sample.now s1 Sample.alice "quiz1" (Sample.answers_right 1 1)
  = (Failure 400 "Maximum attempts exceeded" None, s1)
  /\ totalAttempts <$> Quiz_docs s1 !! "quiz1" = Some 1.
Proof.
  intros s1. split.
  - apply (submit_attempt_limit Sample.now s1 Sample.alice "quiz1" (Sample.answers_right 1 1)
             (Quizzes.with_quiz_stats Sample.quiz1 1 100%float)).
    + reflexivity.
    + vm_compute. reflexivity.
    + reflexivity.
    + vm_compute. discriminate.
  - vm_compute. reflexivity.
Defined.

(** C5. A submission by a student, on a published quiz and within the
    attempt limit, in which some answer names a question that is not among
    the quiz's questions is answered 500 "Server error" (the callback reads
    [questionType] of [undefined]); the store is left as it was. *)
Theorem submit_unknown_question now s user quizId body quiz :
  role user = "student" ->
  Quiz_docs s !! quizId = Some quiz ->
  isPublished quiz = true ->
  Z.of_nat (length (attempts_of quizId (user_id user) (QuizAttempt_docs s)))
    < maxAttempts quiz ->
  (exists a, In a (body_answers body)
             /\ find_question (populate_questions s (questions quiz)) (questionId a) = None) ->
  exists detail,
    submit now s user quizId body = (Failure 500 "Server error" (Some detail), s).
Proof.
  intros Hrole Hquiz Hpub Hmax (a & Hin & Hnone).
  apply (submit_grading_throws now s user quizId body quiz); try assumption.
  exists a. split; [exact Hin |]. now apply process_answer_unknown.
Qed.

Lemma submit_unknown_question_witness :
  exists detail,
    submit Sample.now Sample.store1 Sample.alice "quiz1" Sample.answers_unknown
    = (Failure 500 "Server error" (Some detail), Sample.store1).
Proof.
  apply (submit_unknown_question _ _ _ _ _ Sample.quiz1).
  - reflexivity.
  - vm_compute. reflexivity.
  - reflexivity.
  - vm_compute. reflexivity.
  - exists (Sample.right_answer 7). split.
    + right. left. reflexivity.
    + vm_compute. reflexivity.
Defined.

(** C4. A submission by a student, on a published quiz and within the
    attempt limit, in which some answer refers to a short-answer question
    stored without [correctAnswer] is answered 500 "Server error": grading
    that answer calls [toLowerCase] on [undefined], the exception ends the
    whole submission, and the store is left as it was. *)
Theorem submit_short_answer_without_key now s user quizId body quiz a question :
  role user = "student" ->
  Quiz_docs s !! quizId = Some quiz ->
  isPublished quiz = true ->
  Z.of_nat (length (attempts_of quizId (user_id user) (QuizAttempt_docs s)))
    < maxAttempts quiz ->
  In a (body_answers body) ->
  find_question (populate_questions s (questions quiz)) (questionId a) = Some question ->
  questionType question = "short-answer" ->
  correctAnswer question = None ->
  exists detail,
    submit now s user quizId body = (Failure 500 "Server error" (Some detail), s).
Proof.
  intros Hrole Hquiz Hpub Hmax Hin Hfind Hty Hkey.
  apply (submit_grading_throws now s user quizId body quiz); try assumption.
  exists a. split; [exact Hin |].
  now apply (process_answer_short_without_key _ a question).
Qed.

(** A quiz of a multiple-choice question and a short-answer question
    without [correctAnswer]: a submission answering both is refused. *)
Lemma submit_short_answer_without_key_witness :
  exists detail,
    submit Sample.now Sample.store_short Sample.alice "quiz2" Sample.answers_short
    = (Failure 500 "Server error" (Some detail), Sample.store_short).
Proof.
  apply (submit_short_answer_without_key _ _ _ _ _ Sample.quiz2
           {| questionId := Sample.qid 1; selectedAnswer := Some "paris";
              answer_timeSpent := None |}
           (Sample.mk_question "short-answer" None 1)).
  - reflexivity.
  - vm_compute. reflexivity.
  - reflexivity.
  - vm_compute. reflexivity.
  - right. left. reflexivity.
  - vm_compute. reflexivity.
  - reflexivity.
  - reflexivity.
Defined.

Example submit_short_answer_without_key_message :
  submit Sample.now Sample.store_short Sample.alice "quiz2" Sample.answers_short
  = (Failure 500 "Server error"
       (Some "Cannot read properties of undefined (reading 'toLowerCase')"),
     Sample.store_short).
Proof. vm_compute. reflexivity. Qed.

(** The cases in which grading does answer "incorrect": a question of a type
    the handler does not know, and a choice question without a correct
    option. *)
Lemma grade_other_type question answer :
  questionType question <> "multiple-choice" ->
  questionType question <> "true-false" ->
  questionType question <> "short-answer" ->
  grade question answer = inr (Some false).
Proof.
  intros H1 H2 H3. unfold grade.
  apply String.eqb_neq in H1, H2, H3. rewrite H1, H2, H3. reflexivity.
Qed.

Lemma grade_no_correct_option question answer :
  questionType question = "multiple-choice" \/ questionType question = "true-false" ->
  find_correct (options question) = None ->
  exists v, grade question answer = inr v /\ truthy v = false.
Proof.
  intros [H | H] Hnone; unfold grade; rewrite H, Hnone; cbn; eauto.
Qed.

(** C8. On a published quiz with one question, a submission that carries
    the correct answer to that question twice is accepted and stored with
    score 2 and percentage 200. *)
Theorem submit_same_question_twice :
  exists r s' attempt,
    submit Sample.now Sample.store1 Sample.alice "quiz1" Sample.answers_twice
    = (Success 200 (Some "Quiz submitted successfully") r, s')
    /\ QuizAttempt_docs s' = [attempt]
    /\ score attempt = 2
    /\ percentage attempt = 200%float
    /\ Num.ge 100%float (percentage attempt) = false.
Proof.
  do 3 eexists. split; [vm_compute; reflexivity |].
  split; [reflexivity |]. cbn. repeat (split; [reflexivity |]). reflexivity.
Qed.

(** ** Aggregates *)







(** ** What a student reads *)

Lemma shown_option_keys opt fields :
  Spec.shown_option opt = JObj fields ->
  forall k, In k (keys fields) -> k = "text" \/ k = "_id".
Proof.
  unfold Spec.shown_option. intros [= <-] k.
  destruct (text opt); cbn; intuition.
Qed.





(** An option shown to a student has no key besides [text] and [_id]; in
    particular it has no [isCorrect]. *)
Lemma shown_option_has_no_flag opt fields :
  Spec.shown_option opt = JObj fields -> obj_get "isCorrect" fields = None.
Proof.
  unfold Spec.shown_option. intros [= <-]. destruct (text opt); reflexivity.
Qed.

(** ** Accounts *)

(** C7. Every registration that succeeds creates a user whose role is
    "admin", whatever role the body carries, and stores it. *)
Theorem register_assigns_admin isEmail normalizeEmail bcrypt_hash jwt_sign
    s id b st msg u token s' :
  register isEmail normalizeEmail bcrypt_hash jwt_sign s id b
  = (Success st msg (u, token), s') ->
  role u = "admin" /\ role u <> "student" /\ User_docs s' !! id = Some u.
Proof.
  unfold register.
  destruct (validate_register isEmail b); cbn [negb]; [| discriminate].
  destruct (findOne_email s _); [discriminate |].
  intros [= _ _ <- _ <-]. split; [reflexivity |]. split; [discriminate |].
  cbn. apply lookup_insert_eq.
Qed.

Lemma register_assigns_admin_witness :
  let run := register Sample.isEmail Sample.normalizeEmail Sample.bcrypt_hash Sample.jwt_sign
               Sample.store4 "bob" Sample.bob_body in
  let bob := new_user Sample.bcrypt_hash "bob" "Bob" "bob@example.org" "secret1" "admin" in
  role bob = "admin" /\ role bob <> "student" /\ User_docs run.2 !! "bob" = Some bob.
Proof.
  intros run bob.
  apply (register_assigns_admin Sample.isEmail Sample.normalizeEmail Sample.bcrypt_hash
           Sample.jwt_sign Sample.store4 "bob" Sample.bob_body
           201 (Some "User registered successfully") bob "token:bob" run.2).
  vm_compute. reflexivity.
Defined.

(** The dedicated endpoint: only an admin gets through, and the account
    gets the role the body names. *)
Lemma create_user_requires_admin isEmail normalizeEmail bcrypt_hash s actor id b :
  role actor <> "admin" ->
  create_user isEmail normalizeEmail bcrypt_hash s actor id b = (insufficient, s).
Proof.
  intros H. unfold create_user, authorize. cbn.
  apply String.eqb_neq in H. rewrite H. reflexivity.
Qed.

Lemma create_user_assigns_requested_role isEmail normalizeEmail bcrypt_hash
    s actor id b st msg u s' :
  create_user isEmail normalizeEmail bcrypt_hash s actor id b = (Success st msg u, s') ->
  role actor = "admin" /\ body_role b = Some (role u) /\ is_role (role u) = true.
Proof.
  unfold create_user, authorize. cbn [existsb].
  destruct (String.eqb_spec (role actor) "admin") as [Hadmin |]; cbn [orb negb];
    [| discriminate].
  destruct (validate_create isEmail b) eqn:Hvalid; cbn [negb]; [| discriminate].
  destruct (body_role b) as [r |] eqn:Hr; [| discriminate].
  destruct (findOne_email s _); [discriminate |].
  intros [= _ _ <- _]. cbn [role new_user].
  split; [exact Hadmin |]. split; [reflexivity |].
  unfold validate_create in Hvalid. rewrite Hr in Hvalid.
  now apply andb_prop in Hvalid as [_ ?].
Qed.

(** ** Ownership of questions *)



(** * Further properties of the handlers *)

(** ** Submission: numbering, frame and failures *)

Lemma attempts_of_snoc quizId userId (l : list QuizAttempt) a :
  attempt_quiz a = quizId -> student a = userId ->
  attempts_of quizId userId (l ++ [a]) = attempts_of quizId userId l ++ [a].
Proof.
  intros <- <-. unfold attempts_of. rewrite List.filter_app. cbn.
  now rewrite !String.eqb_refl.
Qed.

(** X1. The attempt a successful submission stores carries the number of
    the student's earlier attempts on the quiz plus one, which is also the
    number in the response; so when the earlier attempts of the student on
    the quiz are numbered 1, 2, ..., k in the order they were stored, the
    attempts after the submission are numbered 1, 2, ..., k + 1. *)
Theorem submit_numbers_attempts now s user quizId body st msg r s' :
  submit now s user quizId body = (Success st msg r, s') ->
  let before := attempts_of quizId (user_id user) (QuizAttempt_docs s) in
  let after := attempts_of quizId (user_id user) (QuizAttempt_docs s') in
  res_attemptNumber r = Z.of_nat (length before) + 1
  /\ (exists new, after = before ++ [new] /\ attemptNumber new = res_attemptNumber r)
  /\ (map attemptNumber before = map Z.of_nat (seq 1 (length before)) ->
      map attemptNumber after = map Z.of_nat (seq 1 (length after))).
Proof.
  intros H before after.
  apply submit_success in H as (quiz & pas & c & u & H). cbn zeta in H.
  destruct H as (_ & _ & _ & _ & _ & _ & _ & -> & ->).
  subst before after.
  cbn [save_user save_quiz save_attempt QuizAttempt_docs res_attemptNumber].
  rewrite attempts_of_snoc by reflexivity.
  split; [reflexivity |]. split; [eexists; split; reflexivity |].
  intros Hseq. rewrite map_app, length_app, Hseq. cbn [length map].
  rewrite Nat.add_1_r, seq_S, map_app. cbn [map attemptNumber]. f_equal. f_equal. lia.
Qed.

Lemma submit_numbers_attempts_witness :
  let s := (submit Sample.now Sample.store4 Sample.alice "quiz4" (Sample.answers_right 4 4)).2 in
  let s' := (submit Sample.now s Sample.alice "quiz4" (Sample.answers_right 3 4)).2 in
  let before := attempts_of "quiz4" (user_id Sample.alice) (QuizAttempt_docs s) in
  let after := attempts_of "quiz4" (user_id Sample.alice) (QuizAttempt_docs s') in
  2 = Z.of_nat (length before) + 1
  /\ (exists new, after = before ++ [new] /\ attemptNumber new = 2)
  /\ (map attemptNumber before = map Z.of_nat (seq 1 (length before)) ->
      map attemptNumber after = map Z.of_nat (seq 1 (length after))).
Proof.
  intros s s'.
  apply (submit_numbers_attempts Sample.now s Sample.alice "quiz4" (Sample.answers_right 3 4)
           200 (Some "Quiz submitted successfully")
           {| res_score := 3; res_percentage := 75%float; res_passed := true;
              res_timeSpent := 600; res_attemptNumber := 2 |} s').
  vm_compute. reflexivity.
Defined.

(** X2. A successful submission appends one attempt and rewrites two
    documents, the quiz and the submitting user, in their statistics only:
    the questions, every other quiz, every other user and the attempts
    stored before are as they were, and the quiz and the user keep every
    field but [totalAttempts]/[averageScore] and
    [totalQuizzesTaken]/[averageScore]. *)
Theorem submit_frame now s user quizId body st msg r s' :
  submit now s user quizId body = (Success st msg r, s') ->
  Question_docs s' = Question_docs s
  /\ (forall id, id <> quizId -> Quiz_docs s' !! id = Quiz_docs s !! id)
  /\ (forall id, id <> user_id user -> User_docs s' !! id = User_docs s !! id)
  /\ (exists new, QuizAttempt_docs s' = QuizAttempt_docs s ++ [new])
  /\ (exists quiz total avg,
        Quiz_docs s !! quizId = Some quiz
        /\ Quiz_docs s' !! quizId = Some (with_quiz_stats quiz total avg))
  /\ (exists u taken avg,
        User_docs s !! user_id user = Some u
        /\ User_docs s' !! user_id user = Some (with_user_stats u taken avg)).
Proof.
  intros H. apply submit_success in H as (quiz & pas & c & u & H). cbn zeta in H.
  destruct H as (_ & Hquiz & _ & _ & _ & _ & Hu & _ & ->).
  cbn [save_user save_quiz save_attempt QuizAttempt_docs Quiz_docs User_docs Question_docs].
  split; [reflexivity |].
  split; [intros id Hid; now apply lookup_insert_ne |].
  split; [intros id Hid; now apply lookup_insert_ne |].
  split; [eexists; reflexivity |].
  split.
  - eexists quiz, _, _. split; [exact Hquiz | apply lookup_insert_eq].
  - eexists u, _, _. split; [exact Hu | apply lookup_insert_eq].
Qed.

Lemma submit_frame_witness :
  let s := Sample.store4 in
  let user := Sample.alice in
  let quizId := "quiz4" in
  let s' := (submit Sample.now s user quizId (Sample.answers_right 3 4)).2 in
  Question_docs s' = Question_docs s
  /\ (forall id, id <> quizId -> Quiz_docs s' !! id = Quiz_docs s !! id)
  /\ (forall id, id <> user_id user -> User_docs s' !! id = User_docs s !! id)
  /\ (exists new, QuizAttempt_docs s' = QuizAttempt_docs s ++ [new])
  /\ (exists quiz total avg,
        Quiz_docs s !! quizId = Some quiz
        /\ Quiz_docs s' !! quizId = Some (with_quiz_stats quiz total avg))
  /\ (exists u taken avg,
        User_docs s !! user_id user = Some u
        /\ User_docs s' !! user_id user = Some (with_user_stats u taken avg)).
Proof.
  intros s user quizId s'.
  apply (submit_frame Sample.now s user quizId (Sample.answers_right 3 4)
           200 (Some "Quiz submitted successfully")
           {| res_score := 3; res_percentage := 75%float; res_passed := true;
              res_timeSpent := 600; res_attemptNumber := 1 |} s').
  vm_compute. reflexivity.
Defined.

(** X3. When the submitting user is a stored user, a submission that is
    not answered with success leaves the whole store as it was, whatever
    the reason of the failure. *)
Theorem submit_failure_keeps_store now s user quizId body u st msg err s' :
  User_docs s !! user_id user = Some u ->
  submit now s user quizId body = (Failure st msg err, s') ->
  s' = s.
Proof.
  intros Hu. unfold submit.
  destruct (authorize _ user); cbn [negb]; [| now intros [= _ _ _ <-]].
  destruct (Quiz_docs s !! quizId) as [quiz |]; [| now intros [= _ _ _ <-]].
  destruct (isPublished quiz); cbn [negb]; [| now intros [= _ _ _ <-]].
  destruct (maxAttempts quiz <=? _); [now intros [= _ _ _ <-] |].
  destruct (process_answers _ _ 0) as [e | [pas c]]; [now intros [= _ _ _ <-] |].
  destruct (validate_attempt _) as [e | []]; [now intros [= _ _ _ <-] |].
  cbn [save_quiz save_attempt User_docs]. rewrite Hu. cbn. discriminate.
Qed.

Lemma submit_failure_keeps_store_witness :
  (submit Sample.now Sample.store1 Sample.alice "quiz1" Sample.answers_unknown).2
  = Sample.store1.
Proof.
  apply (submit_failure_keeps_store Sample.now Sample.store1 Sample.alice "quiz1"
           Sample.answers_unknown Sample.alice 500 "Server error"
           (Some "Cannot read properties of undefined (reading 'questionType')")).
  - vm_compute. reflexivity.
  - vm_compute. reflexivity.
Defined.

(** ** Grading *)

Lemma find_correct_first before first after :
  Forall (fun o => truthy (isCorrect o) = false) before ->
  truthy (isCorrect first) = true ->
  find_correct (before ++ first :: after) = Some first.
Proof.
  intros Hbefore Hfirst. unfold find_correct.
  induction Hbefore as [| o l Ho _ IH]; cbn.
  - now rewrite Hfirst.
  - now rewrite Ho.
Qed.

(** X4. A multiple-choice answer is graded against the first option marked
    correct and no other: it is correct exactly when the selection is the id
    of that option, so selecting a later option that is also marked correct
    is graded incorrect. *)
Theorem grade_multiple_choice_first_correct question answer before first after :
  questionType question = "multiple-choice" ->
  options question = before ++ first :: after ->
  Forall (fun o => truthy (isCorrect o) = false) before ->
  truthy (isCorrect first) = true ->
  grade question answer = inr (Some (strict_eq (opt_id first) (selectedAnswer answer)))
  /\ (forall other,
        In other after -> truthy (isCorrect other) = true ->
        opt_id other <> opt_id first ->
        selectedAnswer answer = Some (opt_id other) ->
        grade question answer = inr (Some false)).
Proof.
  intros Hty Hopts Hbefore Hfirst.
  assert (Hgrade : grade question answer
                   = inr (Some (strict_eq (opt_id first) (selectedAnswer answer)))).
  { unfold grade. rewrite Hty, Hopts, (find_correct_first _ _ _ Hbefore Hfirst).
    reflexivity. }
  split; [exact Hgrade |].
  intros other _ _ Hne Hsel. rewrite Hgrade, Hsel. cbn.
  apply String.eqb_neq in Hne. rewrite String.eqb_sym. now rewrite Hne.
Qed.

Lemma grade_multiple_choice_first_correct_witness :
  let a := {| opt_id := "a"; text := Some "4"; isCorrect := Some true |} in
  let b := {| opt_id := "b"; text := Some "four"; isCorrect := Some true |} in
  let c := {| opt_id := "c"; text := Some "5"; isCorrect := Some false |} in
  let question :=
    {| question_id := "q"; question_title := "Sum"; questionText := "What is 2 + 2?";
       questionType := "multiple-choice"; options := [c; a; b]; correctAnswer := None;
       explanation := None; difficulty := "easy"; question_subject := "math"; tags := [];
       question_createdBy := "teacherA"; question_isActive := true; timesUsed := 0;
       question_averageScore := Num.of_Z 0 |} in
  let answer := {| questionId := "q"; selectedAnswer := Some "b"; answer_timeSpent := None |} in
  grade question answer = inr (Some (strict_eq "a" (Some "b")))
  /\ (forall other,
        In other [b] -> truthy (isCorrect other) = true ->
        opt_id other <> "a" ->
        Some "b" = Some (opt_id other) ->
        grade question answer = inr (Some false)).
Proof.
  intros a b c question answer.
  apply (grade_multiple_choice_first_correct question answer [c] a [b]).
  - reflexivity.
  - reflexivity.
  - repeat constructor.
  - reflexivity.
Defined.

(** ** Reading a quiz *)

Lemma insert_by_number_In a l x :
  In x (insert_by_number a l) <-> x = a \/ In x l.
Proof.
  induction l as [| b rest IH]; cbn.
  - intuition.
  - destruct (attemptNumber b <? attemptNumber a); cbn; rewrite ?IH; intuition.
Qed.

Lemma sort_attemptNumber_desc_In l x :
  In x (sort_attemptNumber_desc l) <-> In x l.
Proof.
  unfold sort_attemptNumber_desc. induction l as [| a rest IH]; cbn; [reflexivity |].
  rewrite insert_by_number_In, IH. intuition.
Qed.

Lemma insert_by_number_sorted a l :
  Sorted (fun x y => attemptNumber y <= attemptNumber x) l ->
  Sorted (fun x y => attemptNumber y <= attemptNumber x) (insert_by_number a l).
Proof.
  induction 1 as [| b rest Hrest IH Hhd]; cbn.
  - repeat constructor.
  - destruct (Z.ltb_spec (attemptNumber b) (attemptNumber a)).
    + constructor; [now constructor |]. constructor. lia.
    + constructor; [exact IH |].
      destruct rest as [| c rest']; cbn.
      * constructor. lia.
      * destruct (Z.ltb_spec (attemptNumber c) (attemptNumber a)); constructor;
          [lia | now inversion Hhd].
Qed.

Lemma sort_attemptNumber_desc_sorted l :
  Sorted (fun x y => attemptNumber y <= attemptNumber x) (sort_attemptNumber_desc l).
Proof.
  unfold sort_attemptNumber_desc. induction l as [| a rest IH]; cbn.
  - constructor.
  - now apply insert_by_number_sorted.
Qed.

(** X5. For a student, reading a quiz that exists succeeds exactly when
    the quiz is published and its allow-list, as populated, is empty or
    holds the student; an unpublished quiz is answered 403 "Quiz is not
    published" and a quiz reserved to others 403 "Access denied". *)
Theorem student_read_access s user id quiz :
  role user = "student" ->
  Quiz_docs s !! id = Some quiz ->
  let allowed := populate_users s (allowedStudents quiz) in
  let listed := existsb (fun st => String.eqb (user_id st) (user_id user)) allowed in
  ((exists r, get_quiz s user id = (Success 200 None r, s))
   <-> isPublished quiz = true /\ (allowed = [] \/ listed = true))
  /\ (isPublished quiz = false ->
      get_quiz s user id = (Failure 403 "Quiz is not published" None, s))
  /\ (isPublished quiz = true -> allowed <> [] -> listed = false ->
      get_quiz s user id = (Failure 403 "Access denied" None, s)).
Proof.
  intros Hrole Hquiz allowed listed. unfold get_quiz.
  rewrite Hquiz, Hrole. cbn [String.eqb Ascii.eqb Bool.eqb].
  fold allowed. fold listed.
  destruct (isPublished quiz); cbn [negb].
  - destruct allowed as [| st rest] eqn:Hallowed; cbn [length Z.of_nat Z.ltb Z.compare andb].
    + split; [split; [intuition | intros _; eauto] |].
      split; [discriminate | congruence].
    + destruct listed; cbn.
      * split; [split; [intuition | intros _; eauto] |].
        split; [discriminate | discriminate].
      * split; [split; [intros [r Hr]; discriminate | intros [_ [? | ?]]; discriminate] |].
        split; [discriminate | reflexivity].
  - split; [split; [intros [r Hr]; discriminate | intros [? _]; discriminate] |].
    split; [reflexivity | discriminate].
Qed.

Lemma student_read_access_witness :
  let allowed := populate_users Sample.store4 (allowedStudents Sample.quiz4) in
  let listed :=
    existsb (fun st => String.eqb (user_id st) (user_id Sample.alice)) allowed in
  ((exists r, get_quiz Sample.store4 Sample.alice "quiz4" = (Success 200 None r, Sample.store4))
   <-> isPublished Sample.quiz4 = true /\ (allowed = [] \/ listed = true))
  /\ (isPublished Sample.quiz4 = false ->
      get_quiz Sample.store4 Sample.alice "quiz4"
      = (Failure 403 "Quiz is not published" None, Sample.store4))
  /\ (isPublished Sample.quiz4 = true -> allowed <> [] -> listed = false ->
      get_quiz Sample.store4 Sample.alice "quiz4"
      = (Failure 403 "Access denied" None, Sample.store4)).
Proof.
  apply (student_read_access Sample.store4 Sample.alice "quiz4" Sample.quiz4).
  - reflexivity.
  - vm_compute. reflexivity.
Defined.

(** X6. The attempts a student receives with a quiz are exactly the
    student's own attempts on that quiz, the latest attempt number first;
    any other reader receives none. *)
Theorem read_returns_own_attempts s user id st msg r s' :
  get_quiz s user id = (Success st msg r, s') ->
  (role user = "student" ->
   (forall a, In a (res_userAttempts r)
              <-> In a (QuizAttempt_docs s)
                  /\ attempt_quiz a = quiz_id (res_quiz r) /\ student a = user_id user)
   /\ Sorted (fun x y => attemptNumber y <= attemptNumber x) (res_userAttempts r))
  /\ (role user <> "student" -> res_userAttempts r = []).
Proof.
  unfold get_quiz.
  destruct (Quiz_docs s !! id) as [quiz |]; [| discriminate].
  destruct (String.eqb_spec (role user) "student") as [Hrole | Hrole].
  - destruct (isPublished quiz); cbn [negb]; [| discriminate].
    destruct (_ && _); [discriminate |].
    intros [= _ _ <- _]. cbn [res_userAttempts res_quiz].
    split; [| congruence]. intros _. split.
    + intros a. rewrite sort_attemptNumber_desc_In, List.filter_In, andb_true_iff.
      rewrite !String.eqb_eq. reflexivity.
    + apply sort_attemptNumber_desc_sorted.
  - split; [congruence |]. intros _.
    destruct (String.eqb (role user) "teacher").
    + destruct (deref _ _) as [e | owner]; [discriminate |].
      destruct (negb _); [discriminate |].
      now injection H as _ _ <- _.
    + now injection H as _ _ <- _.
Qed.

Lemma read_returns_own_attempts_witness :
  let s := (submit Sample.now Sample.store4 Sample.alice "quiz4" (Sample.answers_right 3 4)).2 in
  exists r,
    get_quiz s Sample.alice "quiz4" = (Success 200 None r, s)
    /\ length (res_userAttempts r) = 1%nat
    /\ (role Sample.alice = "student" ->
        (forall a, In a (res_userAttempts r)
                   <-> In a (QuizAttempt_docs s)
                       /\ attempt_quiz a = quiz_id (res_quiz r)
                       /\ student a = user_id Sample.alice)
        /\ Sorted (fun x y => attemptNumber y <= attemptNumber x) (res_userAttempts r))
    /\ (role Sample.alice <> "student" -> res_userAttempts r = []).
Proof.
  intros s. eexists. split; [vm_compute; reflexivity |]. split; [reflexivity |].
  apply (read_returns_own_attempts s Sample.alice "quiz4" 200 None _ s).
  vm_compute. reflexivity.
Defined.

(** ** Quizzes: ownership, creation, deletion and listing *)

(** X7. A quiz whose [createdBy] is teacher A, A being a stored user: a
    teacher B with another id is answered 403 "Access denied" on reading,
    updating and deleting it, and the store is left as it was. *)
Theorem other_teacher_denied_quiz s (a b : User) id quiz body :
  role b = "teacher" ->
  Quiz_docs s !! id = Some quiz ->
  quiz_createdBy quiz = user_id a ->
  User_docs s !! user_id a = Some a ->
  user_id b <> user_id a ->
  get_quiz s b id = (Failure 403 "Access denied" None, s)
  /\ QuizRoutes.update_quiz s b id body = (QuizRoutes.quiz_denied, s)
  /\ QuizRoutes.delete_quiz s b id = (QuizRoutes.quiz_denied, s).
Proof.
  intros Hrole Hq Hby Ha Hne.
  assert (Hneq : String.eqb (user_id a) (user_id b) = false)
    by (apply String.eqb_neq; congruence).
  unfold get_quiz, QuizRoutes.update_quiz, QuizRoutes.delete_quiz, authorize.
  rewrite Hrole, Hq, Hby, Ha. cbn. rewrite Hneq. cbn. repeat split.
Qed.

Lemma other_teacher_denied_quiz_witness :
  get_quiz Sample.store4 Sample.teacherB "quiz4"
  = (Failure 403 "Access denied" None, Sample.store4)
  /\ QuizRoutes.update_quiz Sample.store4 Sample.teacherB "quiz4" Sample2.quiz_body
     = (QuizRoutes.quiz_denied, Sample.store4)
  /\ QuizRoutes.delete_quiz Sample.store4 Sample.teacherB "quiz4"
     = (QuizRoutes.quiz_denied, Sample.store4).
Proof.
  apply (other_teacher_denied_quiz Sample.store4 Sample.teacherA Sample.teacherB "quiz4"
           Sample.quiz4 Sample2.quiz_body).
  - reflexivity.
  - vm_compute. reflexivity.
  - reflexivity.
  - vm_compute. reflexivity.
  - discriminate.
Defined.

(** X8. Deleting a quiz removes the quiz and exactly the attempts that
    refer to it: every other attempt is kept, in the order it had, and the
    questions, the other quizzes and all user documents (with the
    statistics the deleted attempts contributed to) are as they were. *)
Theorem delete_quiz_cascades s user id quiz st msg s' :
  Quiz_docs s !! id = Some quiz ->
  quiz_id quiz = id ->
  QuizRoutes.delete_quiz s user id = (Success st msg tt, s') ->
  Quiz_docs s' !! id = None
  /\ attempts_of_quiz id (QuizAttempt_docs s') = []
  /\ (forall other, other <> id ->
        attempts_of_quiz other (QuizAttempt_docs s')
        = attempts_of_quiz other (QuizAttempt_docs s))
  /\ (forall other, other <> id -> Quiz_docs s' !! other = Quiz_docs s !! other)
  /\ User_docs s' = User_docs s
  /\ Question_docs s' = Question_docs s.
Proof.
  intros Hquiz Hid. unfold QuizRoutes.delete_quiz. rewrite Hquiz.
  destruct (authorize _ user); cbn [negb]; [| discriminate].
  destruct (_ && _); [discriminate |].
  intros [= _ _ <-]. unfold QuizRoutes.delete_quiz_docs. rewrite Hid.
  cbn [Quiz_docs QuizAttempt_docs User_docs Question_docs].
  split; [apply lookup_delete_eq |].
  split.
  { unfold attempts_of_quiz. induction (QuizAttempt_docs s) as [| a l IH]; [reflexivity |].
    cbn. destruct (String.eqb (attempt_quiz a) id) eqn:Ha; cbn; [exact IH |].
    now rewrite Ha. }
  split.
  { intros other Hother. unfold attempts_of_quiz.
    induction (QuizAttempt_docs s) as [| a l IH]; [reflexivity |].
    cbn. destruct (String.eqb_spec (attempt_quiz a) id) as [Ha | Ha]; cbn.
    - rewrite Ha. apply String.eqb_neq in Hother. rewrite String.eqb_sym, Hother.
      exact IH.
    - rewrite IH. reflexivity. }
  split; [intros other Hother; now apply lookup_delete_ne |].
  split; reflexivity.
Qed.

Lemma delete_quiz_cascades_witness :
  let s := (submit Sample.now Sample.store4 Sample.alice "quiz4" (Sample.answers_right 3 4)).2 in
  let s' := (QuizRoutes.delete_quiz s Sample.teacherA "quiz4").2 in
  Quiz_docs s' !! "quiz4" = None
  /\ attempts_of_quiz "quiz4" (QuizAttempt_docs s') = []
  /\ (forall other, other <> "quiz4" ->
        attempts_of_quiz other (QuizAttempt_docs s')
        = attempts_of_quiz other (QuizAttempt_docs s))
  /\ (forall other, other <> "quiz4" -> Quiz_docs s' !! other = Quiz_docs s !! other)
  /\ User_docs s' = User_docs s
  /\ Question_docs s' = Question_docs s.
Proof.
  intros s s'.
  apply (delete_quiz_cascades s Sample.teacherA "quiz4"
           (with_quiz_stats Sample.quiz4 1 75%float)
           200 (Some "Quiz deleted successfully") s').
  - vm_compute. reflexivity.
  - reflexivity.
  - vm_compute. reflexivity.
Defined.






(** A list of questions that names a question twice is refused. *)
Example create_quiz_repeated_question :
  QuizRoutes.create_quiz Sample.store4 Sample.teacherA "quiz9"
    {| QuizRoutes.quiz_body_title := Some "Fractions"; QuizRoutes.quiz_body_description := None;
       QuizRoutes.quiz_body_subject := Some "math";
       QuizRoutes.quiz_body_questions := Some ["q0"; "q0"];
       QuizRoutes.quiz_body_createdBy := None; QuizRoutes.quiz_body_timeLimit := None;
       QuizRoutes.quiz_body_maxAttempts := None; QuizRoutes.quiz_body_passingScore := None;
       QuizRoutes.quiz_body_isPublished := None; QuizRoutes.quiz_body_allowedStudents := None;
       QuizRoutes.quiz_body_totalAttempts := None; QuizRoutes.quiz_body_averageScore := None |}
  = (Failure 400 "Some questions not found" None, Sample.store4).
Proof. vm_compute. reflexivity. Qed.

Lemma filter_nonempty {A} (f : A -> bool) (l : list A) x :
  In x l -> f x = true -> (1 <= length (List.filter f l))%nat.
Proof.
  intros Hin Hf.
  assert (Hx : In x (List.filter f l)) by (apply List.filter_In; auto).
  destruct (List.filter f l); [destruct Hx | cbn; lia].
Qed.

(** X10. An unpublished quiz without allow-list is refused to a student
    who reads it (403 "Quiz is not published") and is left out of the
    student's listing, but it satisfies the listing's filter, and is counted
    in its total, as soon as the student's query string carries
    [isPublished=false]. *)
Theorem listing_discloses_unpublished s user id quiz :
  role user = "student" ->
  Quiz_docs s !! id = Some quiz ->
  isPublished quiz = false ->
  allowedStudents quiz = [] ->
  get_quiz s user id = (Failure 403 "Quiz is not published" None, s)
  /\ QuizRoutes.matches (QuizRoutes.list_query user None None) quiz = false
  /\ QuizRoutes.matches (QuizRoutes.list_query user None (Some "false")) quiz = true
  /\ (1 <= QuizRoutes.list_total s user None (Some "false"))%nat.
Proof.
  intros Hrole Hquiz Hpub Hopen.
  assert (Hmatch : QuizRoutes.matches (QuizRoutes.list_query user None (Some "false")) quiz
                   = true).
  { unfold QuizRoutes.matches, QuizRoutes.list_query. rewrite Hrole, Hpub, Hopen.
    reflexivity. }
  split.
  { unfold get_quiz. rewrite Hquiz, Hrole, Hpub. reflexivity. }
  split.
  { unfold QuizRoutes.matches, QuizRoutes.list_query. rewrite Hrole, Hpub. reflexivity. }
  split; [exact Hmatch |].
  unfold QuizRoutes.list_total.
  apply (filter_nonempty _ _ (id, quiz)); [| exact Hmatch].
  apply list_elem_of_In, elem_of_map_to_list. exact Hquiz.
Qed.

Lemma listing_discloses_unpublished_witness :
  get_quiz Sample2.store_draft Sample.alice "draft"
  = (Failure 403 "Quiz is not published" None, Sample2.store_draft)
  /\ QuizRoutes.matches (QuizRoutes.list_query Sample.alice None None) Sample2.draft = false
  /\ QuizRoutes.matches (QuizRoutes.list_query Sample.alice None (Some "false")) Sample2.draft
     = true
  /\ (1 <= QuizRoutes.list_total Sample2.store_draft Sample.alice None (Some "false"))%nat.
Proof.
  apply (listing_discloses_unpublished Sample2.store_draft Sample.alice "draft" Sample2.draft).
  - reflexivity.
  - vm_compute. reflexivity.
  - reflexivity.
  - reflexivity.
Defined.

(** ** Questions: creation, deletion and ownership *)




(** A short-answer question is accepted without [correctAnswer], and a
    true-false question without options. *)
Example create_short_answer_without_key :
  exists q s',
    QuestionRoutes.create_question Sample.store4 Sample.teacherA "q9"
      {| Questions.body_title := Some "Capital"; Questions.body_questionText := Some "Capital of France?";
         Questions.body_questionType := Some "short-answer"; Questions.body_options := None;
         Questions.body_correctAnswer := None; Questions.body_explanation := None;
         Questions.body_difficulty := None; Questions.body_subject := Some "geography";
         Questions.body_tags := None; Questions.body_createdBy := None |}
    = (Success 201 (Some "Question created successfully") q, s')
    /\ correctAnswer q = None.
Proof. do 2 eexists. split; [vm_compute; reflexivity | reflexivity]. Qed.

Lemma populate_questions_delete s id ids :
  omap (fun i => delete id (Question_docs s) !! i) ids
  = populate_questions s (List.filter (fun i => negb (String.eqb i id)) ids).
Proof.
  unfold populate_questions. induction ids as [| i rest IH]; [reflexivity |].
  cbn. destruct (String.eqb_spec i id) as [-> | Hne]; cbn.
  - rewrite lookup_delete_eq. exact IH.
  - rewrite lookup_delete_ne by congruence. now rewrite IH.
Qed.

(** X12. After a question is deleted it is gone for every reader (404),
    the other questions, the quizzes, the attempts and the users are as they
    were, and a quiz that lists the question keeps the reference: its
    populated question list is the former one without that question. *)
Theorem delete_question_removes s user id st msg s' :
  Questions.delete_question s user id = (Success st msg tt, s') ->
  Question_docs s' !! id = None
  /\ (forall other, other <> id -> Question_docs s' !! other = Question_docs s !! other)
  /\ Quiz_docs s' = Quiz_docs s
  /\ QuizAttempt_docs s' = QuizAttempt_docs s
  /\ User_docs s' = User_docs s
  /\ (forall reader, authorize ["admin"; "teacher"] reader = true ->
        Questions.get_question s' reader id = (Questions.not_found, s'))
  /\ (forall ids,
        populate_questions s' ids
        = populate_questions s (List.filter (fun i => negb (String.eqb i id)) ids)).
Proof.
  unfold Questions.delete_question.
  destruct (authorize _ user); cbn [negb]; [| discriminate].
  destruct (Question_docs s !! id) as [question |]; [| discriminate].
  destruct (_ && _); [discriminate |].
  intros [= _ _ <-]. unfold Questions.delete_question_doc.
  cbn [Question_docs Quiz_docs QuizAttempt_docs User_docs].
  split; [apply lookup_delete_eq |].
  split; [intros other Hother; now apply lookup_delete_ne |].
  do 3 (split; [reflexivity |]).
  split.
  - intros reader Hreader. unfold Questions.get_question. rewrite Hreader.
    cbn [negb Question_docs]. now rewrite lookup_delete_eq.
  - intros ids. apply populate_questions_delete.
Qed.

Lemma delete_question_removes_witness :
  let s := Sample.store4 in
  let s' := (Questions.delete_question s Sample.teacherA "q1").2 in
  Question_docs s' !! "q1" = None
  /\ (forall other, other <> "q1" -> Question_docs s' !! other = Question_docs s !! other)
  /\ Quiz_docs s' = Quiz_docs s
  /\ QuizAttempt_docs s' = QuizAttempt_docs s
  /\ User_docs s' = User_docs s
  /\ (forall reader, authorize ["admin"; "teacher"] reader = true ->
        Questions.get_question s' reader "q1" = (Questions.not_found, s'))
  /\ (forall ids,
        populate_questions s' ids
        = populate_questions s (List.filter (fun i => negb (String.eqb i "q1")) ids)).
Proof.
  intros s s'.
  apply (delete_question_removes s Sample.teacherA "q1"
           200 (Some "Question deleted successfully") s').
  vm_compute. reflexivity.
Defined.

(** X13. A teacher who updates an own question with a body that carries
    only [createdBy], naming someone else, succeeds, the question is stored
    with the new owner and nothing else changed, and from then on the
    teacher's own updates and deletions of it are answered 403. *)
Theorem update_hands_question_over s user id question other :
  role user = "teacher" ->
  Question_docs s !! id = Some question ->
  question_createdBy question = user_id user ->
  other <> user_id user ->
  let body := QuestionRoutes.only_createdBy other in
  let question' := Questions.assign question body in
  let s' := Questions.save_question id question' s in
  Questions.update_question s user id body
  = (Success 200 (Some "Question updated successfully") question', s')
  /\ question_createdBy question' = other
  /\ options question' = options question
  /\ correctAnswer question' = correctAnswer question
  /\ (forall body', Questions.update_question s' user id body' = (Questions.access_denied, s'))
  /\ Questions.delete_question s' user id = (Questions.access_denied, s').
Proof.
  intros Hrole Hq Hby Hother body question' s'.
  assert (Hneq : String.eqb other (user_id user) = false) by now apply String.eqb_neq.
  split.
  { unfold Questions.update_question, authorize. rewrite Hrole, Hq, Hby.
    cbn. rewrite String.eqb_refl. reflexivity. }
  do 3 (split; [reflexivity |]).
  split.
  - intros body'. unfold Questions.update_question, authorize. rewrite Hrole.
    subst s'. cbn [existsb String.eqb Ascii.eqb Bool.eqb orb negb Question_docs
                   Questions.save_question].
    rewrite lookup_insert_eq. cbn [question_createdBy Questions.assign
                                   QuestionRoutes.only_createdBy Questions.body_createdBy
                                   default body question' Datatypes.id].
    subst question' body. cbn. rewrite Hneq. reflexivity.
  - unfold Questions.delete_question, authorize. rewrite Hrole.
    subst s'. cbn [existsb String.eqb Ascii.eqb Bool.eqb orb negb Question_docs
                   Questions.save_question].
    rewrite lookup_insert_eq. subst question' body. cbn. rewrite Hneq. reflexivity.
Qed.

Lemma update_hands_question_over_witness :
  let body := QuestionRoutes.only_createdBy "teacherB" in
  let question' := Questions.assign (Sample.choice 0) body in
  let s' := Questions.save_question "q0" question' Sample.store4 in
  Questions.update_question Sample.store4 Sample.teacherA "q0" body
  = (Success 200 (Some "Question updated successfully") question', s')
  /\ question_createdBy question' = "teacherB"
  /\ options question' = options (Sample.choice 0)
  /\ correctAnswer question' = correctAnswer (Sample.choice 0)
  /\ (forall body',
        Questions.update_question s' Sample.teacherA "q0" body'
        = (Questions.access_denied, s'))
  /\ Questions.delete_question s' Sample.teacherA "q0" = (Questions.access_denied, s').
Proof.
  apply (update_hands_question_over Sample.store4 Sample.teacherA "q0" (Sample.choice 0)
           "teacherB").
  - reflexivity.
  - vm_compute. reflexivity.
  - reflexivity.
  - discriminate.
Defined.

(** ** Users *)

(** X14. When an administrator deletes a user, only that user document
    goes: the questions, quizzes and attempts of the user stay.  If the user
    owned a question, another teacher's read of that question is from then
    on answered 500 (the populated [createdBy] is [null]), while the same
    teacher's update and deletion are still answered 403. *)
Theorem delete_user_leaves_content s (admin a b : User) id question :
  role admin = "admin" ->
  role b = "teacher" ->
  Question_docs s !! id = Some question ->
  User_docs s !! question_createdBy question = Some a ->
  user_id b <> question_createdBy question ->
  let s' := UserRoutes.delete_user_doc (question_createdBy question) s in
  UserRoutes.delete_user s admin (question_createdBy question)
  = (Success 200 (Some "User deleted successfully") tt, s')
  /\ User_docs s' !! question_createdBy question = None
  /\ Question_docs s' = Question_docs s
  /\ Quiz_docs s' = Quiz_docs s
  /\ QuizAttempt_docs s' = QuizAttempt_docs s
  /\ (exists e, Questions.get_question s' b id = (server_error e, s'))
  /\ (forall body, Questions.update_question s' b id body = (Questions.access_denied, s'))
  /\ Questions.delete_question s' b id = (Questions.access_denied, s').
Proof.
  intros Hadmin Hrole Hq Ha Hne s'.
  assert (Hneq : String.eqb (question_createdBy question) (user_id b) = false)
    by (apply String.eqb_neq; congruence).
  split.
  { unfold UserRoutes.delete_user, authorize. rewrite Hadmin, Ha. reflexivity. }
  split; [apply lookup_delete_eq |].
  do 3 (split; [reflexivity |]).
  split.
  { unfold Questions.get_question, authorize. rewrite Hrole. subst s'.
    cbn [existsb String.eqb Ascii.eqb Bool.eqb orb negb Question_docs User_docs
         UserRoutes.delete_user_doc].
    rewrite Hq, lookup_delete_eq. cbn. eauto. }
  split.
  - intros body. unfold Questions.update_question, authorize. rewrite Hrole. subst s'.
    cbn [existsb String.eqb Ascii.eqb Bool.eqb orb negb Question_docs
         UserRoutes.delete_user_doc].
    rewrite Hq, Hneq. reflexivity.
  - unfold Questions.delete_question, authorize. rewrite Hrole. subst s'.
    cbn [existsb String.eqb Ascii.eqb Bool.eqb orb negb Question_docs
         UserRoutes.delete_user_doc].
    rewrite Hq, Hneq. reflexivity.
Qed.

Lemma delete_user_leaves_content_witness :
  let s := Sample2.store4 in
  let s' := UserRoutes.delete_user_doc "teacherA" s in
  UserRoutes.delete_user s Sample2.admin "teacherA"
  = (Success 200 (Some "User deleted successfully") tt, s')
  /\ User_docs s' !! "teacherA" = None
  /\ Question_docs s' = Question_docs s
  /\ Quiz_docs s' = Quiz_docs s
  /\ QuizAttempt_docs s' = QuizAttempt_docs s
  /\ (exists e, Questions.get_question s' Sample.teacherB "q0" = (server_error e, s'))
  /\ (forall body,
        Questions.update_question s' Sample.teacherB "q0" body
        = (Questions.access_denied, s'))
  /\ Questions.delete_question s' Sample.teacherB "q0" = (Questions.access_denied, s').
Proof.
  apply (delete_user_leaves_content Sample2.store4 Sample2.admin Sample.teacherA
           Sample.teacherB "q0" (Sample.choice 0)).
  - reflexivity.
  - reflexivity.
  - vm_compute. reflexivity.
  - vm_compute. reflexivity.
  - discriminate.
Defined.

(** X15. Whatever the [page] and [limit] of the query string are, the
    listing of users works with a page of at least 1 and a page size between
    1 and 100; absent parameters give page 1 and size 10, an unreadable
    [limit] gives size 10, and a readable [limit] between 1 and 100 is kept. *)
Theorem users_pagination_bounds (page limit : option string) :
  1 <= UserRoutes.page_of page
  /\ 1 <= UserRoutes.limit_of limit <= 100
  /\ UserRoutes.page_of None = 1
  /\ UserRoutes.limit_of None = 10
  /\ (forall text, UserRoutes.parseInt text = None ->
        UserRoutes.limit_of (Some text) = 10 /\ UserRoutes.page_of (Some text) = 1)
  /\ (forall text n, UserRoutes.parseInt text = Some n -> 1 <= n <= 100 ->
        UserRoutes.limit_of (Some text) = n).
Proof.
  unfold UserRoutes.page_of, UserRoutes.limit_of.
  split; [lia |]. split; [lia |].
  split; [reflexivity |]. split; [reflexivity |].
  split.
  - intros text H.
    change (default "10" (Some text)) with text.
    change (default "1" (Some text)) with text.
    rewrite H. split; reflexivity.
  - intros text n H Hn.
    change (default "10" (Some text)) with text.
    rewrite H. change (default 10 (Some n)) with n. lia.
Qed.

Lemma users_pagination_bounds_witness :
  1 <= UserRoutes.page_of (Some "-3")
  /\ 1 <= UserRoutes.limit_of (Some "1000") <= 100
  /\ UserRoutes.page_of None = 1
  /\ UserRoutes.limit_of None = 10
  /\ (forall text, UserRoutes.parseInt text = None ->
        UserRoutes.limit_of (Some text) = 10 /\ UserRoutes.page_of (Some text) = 1)
  /\ (forall text n, UserRoutes.parseInt text = Some n -> 1 <= n <= 100 ->
        UserRoutes.limit_of (Some text) = n).
Proof. apply (users_pagination_bounds (Some "-3") (Some "1000")). Defined.

Example users_pagination_samples :
  UserRoutes.page_of (Some "0") = 1
  /\ UserRoutes.page_of (Some "-3") = 1
  /\ UserRoutes.page_of (Some " 7th") = 7
  /\ UserRoutes.limit_of (Some "1000") = 100
  /\ UserRoutes.limit_of (Some "0") = 1
  /\ UserRoutes.limit_of (Some "ten") = 10
  /\ UserRoutes.limit_of (Some "25") = 25.
Proof. repeat split. Qed.

(** X16. In the listing of users a teacher's filter never admits an
    administrator, whatever role the query string asks for; asking for
    [admin] (in any letter case) gives the empty array as filter, which
    admits nobody, and without a role the filter admits exactly students
    and teachers. *)
Theorem teacher_never_lists_admins (user : User) (role_param : option string) :
  role user = "teacher" ->
  (forall u, role u = "admin" ->
     UserRoutes.role_matches (UserRoutes.role_filter user role_param) u = false)
  /\ (forall text, Str.toLowerCase (Str.trim text) = "admin" ->
        UserRoutes.role_filter user (Some text) = UserRoutes.RoleNone)
  /\ (forall u, UserRoutes.role_matches (UserRoutes.role_filter user None) u
                = String.eqb (role u) "student" || String.eqb (role u) "teacher").
Proof.
  intros Hrole. unfold UserRoutes.role_filter, UserRoutes.visibleRoles.
  rewrite Hrole. change (String.eqb "teacher" "teacher") with true. cbv iota.
  split; [| split].
  - intros u Hu. destruct role_param as [text |]; cbn [fmap option_fmap option_map].
    + destruct (Str.toLowerCase (Str.trim text)) as [| c r] eqn:Hreq.
      * cbn. rewrite Hu. reflexivity.
      * destruct (existsb _ _) eqn:Hin; [| reflexivity].
        cbn [UserRoutes.role_matches]. rewrite Hu.
        cbn [existsb] in Hin. rewrite orb_false_r in Hin.
        apply orb_prop in Hin as [Hin | Hin]; apply String.eqb_eq in Hin;
          rewrite Hin; reflexivity.
    + cbn. rewrite Hu. reflexivity.
  - intros text H. cbn [fmap option_fmap option_map]. rewrite H. reflexivity.
  - intros u. cbn [fmap option_fmap option_map UserRoutes.role_matches existsb].
    now rewrite orb_false_r.
Qed.

Lemma teacher_never_lists_admins_witness :
  (forall u, role u = "admin" ->
     UserRoutes.role_matches (UserRoutes.role_filter Sample.teacherA (Some " Admin ")) u
     = false)
  /\ (forall text, Str.toLowerCase (Str.trim text) = "admin" ->
        UserRoutes.role_filter Sample.teacherA (Some text) = UserRoutes.RoleNone)
  /\ (forall u, UserRoutes.role_matches (UserRoutes.role_filter Sample.teacherA None) u
                = String.eqb (role u) "student" || String.eqb (role u) "teacher").
Proof.
  apply (teacher_never_lists_admins Sample.teacherA (Some " Admin ")). reflexivity.
Defined.

(** X17. A student reads a stored user's profile exactly when it is the
    student's own, and is answered 403 for any other; teachers and
    administrators read every stored profile.  The profile returned is the
    stored document without its password, and the store is left as it
    was. *)
Theorem profile_access s user id u :
  User_docs s !! id = Some u ->
  (role user = "student" -> user_id user <> user_id u ->
   UserRoutes.get_user s user id = (Failure 403 "Access denied" None, s))
  /\ (role user <> "student" \/ user_id user = user_id u ->
      UserRoutes.get_user s user id = (Success 200 None (UserRoutes.select_public u), s)).
Proof.
  intros Hu. unfold UserRoutes.get_user. rewrite Hu. split.
  - intros -> Hne. apply String.eqb_neq in Hne. cbn. now rewrite Hne.
  - intros [Hrole | Hid].
    + apply String.eqb_neq in Hrole. now rewrite Hrole.
    + rewrite Hid, String.eqb_refl. cbn. now rewrite andb_false_r.
Qed.

Lemma profile_access_witness :
  (role Sample.alice = "student" -> user_id Sample.alice <> user_id Sample.teacherA ->
   UserRoutes.get_user Sample.store4 Sample.alice "teacherA"
   = (Failure 403 "Access denied" None, Sample.store4))
  /\ (role Sample.alice <> "student" \/ user_id Sample.alice = user_id Sample.teacherA ->
      UserRoutes.get_user Sample.store4 Sample.alice "teacherA"
      = (Success 200 None (UserRoutes.select_public Sample.teacherA), Sample.store4)).
Proof.
  apply (profile_access Sample.store4 Sample.alice "teacherA" Sample.teacherA).
  vm_compute. reflexivity.
Defined.

(** ** Authentication *)

Lemma substring_all (t : string) : String.substring 0 (String.length t) t = t.
Proof. induction t as [| c t IH]; cbn; [reflexivity | now rewrite IH]. Qed.

(** X18. The cookie comes first: when the cookie holds a non-empty token
    the Authorization header is not looked at.  Without such a cookie a
    header ["Bearer " ++ token] authenticates as the cookie [token] would,
    and a header that does not start with ["Bearer "] is answered 401
    "Access denied. No token provided.". *)
Theorem auth_reads_cookie_first jwt_verify s (token : string) :
  token <> EmptyString ->
  (forall header header',
     Middleware.auth jwt_verify s
       {| Middleware.cookie_token := Some token; Middleware.header_authorization := header |}
     = Middleware.auth jwt_verify s
         {| Middleware.cookie_token := Some token;
            Middleware.header_authorization := header' |})
  /\ (forall cookie, cookie = None \/ cookie = Some EmptyString ->
        Middleware.auth jwt_verify s
          {| Middleware.cookie_token := cookie;
             Middleware.header_authorization := Some ("Bearer " +:+ token) |}
        = Middleware.auth jwt_verify s
            {| Middleware.cookie_token := Some token;
               Middleware.header_authorization := None |})
  /\ (forall cookie header, cookie = None \/ cookie = Some EmptyString ->
        String.prefix "Bearer " header = false ->
        Middleware.auth jwt_verify s
          {| Middleware.cookie_token := cookie;
             Middleware.header_authorization := Some header |}
        = Middleware.Rejected 401 "Access denied. No token provided.").
Proof.
  intros Htoken. destruct token as [| c r]; [congruence |].
  split; [reflexivity |]. split.
  - assert (Hread : forall cookie, cookie = None \/ cookie = Some EmptyString ->
              Middleware.read_token
                {| Middleware.cookie_token := cookie;
                   Middleware.header_authorization := Some ("Bearer " +:+ String c r) |}
              = Some (String c r)).
    { intros cookie [-> | ->]; unfold Middleware.read_token;
        cbn [Middleware.cookie_token Middleware.header_authorization];
        change ("Bearer " +:+ String c r)
          with (String "B" (String "e" (String "a" (String "r" (String "e"
                 (String "r" (String " " (String c r))))))));
        cbn; now rewrite substring_all. }
    intros cookie Hcookie. unfold Middleware.auth. now rewrite (Hread cookie Hcookie).
  - intros cookie header [-> | ->] Hprefix; unfold Middleware.auth, Middleware.read_token;
      cbn [Middleware.cookie_token Middleware.header_authorization];
      rewrite Hprefix; reflexivity.
Qed.

(** X19. The middleware lets a request through only for a user that is
    stored and active, found under the id that the verified token carries. *)
Theorem auth_admits_stored_active_users jwt_verify s req u :
  Middleware.auth jwt_verify s req = Middleware.Authenticated u ->
  exists token id,
    Middleware.read_token req = Some token
    /\ token <> EmptyString
    /\ jwt_verify token = Some id
    /\ User_docs s !! id = Some u
    /\ user_isActive u = true.
Proof.
  unfold Middleware.auth.
  destruct (Middleware.read_token req) as [[| c r] |]; try discriminate.
  destruct (jwt_verify (String c r)) as [id |] eqn:Hverify; [| discriminate].
  destruct (User_docs s !! id) as [user |] eqn:Huser; [| discriminate].
  destruct (user_isActive user) eqn:Hactive; [| discriminate].
  intros [= <-]. exists (String c r), id. repeat split; auto; discriminate.
Qed.

Lemma auth_admits_stored_active_users_witness :
  exists token id,
    Middleware.read_token
      {| Middleware.cookie_token := None;
         Middleware.header_authorization := Some "Bearer token:alice" |} = Some token
    /\ token <> EmptyString
    /\ Sample2.jwt_verify token = Some id
    /\ User_docs Sample.store4 !! id = Some Sample.alice
    /\ user_isActive Sample.alice = true.
Proof.
  apply (auth_admits_stored_active_users Sample2.jwt_verify Sample.store4
           {| Middleware.cookie_token := None;
              Middleware.header_authorization := Some "Bearer token:alice" |}
           Sample.alice).
  vm_compute. reflexivity.
Defined.

(** X20. Deleting a user revokes the user's tokens: a token that
    authenticated the user before an administrator deleted the account is
    answered 401 "Invalid token or user not found." afterwards. *)
Theorem deleted_user_token_rejected jwt_verify s admin id u (token : string) header :
  role admin = "admin" ->
  token <> EmptyString ->
  jwt_verify token = Some id ->
  User_docs s !! id = Some u ->
  user_isActive u = true ->
  let req := {| Middleware.cookie_token := Some token;
                Middleware.header_authorization := header |} in
  Middleware.auth jwt_verify s req = Middleware.Authenticated u
  /\ Middleware.auth jwt_verify (UserRoutes.delete_user s admin id).2 req
     = Middleware.Rejected 401 "Invalid token or user not found.".
Proof.
  intros Hadmin Htoken Hverify Hu Hactive req.
  destruct token as [| c r]; [congruence |].
  unfold Middleware.auth, UserRoutes.delete_user, authorize. subst req.
  cbn [Middleware.read_token Middleware.cookie_token].
  rewrite Hverify, Hadmin, Hu, Hactive.
  split; [reflexivity |].
  cbn [existsb String.eqb Ascii.eqb Bool.eqb orb negb snd User_docs
       UserRoutes.delete_user_doc].
  now rewrite lookup_delete_eq.
Qed.

Lemma deleted_user_token_rejected_witness :
  let req := {| Middleware.cookie_token := Some "token:alice";
                Middleware.header_authorization := None |} in
  Middleware.auth Sample2.jwt_verify Sample2.store4 req
  = Middleware.Authenticated Sample.alice
  /\ Middleware.auth Sample2.jwt_verify
       (UserRoutes.delete_user Sample2.store4 Sample2.admin "alice").2 req
     = Middleware.Rejected 401 "Invalid token or user not found.".
Proof.
  apply (deleted_user_token_rejected Sample2.jwt_verify Sample2.store4 Sample2.admin
           "alice" Sample.alice "token:alice" None).
  - reflexivity.
  - discriminate.
  - vm_compute. reflexivity.
  - vm_compute. reflexivity.
  - reflexivity.
Defined.

Lemma auth_reads_cookie_first_witness :
  (forall header header',
     Middleware.auth Sample2.jwt_verify Sample.store4
       {| Middleware.cookie_token := Some "token:alice";
          Middleware.header_authorization := header |}
     = Middleware.auth Sample2.jwt_verify Sample.store4
         {| Middleware.cookie_token := Some "token:alice";
            Middleware.header_authorization := header' |})
  /\ (forall cookie, cookie = None \/ cookie = Some EmptyString ->
        Middleware.auth Sample2.jwt_verify Sample.store4
          {| Middleware.cookie_token := cookie;
             Middleware.header_authorization := Some ("Bearer " +:+ "token:alice") |}
        = Middleware.auth Sample2.jwt_verify Sample.store4
            {| Middleware.cookie_token := Some "token:alice";
               Middleware.header_authorization := None |})
  /\ (forall cookie header, cookie = None \/ cookie = Some EmptyString ->
        String.prefix "Bearer " header = false ->
        Middleware.auth Sample2.jwt_verify Sample.store4
          {| Middleware.cookie_token := cookie;
             Middleware.header_authorization := Some header |}
        = Middleware.Rejected 401 "Access denied. No token provided.").
Proof.
  apply (auth_reads_cookie_first Sample2.jwt_verify Sample.store4 "token:alice").
  discriminate.
Defined.

(** ** Accounts *)

Lemma find_unique {A} (f : A -> bool) (l : list A) (x : A) :
  In x l -> f x = true -> (forall y, In y l -> f y = true -> y = x) ->
  find f l = Some x.
Proof.
  intros Hin Hx Huniq. destruct (find f l) as [y |] eqn:Hfind.
  - apply find_some in Hfind as [Hy Hfy]. now rewrite (Huniq y Hy Hfy).
  - now rewrite (find_none f l Hfind x Hin) in Hx.
Qed.

Lemma findOne_unique filter s id u :
  User_docs s !! id = Some u ->
  filter id u = true ->
  (forall id' u', User_docs s !! id' = Some u' -> filter id' u' = true -> id' = id) ->
  AuthRoutes.findOne filter s = Some (id, u).
Proof.
  intros Hu Hf Huniq. unfold AuthRoutes.findOne. apply find_unique.
  - apply list_elem_of_In, elem_of_map_to_list, Hu.
  - exact Hf.
  - intros [id' u'] Hin Hf'.
    apply list_elem_of_In, elem_of_map_to_list in Hin.
    cbn in Hf'. pose proof (Huniq id' u' Hin Hf') as ->. congruence.
Qed.

Lemma findOne_none filter s :
  (forall id u, User_docs s !! id = Some u -> filter id u = false) ->
  AuthRoutes.findOne filter s = None.
Proof.
  intros Hnone. unfold AuthRoutes.findOne.
  destruct (find _ _) as [[id u] |] eqn:Hfind; [| reflexivity].
  apply find_some in Hfind as [Hin Hf].
  apply list_elem_of_In, elem_of_map_to_list in Hin.
  cbn in Hf. now rewrite (Hnone id u Hin) in Hf.
Qed.

Lemma findOne_some filter s id u :
  AuthRoutes.findOne filter s = Some (id, u) ->
  User_docs s !! id = Some u /\ filter id u = true.
Proof.
  unfold AuthRoutes.findOne. intros Hfind.
  apply find_some in Hfind as [Hin Hf].
  now apply list_elem_of_In, elem_of_map_to_list in Hin.
Qed.

Lemma findOne_email_none s e id u :
  findOne_email s e = None -> User_docs s !! id = Some u ->
  String.eqb (email u) e = false.
Proof.
  unfold findOne_email. intros Hnone Hu.
  apply (find_none _ _ Hnone u).
  apply in_map_iff. exists (id, u). split; [reflexivity |].
  now apply list_elem_of_In, elem_of_map_to_list.
Qed.

Lemma findOne_email_some s e id u :
  User_docs s !! id = Some u -> email u = e -> findOne_email s e <> None.
Proof.
  intros Hu He Hnone.
  pose proof (findOne_email_none s e id u Hnone Hu) as Hneq.
  apply String.eqb_neq in Hneq. contradiction.
Qed.

(** X21. A login either succeeds for a stored, active user whose e-mail
    is the normalised address and whose password matches, recording the
    time of the login and changing nothing else, or is answered 401
    "Invalid credentials" and changes nothing: an unknown address, an
    inactive account and a wrong password are answered alike. *)
Theorem login_outcomes isEmail normalizeEmail bcrypt_compare jwt_sign
    now st address secret r st' :
  AuthRoutes.login isEmail normalizeEmail bcrypt_compare jwt_sign now st address
    (Some secret) = (r, st') ->
  isEmail address = true ->
  (r = AuthRoutes.invalid_credentials /\ st' = st)
  \/ (exists id u,
        User_docs (AuthRoutes.auth_store st) !! id = Some u
        /\ email u = normalizeEmail address
        /\ user_isActive u = true
        /\ bcrypt_compare secret (password u) = true
        /\ r = Success 200 (Some "Login successful") (u, jwt_sign (user_id u))
        /\ AuthRoutes.auth_store st' = AuthRoutes.auth_store st
        /\ AuthRoutes.lastLogin st' = <[id := now]> (AuthRoutes.lastLogin st)
        /\ AuthRoutes.resetPasswordToken st' = AuthRoutes.resetPasswordToken st
        /\ AuthRoutes.resetPasswordExpires st' = AuthRoutes.resetPasswordExpires st).
Proof.
  unfold AuthRoutes.login. intros Hrun Hemail. rewrite Hemail in Hrun. cbn [negb] in Hrun.
  destruct (AuthRoutes.findOne _ _) as [[id u] |] eqn:Hfind.
  - apply findOne_some in Hfind as [Hu Hmatch]. apply String.eqb_eq in Hmatch.
    destruct (user_isActive u) eqn:Hactive; cbn [negb] in Hrun.
    + destruct (bcrypt_compare secret (password u)) eqn:Hpw; cbn [negb] in Hrun.
      * injection Hrun as <- <-. right. exists id, u. repeat split; auto.
      * injection Hrun as <- <-. now left.
    + injection Hrun as <- <-. now left.
  - injection Hrun as <- <-. now left.
Qed.

Lemma login_outcomes_witness :
  let st := Sample2.auth_state Sample2.store_bob in
  let r := Success 200 (Some "Login successful") (Sample2.bob, "token:bob") in
  let st' := {| AuthRoutes.auth_store := Sample2.store_bob;
                AuthRoutes.lastLogin := <["bob" := Sample.now]> ∅;
                AuthRoutes.resetPasswordToken := ∅;
                AuthRoutes.resetPasswordExpires := ∅ |} in
  (r = AuthRoutes.invalid_credentials /\ st' = st)
  \/ (exists id u,
        User_docs (AuthRoutes.auth_store st) !! id = Some u
        /\ email u = Sample.normalizeEmail "Bob@Example.org"
        /\ user_isActive u = true
        /\ Sample2.bcrypt_compare "secret1" (password u) = true
        /\ r = Success 200 (Some "Login successful") (u, Sample.jwt_sign (user_id u))
        /\ AuthRoutes.auth_store st' = AuthRoutes.auth_store st
        /\ AuthRoutes.lastLogin st' = <[id := Sample.now]> (AuthRoutes.lastLogin st)
        /\ AuthRoutes.resetPasswordToken st' = AuthRoutes.resetPasswordToken st
        /\ AuthRoutes.resetPasswordExpires st' = AuthRoutes.resetPasswordExpires st).
Proof.
  intros st r st'.
  apply (login_outcomes Sample.isEmail Sample.normalizeEmail Sample2.bcrypt_compare
           Sample.jwt_sign Sample.now st "Bob@Example.org" "secret1" r st').
  - vm_compute. reflexivity.
  - reflexivity.
Defined.

(** X22. After a registration succeeded, a second registration whose
    normalised e-mail is the same is answered 400 "User already exists with
    this email" and stores nothing, provided the normalised e-mail is stored
    as it is (it is lower-case and has no surrounding white space). *)
Theorem register_rejects_duplicate isEmail normalizeEmail bcrypt_hash jwt_sign
    s id b st msg u token s' id' b' :
  register isEmail normalizeEmail bcrypt_hash jwt_sign s id b
  = (Success st msg (u, token), s') ->
  Str.trim (Str.toLowerCase (normalizeEmail (body_email b))) = normalizeEmail (body_email b) ->
  normalizeEmail (body_email b') = normalizeEmail (body_email b) ->
  validate_register isEmail b' = true ->
  register isEmail normalizeEmail bcrypt_hash jwt_sign s' id' b'
  = (Failure 400 "User already exists with this email" None, s').
Proof.
  intros Hrun Hcanon Hsame Hvalid.
  assert (Hstored : User_docs s' !! id = Some u /\ email u = normalizeEmail (body_email b)).
  { revert Hrun. unfold register.
    destruct (validate_register isEmail b); cbn [negb]; [| discriminate].
    destruct (findOne_email s _); [discriminate |].
    intros [= _ _ <- _ <-]. split; [apply lookup_insert_eq | exact Hcanon]. }
  destruct Hstored as [Hu He].
  unfold register. rewrite Hvalid. cbn [negb]. rewrite Hsame.
  destruct (findOne_email s' _) eqn:Hfind; [reflexivity |].
  now destruct (findOne_email_some s' _ id u Hu He).
Qed.

Lemma register_rejects_duplicate_witness :
  register Sample.isEmail Sample.normalizeEmail Sample.bcrypt_hash Sample.jwt_sign
    Sample2.store_bob "bob2"
    {| body_name := "Robert"; body_email := "BOB@example.org";
       body_password := "another"; body_role := None |}
  = (Failure 400 "User already exists with this email" None, Sample2.store_bob).
Proof.
  apply (register_rejects_duplicate Sample.isEmail Sample.normalizeEmail Sample.bcrypt_hash
           Sample.jwt_sign Sample.store4 "bob" Sample.bob_body
           201 (Some "User registered successfully") Sample2.bob "token:bob"
           Sample2.store_bob "bob2"
           {| body_name := "Robert"; body_email := "BOB@example.org";
              body_password := "another"; body_role := None |}).
  - vm_compute. reflexivity.
  - vm_compute. reflexivity.
  - vm_compute. reflexivity.
  - vm_compute. reflexivity.
Defined.



(** ** Password reset *)

(** The one-time password, a number of six digits, is written with six
    characters. *)
Lemma otp_six_characters (otp : Z) :
  100000 <= otp <= 999999 -> String.length (pretty otp) = 6%nat.
Proof.
  intros Hotp. destruct otp as [| p | p]; try lia.
  change (pretty (Z.pos p)) with (pretty (N.pos p)).
  unfold pretty, pretty_N. destruct (decide (N.pos p = 0%N)) as [| _]; [lia |].
  assert (Hp : (100000 <= N.pos p < 1000000)%N) by lia.
  revert Hp. generalize (N.pos p). clear. intros n Hn.
  rewrite pretty_N_go_step by lia.
  rewrite pretty_N_go_step by (apply N.div_str_pos; lia).
  assert (H2 : (1000 <= N.div (N.div n 10) 10 < 10000)%N).
  { rewrite N.Div0.div_div. change (10 * 10)%N with 100%N.
    split; [apply N.div_le_lower_bound | apply N.Div0.div_lt_upper_bound]; lia. }
  revert H2. generalize (N.div (N.div n 10) 10). intros k Hk.
  rewrite pretty_N_go_step by lia.
  rewrite pretty_N_go_step by (apply N.div_str_pos; lia).
  assert (H4 : (10 <= N.div (N.div k 10) 10 < 100)%N).
  { rewrite N.Div0.div_div. change (10 * 10)%N with 100%N.
    split; [apply N.div_le_lower_bound | apply N.Div0.div_lt_upper_bound]; lia. }
  revert H4. generalize (N.div (N.div k 10) 10). intros j Hj.
  rewrite pretty_N_go_step by lia.
  rewrite pretty_N_go_step by (apply N.div_str_pos; lia).
  assert (H6 : N.div (N.div j 10) 10 = 0%N).
  { rewrite N.Div0.div_div. apply N.div_small. lia. }
  rewrite H6, pretty_N_go_0. reflexivity.
Qed.

Section Reset.

Variable isEmail : string -> bool.
Variable normalizeEmail : string -> string.
Variable bcrypt_hash : string -> string.
Variable sha256 : string -> string.
Variable sendEmail : string -> string -> string -> Exc unit.

(** The state that a request for a reset leaves behind, whether or not the
    e-mail could be sent. *)
Lemma forgot_password_state now otp st address (id : string) u :
  isEmail address = true ->
  User_docs (AuthRoutes.auth_store st) !! id = Some u ->
  email u = normalizeEmail address ->
  (forall id' u', User_docs (AuthRoutes.auth_store st) !! id' = Some u' ->
                  email u' = email u -> id' = id) ->
  (AuthRoutes.forgot_password isEmail normalizeEmail sha256 sendEmail now otp st address).2
  = {| AuthRoutes.auth_store := AuthRoutes.auth_store st;
       AuthRoutes.lastLogin := AuthRoutes.lastLogin st;
       AuthRoutes.resetPasswordToken :=
         <[id := sha256 (pretty otp)]> (AuthRoutes.resetPasswordToken st);
       AuthRoutes.resetPasswordExpires :=
         <[id := now + 600000]> (AuthRoutes.resetPasswordExpires st) |}.
Proof.
  intros Hemail Hu He Huniq. unfold AuthRoutes.forgot_password.
  rewrite Hemail. cbn [negb]. cbv zeta.
  rewrite (findOne_unique _ _ id u Hu).
  - destruct (sendEmail _ _ _); reflexivity.
  - apply String.eqb_eq, He.
  - intros id' u' Hu' Hmatch. apply String.eqb_eq in Hmatch.
    apply (Huniq id' u' Hu'). congruence.
Qed.

Lemma reset_filter_after_request now now' st id token address hashed id' u' :
  AuthRoutes.reset_filter now'
    {| AuthRoutes.auth_store := AuthRoutes.auth_store st;
       AuthRoutes.lastLogin := AuthRoutes.lastLogin st;
       AuthRoutes.resetPasswordToken := <[id := token]> (AuthRoutes.resetPasswordToken st);
       AuthRoutes.resetPasswordExpires :=
         <[id := now + 600000]> (AuthRoutes.resetPasswordExpires st) |}
    address hashed id' u' = true ->
  email u' = address
  /\ (id' = id -> token = hashed /\ now' < now + 600000).
Proof.
  unfold AuthRoutes.reset_filter.
  cbn [AuthRoutes.resetPasswordToken AuthRoutes.resetPasswordExpires].
  intros H. apply andb_prop in H as [H Hexp]. apply andb_prop in H as [Hmail Htok].
  split; [now apply String.eqb_eq |].
  intros ->. rewrite lookup_insert_eq in Htok. rewrite lookup_insert_eq in Hexp.
  split; [now apply String.eqb_eq | lia].
Qed.

Lemma reset_password_after_request now otp st (id : string) u newPassword now' :
  User_docs (AuthRoutes.auth_store st) !! id = Some u ->
  (forall id' u', User_docs (AuthRoutes.auth_store st) !! id' = Some u' ->
                  email u' = email u -> id' = id) ->
  100000 <= otp <= 999999 ->
  (6 <= String.length newPassword)%nat ->
  now' < now + 600000 ->
  AuthRoutes.reset_password bcrypt_hash sha256 now'
    {| AuthRoutes.auth_store := AuthRoutes.auth_store st;
       AuthRoutes.lastLogin := AuthRoutes.lastLogin st;
       AuthRoutes.resetPasswordToken :=
         <[id := sha256 (pretty otp)]> (AuthRoutes.resetPasswordToken st);
       AuthRoutes.resetPasswordExpires :=
         <[id := now + 600000]> (AuthRoutes.resetPasswordExpires st) |}
    (pretty otp) newPassword (email u)
  = (Success 200 (Some "Password reset successfully") tt,
     {| AuthRoutes.auth_store :=
          Quizzes.save_user id (AuthRoutes.set_password bcrypt_hash u newPassword)
            (AuthRoutes.auth_store st);
        AuthRoutes.lastLogin := AuthRoutes.lastLogin st;
        AuthRoutes.resetPasswordToken :=
          delete id (<[id := sha256 (pretty otp)]> (AuthRoutes.resetPasswordToken st));
        AuthRoutes.resetPasswordExpires :=
          delete id (<[id := now + 600000]> (AuthRoutes.resetPasswordExpires st)) |}).
Proof.
  intros Hu Huniq Hotp Hpw Hnow. unfold AuthRoutes.reset_password.
  rewrite (otp_six_characters otp Hotp).
  apply Nat.leb_le in Hpw. rewrite Hpw. cbn [Nat.eqb andb negb].
  cbn [AuthRoutes.auth_store].
  rewrite (findOne_unique _ _ id u Hu).
  - reflexivity.
  - unfold AuthRoutes.reset_filter.
    cbn [AuthRoutes.resetPasswordToken AuthRoutes.resetPasswordExpires].
    rewrite !lookup_insert_eq, !String.eqb_refl.
    cbn [andb]. apply Z.ltb_lt. exact Hnow.
  - intros id' u' Hu' Hmatch.
    apply reset_filter_after_request in Hmatch as [Hmail _].
    exact (Huniq id' u' Hu' Hmail).
Qed.

End Reset.

(** X24. The password reset round trip: after a reset was requested for
    the only account with the address - whether or not the e-mail could be
    sent - presenting the six-digit one-time password within ten minutes
    together with a new password of six characters or more (other than the
    stored digest itself) succeeds, stores the hash of the new password for
    that user and no other change to the users, and removes the one-time
    password. *)
Theorem password_reset_round_trip isEmail normalizeEmail bcrypt_hash sha256 sendEmail
    now otp st address id u newPassword now' :
  isEmail address = true ->
  User_docs (AuthRoutes.auth_store st) !! id = Some u ->
  email u = normalizeEmail address ->
  (forall id' u', User_docs (AuthRoutes.auth_store st) !! id' = Some u' ->
                  email u' = email u -> id' = id) ->
  100000 <= otp <= 999999 ->
  (6 <= String.length newPassword)%nat ->
  newPassword <> password u ->
  now' < now + 600000 ->
  let st1 :=
    (AuthRoutes.forgot_password isEmail normalizeEmail sha256 sendEmail now otp st address).2 in
  let run := AuthRoutes.reset_password bcrypt_hash sha256 now' st1 (pretty otp) newPassword
               (email u) in
  run.1 = Success 200 (Some "Password reset successfully") tt
  /\ User_docs (AuthRoutes.auth_store run.2)
     = <[id := AuthRoutes.with_password u (bcrypt_hash newPassword)]>
         (User_docs (AuthRoutes.auth_store st))
  /\ AuthRoutes.resetPasswordToken run.2 !! id = None
  /\ AuthRoutes.resetPasswordExpires run.2 !! id = None.
Proof.
  intros Hemail Hu He Huniq Hotp Hpw Hfresh Hnow st1 run. subst run st1.
  rewrite (forgot_password_state isEmail normalizeEmail sha256 sendEmail
             now otp st address id u Hemail Hu He Huniq).
  rewrite (reset_password_after_request bcrypt_hash sha256 now otp st id u newPassword now'
             Hu Huniq Hotp Hpw Hnow).
  cbn [fst snd AuthRoutes.auth_store AuthRoutes.resetPasswordToken
       AuthRoutes.resetPasswordExpires Quizzes.save_user User_docs].
  unfold AuthRoutes.set_password. apply String.eqb_neq in Hfresh. rewrite Hfresh.
  split; [reflexivity |]. split; [reflexivity |].
  split; apply lookup_delete_eq.
Qed.

Lemma bob_is_unique id' u' :
  User_docs Sample2.store_bob !! id' = Some u' -> email u' = email Sample2.bob ->
  id' = "bob".
Proof.
  intros Hu' Hmail.
  destruct (decide (id' = "bob")) as [| Hne]; [assumption | exfalso].
  unfold Sample2.store_bob, register in Hu'.
  revert Hu'. vm_compute (validate_register _ _). cbn [negb].
  vm_compute (findOne_email _ _). cbn [snd insert_user User_docs].
  rewrite lookup_insert_ne by (cbn; congruence).
  unfold Sample.store4, Sample.store_of, Sample.users. cbn [User_docs].
  intros Hu'.
  repeat (apply lookup_insert_Some in Hu' as [[<- <-] | [_ Hu']]; [discriminate Hmail |]).
  rewrite lookup_empty in Hu'. discriminate.
Qed.

Lemma password_reset_round_trip_witness :
  let st := Sample2.auth_state Sample2.store_bob in
  let st1 :=
    (AuthRoutes.forgot_password Sample.isEmail Sample.normalizeEmail Sample2.sha256
       Sample2.sendEmail Sample.now 271828 st "Bob@Example.org").2 in
  let run := AuthRoutes.reset_password Sample.bcrypt_hash Sample2.sha256
               (Sample.now + 599999) st1 (pretty 271828) "secret2" (email Sample2.bob) in
  run.1 = Success 200 (Some "Password reset successfully") tt
  /\ User_docs (AuthRoutes.auth_store run.2)
     = <["bob" := AuthRoutes.with_password Sample2.bob (Sample.bcrypt_hash "secret2")]>
         (User_docs (AuthRoutes.auth_store st))
  /\ AuthRoutes.resetPasswordToken run.2 !! "bob" = None
  /\ AuthRoutes.resetPasswordExpires run.2 !! "bob" = None.
Proof.
  intros st.
  apply (password_reset_round_trip Sample.isEmail Sample.normalizeEmail Sample.bcrypt_hash
           Sample2.sha256 Sample2.sendEmail Sample.now 271828 st "Bob@Example.org"
           "bob" Sample2.bob "secret2" (Sample.now + 599999)).
  - reflexivity.
  - vm_compute. reflexivity.
  - vm_compute. reflexivity.
  - exact bob_is_unique.
  - lia.
  - cbn. lia.
  - discriminate.
  - lia.
Defined.

(** X25. A one-time password expires and is used once.  After a reset was
    requested for the only account with the address, presenting the
    one-time password ten minutes later or more is answered 400 "Invalid or
    expired OTP", and so is a one-time password whose hash differs from the
    stored one; and after a successful reset every further reset for that
    address, with any one-time password at any time, is answered 400 again.
    None of these changes the state. *)
Theorem password_reset_expires_and_is_used_once isEmail normalizeEmail bcrypt_hash sha256
    sendEmail now otp st address id u :
  isEmail address = true ->
  User_docs (AuthRoutes.auth_store st) !! id = Some u ->
  email u = normalizeEmail address ->
  (forall id' u', User_docs (AuthRoutes.auth_store st) !! id' = Some u' ->
                  email u' = email u -> id' = id) ->
  100000 <= otp <= 999999 ->
  let st1 :=
    (AuthRoutes.forgot_password isEmail normalizeEmail sha256 sendEmail now otp st address).2 in
  let refused st' := (Failure 400 "Invalid or expired OTP" None : Response unit, st') in
  (forall now' newPassword,
     now + 600000 <= now' ->
     (6 <= String.length newPassword)%nat ->
     AuthRoutes.reset_password bcrypt_hash sha256 now' st1 (pretty otp) newPassword (email u)
     = refused st1)
  /\ (forall now' otp' newPassword,
        String.length otp' = 6%nat ->
        sha256 otp' <> sha256 (pretty otp) ->
        (6 <= String.length newPassword)%nat ->
        AuthRoutes.reset_password bcrypt_hash sha256 now' st1 otp' newPassword (email u)
        = refused st1)
  /\ (forall now' newPassword now'' otp' newPassword',
        now' < now + 600000 ->
        (6 <= String.length newPassword)%nat ->
        let st2 :=
          (AuthRoutes.reset_password bcrypt_hash sha256 now' st1 (pretty otp) newPassword
             (email u)).2 in
        String.length otp' = 6%nat ->
        (6 <= String.length newPassword')%nat ->
        AuthRoutes.reset_password bcrypt_hash sha256 now'' st2 otp' newPassword' (email u)
        = refused st2).
Proof.
  intros Hemail Hu He Huniq Hotp st1 refused. subst st1 refused. cbv beta.
  rewrite (forgot_password_state isEmail normalizeEmail sha256 sendEmail
             now otp st address id u Hemail Hu He Huniq).
  split; [| split].
  - intros now' newPassword Hlate Hpw. unfold AuthRoutes.reset_password.
    rewrite (otp_six_characters otp Hotp).
    apply Nat.leb_le in Hpw. rewrite Hpw. cbn [Nat.eqb andb negb].
    rewrite findOne_none; [reflexivity |].
    intros id' u' Hu'. destruct (AuthRoutes.reset_filter _ _ _ _ _ _) eqn:Hmatch; [| reflexivity].
    apply reset_filter_after_request in Hmatch as [Hmail Hid].
    destruct (Hid (Huniq id' u' Hu' Hmail)) as [_ Hearly]. lia.
  - intros now' otp' newPassword Hlen Hhash Hpw. unfold AuthRoutes.reset_password.
    rewrite Hlen. apply Nat.leb_le in Hpw. rewrite Hpw. cbn [Nat.eqb andb negb].
    rewrite findOne_none; [reflexivity |].
    intros id' u' Hu'. destruct (AuthRoutes.reset_filter _ _ _ _ _ _) eqn:Hmatch; [| reflexivity].
    apply reset_filter_after_request in Hmatch as [Hmail Hid].
    destruct (Hid (Huniq id' u' Hu' Hmail)) as [Hsame _]. congruence.
  - intros now' newPassword now'' otp' newPassword' Hnow Hpw st2 Hlen Hpw'. subst st2.
    rewrite (reset_password_after_request bcrypt_hash sha256 now otp st id u newPassword now'
               Hu Huniq Hotp Hpw Hnow).
    cbn [snd]. unfold AuthRoutes.reset_password.
    rewrite Hlen. apply Nat.leb_le in Hpw'. rewrite Hpw'. cbn [Nat.eqb andb negb].
    rewrite findOne_none; [reflexivity |].
    intros id' u' Hu'. unfold AuthRoutes.reset_filter.
    cbn [AuthRoutes.auth_store AuthRoutes.resetPasswordToken
         AuthRoutes.resetPasswordExpires Quizzes.save_user User_docs] in *.
    destruct (String.eqb (email u') (email u)) eqn:Hmail; [| reflexivity].
    apply String.eqb_eq in Hmail. cbn [andb].
    assert (id' = id) as ->.
    { destruct (decide (id' = id)) as [| Hne]; [assumption |].
      rewrite lookup_insert_ne in Hu' by congruence. exact (Huniq id' u' Hu' Hmail). }
    now rewrite lookup_delete_eq.
Qed.

Lemma password_reset_expires_and_is_used_once_witness :
  let st := Sample2.auth_state Sample2.store_bob in
  let st1 :=
    (AuthRoutes.forgot_password Sample.isEmail Sample.normalizeEmail Sample2.sha256
       Sample2.sendEmail Sample.now 271828 st "Bob@Example.org").2 in
  let refused st' := (Failure 400 "Invalid or expired OTP" None : Response unit, st') in
  (forall now' newPassword,
     Sample.now + 600000 <= now' ->
     (6 <= String.length newPassword)%nat ->
     AuthRoutes.reset_password Sample.bcrypt_hash Sample2.sha256 now' st1 (pretty 271828)
       newPassword (email Sample2.bob)
     = refused st1)
  /\ (forall now' otp' newPassword,
        String.length otp' = 6%nat ->
        Sample2.sha256 otp' <> Sample2.sha256 (pretty 271828) ->
        (6 <= String.length newPassword)%nat ->
        AuthRoutes.reset_password Sample.bcrypt_hash Sample2.sha256 now' st1 otp'
          newPassword (email Sample2.bob)
        = refused st1)
  /\ (forall now' newPassword now'' otp' newPassword',
        now' < Sample.now + 600000 ->
        (6 <= String.length newPassword)%nat ->
        let st2 :=
          (AuthRoutes.reset_password Sample.bcrypt_hash Sample2.sha256 now' st1
             (pretty 271828) newPassword (email Sample2.bob)).2 in
        String.length otp' = 6%nat ->
        (6 <= String.length newPassword')%nat ->
        AuthRoutes.reset_password Sample.bcrypt_hash Sample2.sha256 now'' st2 otp'
          newPassword' (email Sample2.bob)
        = refused st2).
Proof.
  intros st.
  apply (password_reset_expires_and_is_used_once Sample.isEmail Sample.normalizeEmail
           Sample.bcrypt_hash Sample2.sha256 Sample2.sendEmail Sample.now 271828 st
           "Bob@Example.org" "bob" Sample2.bob).
  - reflexivity.
  - vm_compute. reflexivity.
  - vm_compute. reflexivity.
  - exact bob_is_unique.
  - lia.
Defined.

(** ** Analytics *)

Lemma omap_length_le {A B} (f : A -> option B) (l : list A) :
  (length (omap f l) <= length l)%nat.
Proof. induction l as [| a l IH]; cbn; [lia |]. destruct (f a); cbn; lia. Qed.

Lemma mapM_recent_ok s l :
  Forall (fun a => is_Some (User_docs s !! student a)) l ->
  exists r, AnalyticsRoutes.mapM (AnalyticsRoutes.recent_attempt s) l = inr r
            /\ length r = length l.
Proof.
  induction 1 as [| a l [u Hu] _ (r & Hr & Hlen)]; cbn.
  - exists []. split; reflexivity.
  - unfold AnalyticsRoutes.recent_attempt at 1. rewrite Hu. cbn. rewrite Hr. cbn.
    eexists. split; [reflexivity |]. cbn. now rewrite Hlen.
Qed.

Lemma mapM_recent_fails s l :
  Exists (fun a => User_docs s !! student a = None) l ->
  AnalyticsRoutes.mapM (AnalyticsRoutes.recent_attempt s) l
  = inl (TypeError "Cannot read properties of null (reading 'name')").
Proof.
  induction l as [| a l IH]; intros Hex; [inversion Hex |].
  cbn. unfold AnalyticsRoutes.recent_attempt at 1.
  destruct (User_docs s !! student a) as [u |] eqn:Hu; cbn; [| reflexivity].
  rewrite IH; [reflexivity |]. inversion Hex; subst; [congruence | assumption].
Qed.

Lemma slice_last_length {A} n (l : list A) :
  length (AnalyticsRoutes.slice_last n l) = Nat.min n (length l).
Proof. unfold AnalyticsRoutes.slice_last. rewrite length_skipn. lia. Qed.

Lemma question_analytics_bounds attempts question :
  let qa := AnalyticsRoutes.question_analytics attempts question in
  0 <= AnalyticsRoutes.qa_correctAnswers qa <= AnalyticsRoutes.qa_totalAttempts qa
  /\ AnalyticsRoutes.qa_totalAttempts qa <= Z.of_nat (length attempts).
Proof.
  cbn. pose proof (omap_length_le (AnalyticsRoutes.answer_to question) attempts).
  pose proof (List.filter_length_le (fun ans => truthy (pa_isCorrect ans))
                (AnalyticsRoutes.questionAttempts attempts question)).
  unfold AnalyticsRoutes.questionAttempts in *. lia.
Qed.

(** X26. Quiz analytics are answered to an administrator and to the
    teacher who owns the quiz when the students of the last ten attempts
    are stored.  The number of attempts reported is the number of stored
    attempts on the quiz; there is one entry for each question of the quiz
    that still exists, in the order of the quiz; in every entry
    0 <= correctAnswers <= totalAttempts <= the number of attempts; at most
    ten recent attempts are listed; and when the quiz has no attempt the
    pass rate and each question's count, percentage and average time are 0:
    nothing is divided by zero.  The store is left as it was. *)
Theorem quiz_analytics_counts s user id quiz :
  authorize ["admin"; "teacher"] user = true ->
  Quiz_docs s !! id = Some quiz ->
  (role user = "teacher" -> quiz_createdBy quiz = user_id user) ->
  let attempts := attempts_of_quiz id (QuizAttempt_docs s) in
  Forall (fun a => is_Some (User_docs s !! student a))
         (AnalyticsRoutes.slice_last 10 attempts) ->
  exists r,
    AnalyticsRoutes.quiz_analytics s user id = (Success 200 None r, s)
    /\ AnalyticsRoutes.analytics_totalAttempts r = Z.of_nat (length attempts)
    /\ map AnalyticsRoutes.qa_id (AnalyticsRoutes.analytics_questions r)
       = map question_id (populate_questions s (questions quiz))
    /\ Forall (fun qa =>
                 0 <= AnalyticsRoutes.qa_correctAnswers qa
                   <= AnalyticsRoutes.qa_totalAttempts qa
                 /\ AnalyticsRoutes.qa_totalAttempts qa
                    <= AnalyticsRoutes.analytics_totalAttempts r)
              (AnalyticsRoutes.analytics_questions r)
    /\ length (AnalyticsRoutes.analytics_recentAttempts r) = Nat.min 10 (length attempts)
    /\ (attempts = [] ->
        AnalyticsRoutes.analytics_passRate r = Num.of_Z 0
        /\ Forall (fun qa =>
                     AnalyticsRoutes.qa_totalAttempts qa = 0
                     /\ AnalyticsRoutes.qa_correctPercentage qa = Num.of_Z 0
                     /\ AnalyticsRoutes.qa_averageTimeSpent qa = Num.of_Z 0)
                  (AnalyticsRoutes.analytics_questions r)).
Proof.
  intros Hauth Hquiz Hown attempts Hstudents.
  destruct (mapM_recent_ok s _ Hstudents) as (recent & Hrecent & Hlen).
  assert (Hallowed : String.eqb (role user) "teacher"
                     && negb (String.eqb (quiz_createdBy quiz) (user_id user)) = false).
  { destruct (String.eqb (role user) "teacher") eqn:Hrole; [| reflexivity].
    apply String.eqb_eq in Hrole. rewrite (Hown Hrole), String.eqb_refl. reflexivity. }
  eexists. split.
  { unfold AnalyticsRoutes.quiz_analytics. rewrite Hauth, Hquiz. cbn [negb].
    rewrite Hallowed. fold attempts. rewrite Hrecent. reflexivity. }
  cbn [AnalyticsRoutes.analytics_totalAttempts AnalyticsRoutes.analytics_questions
       AnalyticsRoutes.analytics_recentAttempts AnalyticsRoutes.analytics_passRate].
  split; [reflexivity |].
  split; [rewrite map_map; reflexivity |].
  split.
  { apply Forall_map, Forall_forall. intros question _.
    apply question_analytics_bounds. }
  split; [rewrite Hlen; apply slice_last_length |].
  intros Hnone. rewrite Hnone. split; [reflexivity |].
  apply Forall_map, Forall_forall. intros question _. cbn.
  repeat split; reflexivity.
Qed.

Lemma quiz_analytics_counts_witness :
  let attempts := attempts_of_quiz "quiz4" (QuizAttempt_docs Sample2.store_attempted) in
  exists r,
    AnalyticsRoutes.quiz_analytics Sample2.store_attempted Sample.teacherA "quiz4"
    = (Success 200 None r, Sample2.store_attempted)
    /\ AnalyticsRoutes.analytics_totalAttempts r = Z.of_nat (length attempts)
    /\ map AnalyticsRoutes.qa_id (AnalyticsRoutes.analytics_questions r)
       = map question_id
           (populate_questions Sample2.store_attempted (questions (Sample.quiz4)))
    /\ Forall (fun qa =>
                 0 <= AnalyticsRoutes.qa_correctAnswers qa
                   <= AnalyticsRoutes.qa_totalAttempts qa
                 /\ AnalyticsRoutes.qa_totalAttempts qa
                    <= AnalyticsRoutes.analytics_totalAttempts r)
              (AnalyticsRoutes.analytics_questions r)
    /\ length (AnalyticsRoutes.analytics_recentAttempts r) = Nat.min 10 (length attempts)
    /\ (attempts = [] ->
        AnalyticsRoutes.analytics_passRate r = Num.of_Z 0
        /\ Forall (fun qa =>
                     AnalyticsRoutes.qa_totalAttempts qa = 0
                     /\ AnalyticsRoutes.qa_correctPercentage qa = Num.of_Z 0
                     /\ AnalyticsRoutes.qa_averageTimeSpent qa = Num.of_Z 0)
                  (AnalyticsRoutes.analytics_questions r)).
Proof.
  apply (quiz_analytics_counts Sample2.store_attempted Sample.teacherA "quiz4"
           (with_quiz_stats Sample.quiz4 1 75%float)).
  - reflexivity.
  - vm_compute. reflexivity.
  - reflexivity.
  - vm_compute. repeat constructor; eexists; reflexivity.
Defined.

(** X27. Deleting a student breaks the analytics that list the student.
    Once an administrator has deleted the student of an attempt that is
    among the last ten of a quiz, the analytics of that quiz are answered
    500 with the TypeError of reading [name] of [null], and student
    performance is answered 500 (reading [_id] of [null]) whenever that
    attempt is among the attempts found. *)
Theorem analytics_after_student_deleted s admin user id quiz a :
  role admin = "admin" ->
  authorize ["admin"; "teacher"] user = true ->
  Quiz_docs s !! id = Some quiz ->
  (role user = "teacher" -> quiz_createdBy quiz = user_id user) ->
  In a (AnalyticsRoutes.slice_last 10 (attempts_of_quiz id (QuizAttempt_docs s))) ->
  let s' := (UserRoutes.delete_user s admin (student a)).2 in
  AnalyticsRoutes.quiz_analytics s' user id
  = (server_error (TypeError "Cannot read properties of null (reading 'name')"), s')
  /\ (forall before after,
        AnalyticsRoutes.performanceData
          (map (AnalyticsRoutes.populate_attempt s') (before ++ a :: after))
        = server_error (TypeError "Cannot read properties of null (reading '_id')")).
Proof.
  intros Hadmin Hauth Hquiz Hown Hin s'.
  assert (Hs' : Quiz_docs s' = Quiz_docs s /\ QuizAttempt_docs s' = QuizAttempt_docs s
                /\ User_docs s' !! student a = None).
  { subst s'. unfold UserRoutes.delete_user, authorize. rewrite Hadmin.
    cbn [existsb String.eqb Ascii.eqb Bool.eqb orb negb].
    destruct (User_docs s !! student a) eqn:Hu; cbn [snd].
    - repeat split. cbn. apply lookup_delete_eq.
    - repeat split. exact Hu. }
  destruct Hs' as (Hquizzes & Hattempts & Hgone).
  assert (Hallowed : String.eqb (role user) "teacher"
                     && negb (String.eqb (quiz_createdBy quiz) (user_id user)) = false).
  { destruct (String.eqb (role user) "teacher") eqn:Hrole; [| reflexivity].
    apply String.eqb_eq in Hrole. rewrite (Hown Hrole), String.eqb_refl. reflexivity. }
  split.
  - unfold AnalyticsRoutes.quiz_analytics.
    rewrite Hauth, Hquizzes, Hquiz, Hattempts. cbn [negb]. rewrite Hallowed.
    rewrite mapM_recent_fails; [reflexivity |].
    apply List.Exists_exists. exists a. split; [exact Hin | exact Hgone].
  - intros before after. unfold AnalyticsRoutes.performanceData.
    assert (Hreduce : forall l acc,
              AnalyticsRoutes.reduce
                (map (AnalyticsRoutes.populate_attempt s') (l ++ a :: after)) acc
              = inl (TypeError "Cannot read properties of null (reading '_id')")).
    { induction l as [| b l IH]; intros acc; cbn [app map AnalyticsRoutes.reduce].
      - unfold AnalyticsRoutes.collect.
        cbn [AnalyticsRoutes.populate_attempt AnalyticsRoutes.pop_student].
        rewrite Hgone. reflexivity.
      - unfold AnalyticsRoutes.collect at 1.
        destruct (AnalyticsRoutes.pop_student (AnalyticsRoutes.populate_attempt s' b));
          cbn; [apply IH | ].
        reflexivity. }
    now rewrite Hreduce.
Qed.

Lemma analytics_after_student_deleted_witness :
  let s' := (UserRoutes.delete_user Sample2.store_attempted Sample2.admin
               (student Sample2.alice_attempt)).2 in
  AnalyticsRoutes.quiz_analytics s' Sample.teacherA "quiz4"
  = (server_error (TypeError "Cannot read properties of null (reading 'name')"), s')
  /\ (forall before after,
        AnalyticsRoutes.performanceData
          (map (AnalyticsRoutes.populate_attempt s')
               (before ++ Sample2.alice_attempt :: after))
        = server_error (TypeError "Cannot read properties of null (reading '_id')")).
Proof.
  apply (analytics_after_student_deleted Sample2.store_attempted Sample2.admin
           Sample.teacherA "quiz4" (with_quiz_stats Sample.quiz4 1 75%float)
           Sample2.alice_attempt).
  - reflexivity.
  - reflexivity.
  - vm_compute. reflexivity.
  - reflexivity.
  - vm_compute. left. reflexivity.
Defined.

(** X28. The scope of student performance for a teacher.  Without a
    quiz in the query, an attempt matches only if its quiz is stored and
    was created by the teacher.  With the quiz of an attempt named in the
    query, the attempt matches whoever created the quiz, while the quiz
    analytics of that quiz are refused with 403 "Access denied" when
    somebody else created it. *)
Theorem teacher_performance_scope s user studentId a :
  role user = "teacher" ->
  (AnalyticsRoutes.query_matches
     (AnalyticsRoutes.performance_query s user studentId None) a = true ->
   exists quiz, Quiz_docs s !! attempt_quiz a = Some quiz
                /\ quiz_createdBy quiz = user_id user)
  /\ (attempt_quiz a <> EmptyString ->
      AnalyticsRoutes.query_matches
        (AnalyticsRoutes.performance_query s user None (Some (attempt_quiz a))) a = true)
  /\ (forall quiz,
        Quiz_docs s !! attempt_quiz a = Some quiz ->
        quiz_createdBy quiz <> user_id user ->
        AnalyticsRoutes.quiz_analytics s user (attempt_quiz a)
        = (Failure 403 "Access denied" None, s)).
Proof.
  intros Hrole. split; [| split].
  - unfold AnalyticsRoutes.query_matches, AnalyticsRoutes.performance_query.
    rewrite Hrole. cbn [AnalyticsRoutes.given AnalyticsRoutes.query_quiz
                        AnalyticsRoutes.query_student].
    change (String.eqb "teacher" "teacher") with true. cbv iota.
    intros Hmatch. apply andb_prop in Hmatch as [_ Hmatch].
    apply existsb_exists in Hmatch as (id & Hin & Hid). apply String.eqb_eq in Hid.
    unfold AnalyticsRoutes.quizzes_createdBy in Hin.
    apply in_map_iff in Hin as ([id' quiz] & Hfst & Hin). cbn in Hfst. subst id'.
    apply filter_In in Hin as [Hin Hown]. cbn in Hown. apply String.eqb_eq in Hown.
    apply list_elem_of_In, elem_of_map_to_list in Hin.
    exists quiz. split; [congruence | exact Hown].
  - intros Hgiven. unfold AnalyticsRoutes.query_matches, AnalyticsRoutes.performance_query.
    rewrite Hrole. change (String.eqb "teacher" "teacher") with true.
    destruct (attempt_quiz a) as [| c r] eqn:Hq; [congruence |].
    cbn [AnalyticsRoutes.given AnalyticsRoutes.query_quiz AnalyticsRoutes.query_student andb].
    apply String.eqb_refl.
  - intros quiz Hquiz Hother. unfold AnalyticsRoutes.quiz_analytics, authorize.
    rewrite Hrole, Hquiz. apply String.eqb_neq in Hother. rewrite Hother. reflexivity.
Qed.

Lemma teacher_performance_scope_witness :
  (AnalyticsRoutes.query_matches
     (AnalyticsRoutes.performance_query Sample2.store_attempted Sample.teacherB None None)
     Sample2.alice_attempt = true ->
   exists quiz, Quiz_docs Sample2.store_attempted !! attempt_quiz Sample2.alice_attempt
                = Some quiz
                /\ quiz_createdBy quiz = user_id Sample.teacherB)
  /\ (attempt_quiz Sample2.alice_attempt <> EmptyString ->
      AnalyticsRoutes.query_matches
        (AnalyticsRoutes.performance_query Sample2.store_attempted Sample.teacherB None
           (Some (attempt_quiz Sample2.alice_attempt)))
        Sample2.alice_attempt = true)
  /\ (forall quiz,
        Quiz_docs Sample2.store_attempted !! attempt_quiz Sample2.alice_attempt = Some quiz ->
        quiz_createdBy quiz <> user_id Sample.teacherB ->
        AnalyticsRoutes.quiz_analytics Sample2.store_attempted Sample.teacherB
          (attempt_quiz Sample2.alice_attempt)
        = (Failure 403 "Access denied" None, Sample2.store_attempted)).
Proof.
  apply (teacher_performance_scope Sample2.store_attempted Sample.teacherB None
           Sample2.alice_attempt).
  reflexivity.
Defined.

(** ** Grouping *)

Lemma push_as_map k st e acc :
  List.NoDup (map fst acc) ->
  AnalyticsRoutes.push k st e acc
  = if existsb (String.eqb k) (map fst acc) then
      map (fun kd : string * AnalyticsRoutes.Performance =>
             if String.eqb kd.1 k then (kd.1, AnalyticsRoutes.add_entry e kd.2) else kd) acc
    else acc ++ [(k, AnalyticsRoutes.first_entry st e)].
Proof.
  induction acc as [| [k0 d0] rest IH]; intros Hnodup; [reflexivity |].
  cbn [map fst] in Hnodup. apply List.NoDup_cons_iff in Hnodup as [Hfresh Hnodup].
  cbn [AnalyticsRoutes.push map fst snd existsb].
  rewrite (String.eqb_sym k k0).
  destruct (String.eqb k0 k) eqn:Hk; cbn [orb].
  - apply String.eqb_eq in Hk. subst k0. f_equal.
    symmetry. rewrite <- (map_id rest) at 2. apply map_ext_in.
    intros [k1 d1] Hin. cbn.
    destruct (String.eqb k1 k) eqn:Hk1; [| reflexivity].
    apply String.eqb_eq in Hk1. subst k1.
    destruct Hfresh. apply in_map_iff. exists (k, d1). split; [reflexivity | assumption].
  - rewrite (IH Hnodup). destruct (existsb _ _); reflexivity.
Qed.

Lemma filter_nil_iff {A} (f : A -> bool) (l : list A) :
  (forall x, In x l -> f x = false) -> List.filter f l = [].
Proof.
  induction l as [| a l IH]; intros H; [reflexivity |].
  cbn. rewrite (H a (or_introl eq_refl)). apply IH. intros x Hx. apply H. now right.
Qed.

Lemma grouped_push processed acc a st :
  AnalyticsRoutes.grouped processed acc ->
  AnalyticsRoutes.pop_student a = Some st ->
  AnalyticsRoutes.grouped (processed ++ [a])
    (AnalyticsRoutes.push (AnalyticsRoutes.ref_id st) st (AnalyticsRoutes.entry_of a) acc).
Proof.
  intros (Hnodup & Hall & Hmet) Hst.
  set (k := AnalyticsRoutes.ref_id st).
  assert (Hlast : forall k', List.filter (AnalyticsRoutes.of_student k') (processed ++ [a])
                  = List.filter (AnalyticsRoutes.of_student k') processed
                    ++ (if String.eqb k k' then [a] else [])).
  { intros k'. rewrite List.filter_app. f_equal. cbn.
    unfold AnalyticsRoutes.of_student. rewrite Hst. fold k. now destruct (String.eqb k k'). }
  rewrite (push_as_map k st _ acc Hnodup).
  destruct (existsb (String.eqb k) (map fst acc)) eqn:Hknown.
  - assert (Hkeys : map fst (map (fun kd : string * AnalyticsRoutes.Performance =>
                       if String.eqb kd.1 k
                       then (kd.1, AnalyticsRoutes.add_entry (AnalyticsRoutes.entry_of a) kd.2)
                       else kd) acc) = map fst acc).
    { rewrite map_map. apply map_ext. intros [k1 d1]. cbn. now destruct (String.eqb k1 k). }
    split; [now rewrite Hkeys |]. split.
    + apply List.Forall_map. eapply List.Forall_impl; [| exact Hall].
      intros [k1 d1] (Hid & Hattempts & Hsome). cbn in *.
      rewrite (String.eqb_sym k1 k).
      destruct (String.eqb k k1) eqn:Hk1; cbn.
      * rewrite Hlast, Hk1, map_app, <- Hattempts. repeat split; auto.
        now destruct (AnalyticsRoutes.perf_attempts d1).
      * rewrite Hlast, Hk1, app_nil_r. auto.
    + rewrite Hkeys. intros a' st' Hin Hst'.
      apply in_app_or in Hin as [Hin | [<- | []]]; [now apply (Hmet a') |].
      assert (st' = st) as -> by congruence.
      apply existsb_exists in Hknown as (k1 & Hin & Hk1).
      apply String.eqb_eq in Hk1. now subst k1.
  - assert (Hnew : ~ In k (map fst acc)).
    { intros Hin. assert (existsb (String.eqb k) (map fst acc) = true); [| congruence].
      apply existsb_exists. exists k. split; [assumption | apply String.eqb_refl]. }
    split; [| split].
    + rewrite map_app. cbn. apply List.NoDup_app; [assumption | | ].
      * constructor; [intros [] | constructor].
      * intros k1 Hin [<- | []]. contradiction.
    + apply List.Forall_app. split.
      * eapply List.Forall_forall. intros [k1 d1] Hin.
        rewrite List.Forall_forall in Hall. destruct (Hall (k1, d1) Hin) as (Hid & Hattempts & Hsome).
        cbn in *. rewrite Hlast.
        assert (String.eqb k k1 = false) as ->.
        { apply String.eqb_neq. intros <-. apply Hnew, in_map_iff.
          exists (k, d1). split; [reflexivity | assumption]. }
        rewrite app_nil_r. auto.
      * constructor; [| constructor]. cbn. rewrite Hlast, String.eqb_refl.
        rewrite filter_nil_iff; [repeat split; try reflexivity; discriminate |].
        intros a' Hin. unfold AnalyticsRoutes.of_student.
        destruct (AnalyticsRoutes.pop_student a') as [st' |] eqn:Hst'; [| reflexivity].
        apply String.eqb_neq. intros Hsame. apply Hnew. rewrite <- Hsame.
        exact (Hmet a' st' Hin Hst').
    + rewrite map_app. intros a' st' Hin Hst'. apply in_or_app.
      apply in_app_or in Hin as [Hin | [<- | []]]; [left; now apply (Hmet a') |].
      right. left. cbn. subst k. congruence.
Qed.

Lemma reduce_grouped rest :
  forall processed acc,
    Forall (fun a => is_Some (AnalyticsRoutes.pop_student a)) rest ->
    AnalyticsRoutes.grouped processed acc ->
    exists acc', AnalyticsRoutes.reduce rest acc = inr acc'
                 /\ AnalyticsRoutes.grouped (processed ++ rest) acc'.
Proof.
  induction rest as [| a rest IH]; intros processed acc Hall Hacc.
  - exists acc. rewrite app_nil_r. split; [reflexivity | assumption].
  - inversion Hall as [| ? ? [st Hst] Hrest]; subst.
    cbn [AnalyticsRoutes.reduce]. unfold AnalyticsRoutes.collect. rewrite Hst. cbn.
    destruct (IH (processed ++ [a]) _ Hrest (grouped_push processed acc a st Hacc Hst))
      as (acc' & Hrun & Hgrouped).
    exists acc'. split; [exact Hrun |]. now rewrite <- app_assoc in Hgrouped.
Qed.

(** X29. Student performance groups the attempts found by student.  When
    every attempt found has its student, the answer is 200 with one group
    per student met, no student twice; each group holds exactly the
    attempts of its student, in the order found, [totalAttempts] is their
    number and is at least 1 (so the averages never divide by zero); and
    every student of an attempt found has a group. *)
Theorem performance_groups attempts :
  Forall (fun a => is_Some (AnalyticsRoutes.pop_student a)) attempts ->
  exists groups,
    AnalyticsRoutes.performanceData attempts = Success 200 None groups
    /\ List.NoDup (map (fun g => AnalyticsRoutes.ref_id (AnalyticsRoutes.perf_student g)) groups)
    /\ Forall (fun g =>
                 AnalyticsRoutes.perf_attempts g
                 = map AnalyticsRoutes.entry_of
                     (List.filter
                        (AnalyticsRoutes.of_student
                           (AnalyticsRoutes.ref_id (AnalyticsRoutes.perf_student g)))
                        attempts)
                 /\ AnalyticsRoutes.perf_totalAttempts g
                    = Z.of_nat (length (AnalyticsRoutes.perf_attempts g))
                 /\ 1 <= AnalyticsRoutes.perf_totalAttempts g)
              groups
    /\ (forall a st,
          In a attempts -> AnalyticsRoutes.pop_student a = Some st ->
          In (AnalyticsRoutes.ref_id st)
             (map (fun g => AnalyticsRoutes.ref_id (AnalyticsRoutes.perf_student g)) groups)).
Proof.
  intros Hall.
  assert (Hempty : AnalyticsRoutes.grouped [] []).
  { split; [constructor |]. split; [constructor |]. intros a st []. }
  destruct (reduce_grouped attempts [] [] Hall Hempty) as (acc & Hrun & Hnodup & Hgroups & Hmet).
  cbn [app] in *.
  assert (Hkeys : map (fun g => AnalyticsRoutes.ref_id (AnalyticsRoutes.perf_student g))
                      (map (fun kd : string * AnalyticsRoutes.Performance =>
                              AnalyticsRoutes.final_metrics kd.2) acc)
                  = map fst acc).
  { rewrite map_map. apply map_ext_in. intros kd Hin.
    rewrite List.Forall_forall in Hgroups. now destruct (Hgroups kd Hin) as [? _]. }
  eexists. split.
  { unfold AnalyticsRoutes.performanceData. rewrite Hrun. reflexivity. }
  split; [now rewrite Hkeys |]. split.
  - apply List.Forall_map. eapply List.Forall_impl; [| exact Hgroups].
    intros [k d] (Hid & Hattempts & Hsome). cbn in *. subst k.
    split; [exact Hattempts |]. split; [reflexivity |].
    destruct (AnalyticsRoutes.perf_attempts d); [congruence | cbn; lia].
  - rewrite Hkeys. exact Hmet.
Qed.

Lemma performance_groups_witness :
  exists groups,
    AnalyticsRoutes.performanceData
      (map (AnalyticsRoutes.populate_attempt Sample2.store_attempted)
           [Sample2.alice_attempt; Sample2.alice_attempt])
    = Success 200 None groups
    /\ List.NoDup (map (fun g => AnalyticsRoutes.ref_id (AnalyticsRoutes.perf_student g)) groups)
    /\ Forall (fun g =>
                 AnalyticsRoutes.perf_attempts g
                 = map AnalyticsRoutes.entry_of
                     (List.filter
                        (AnalyticsRoutes.of_student
                           (AnalyticsRoutes.ref_id (AnalyticsRoutes.perf_student g)))
                        (map (AnalyticsRoutes.populate_attempt Sample2.store_attempted)
                             [Sample2.alice_attempt; Sample2.alice_attempt]))
                 /\ AnalyticsRoutes.perf_totalAttempts g
                    = Z.of_nat (length (AnalyticsRoutes.perf_attempts g))
                 /\ 1 <= AnalyticsRoutes.perf_totalAttempts g)
              groups
    /\ (forall a st,
          In a (map (AnalyticsRoutes.populate_attempt Sample2.store_attempted)
                    [Sample2.alice_attempt; Sample2.alice_attempt]) ->
          AnalyticsRoutes.pop_student a = Some st ->
          In (AnalyticsRoutes.ref_id st)
             (map (fun g => AnalyticsRoutes.ref_id (AnalyticsRoutes.perf_student g)) groups)).
Proof.
  apply (performance_groups
           (map (AnalyticsRoutes.populate_attempt Sample2.store_attempted)
                [Sample2.alice_attempt; Sample2.alice_attempt])).
  vm_compute. repeat constructor; eexists; reflexivity.
Defined.

(** An administrator's query for two students met in turn: two groups, in
    the order in which the students were first met. *)
Example performance_groups_in_order :
  let attempt (who : string) (p : Num.num) :=
    {| AnalyticsRoutes.pop_student :=
         Some {| AnalyticsRoutes.ref_id := who; AnalyticsRoutes.ref_name := who;
                 AnalyticsRoutes.ref_email := who |};
       AnalyticsRoutes.pop_quiz := None; AnalyticsRoutes.pop_percentage := p;
       AnalyticsRoutes.pop_passed := Num.ge p 60%float;
       AnalyticsRoutes.pop_submittedAt := 0 |} in
  exists groups,
    AnalyticsRoutes.performanceData
      [attempt "beth" 50%float; attempt "adam" 80%float; attempt "beth" 100%float]
    = Success 200 None groups
    /\ map (fun g => (AnalyticsRoutes.ref_id (AnalyticsRoutes.perf_student g),
                      AnalyticsRoutes.perf_totalAttempts g,
                      AnalyticsRoutes.perf_averageScore g,
                      AnalyticsRoutes.perf_passRate g)) groups
       = [("beth", 2, 75%float, 50%float); ("adam", 1, 80%float, 100%float)].
Proof. eexists. split; vm_compute; reflexivity. Qed.
